(** * swift/container/sync.py: the container-sync daemon

    A shallow embedding of [_Iter2FileLikeObject] and of
    [ContainerSync.container_sync] / [ContainerSync.container_sync_row],
    with the properties of the per-container pass that the design
    document states about them. *)

From Stdlib Require Import ZArith Lia Ascii String List.
From stdpp Require Import base tactics option list sorting gmap strings pretty.

Local Open Scope Z_scope.

(** ** Python values used by the module *)

(** Python 2 [str] holding object data: a sequence of bytes. *)
Abbreviation bytes := (list Byte.byte).

Module Py.

(** [c.lower()] on one character of a byte string. *)
Definition lower_ascii (c : ascii) : ascii :=
  let n := nat_of_ascii c in
  if (65 <=? n)%nat && (n <=? 90)%nat then ascii_of_nat (n + 32) else c.

(** [s.lower()] *)
Fixpoint lower (s : string) : string :=
  match s with
  | EmptyString => EmptyString
  | String c s' => String (lower_ascii c) (lower s')
  end.

(** [s.lstrip(c)] for a single character [c]. *)
Fixpoint lstrip (c : ascii) (s : string) : string :=
  match s with
  | EmptyString => EmptyString
  | String a s' => if Ascii.eqb a c then lstrip c s' else s
  end.

(** [s.rstrip(c)] *)
Definition rstrip (c : ascii) (s : string) : string :=
  String.rev (lstrip c (String.rev s)).

(** [s.strip(c)] *)
Definition strip (c : ascii) (s : string) : string :=
  rstrip c (lstrip c s).

(** [s.endswith(suffix)] *)
Definition endswith (s suffix : string) : bool :=
  String.prefix (String.rev suffix) (String.rev s).

(** Truth value of an optional string: [None] and [''] are false. *)
Definition truthy (o : option string) : bool :=
  match o with
  | Some s => negb (String.eqb s EmptyString)
  | None => false
  end.

End Py.

(** ** [_Iter2FileLikeObject] *)

Module Iter2FileLikeObject.

(** The object's two attributes.  [iterator] holds the chunks the
    wrapped iterator has not produced yet. *)
Record t := Build {
  iterator : list bytes;
  _chunk : bytes
}.

(** [__init__] *)
Definition init (iterator : list bytes) : t :=
  {| iterator := iterator; _chunk := [] |}.

(** [self.iterator.next()] guarded by [except StopIteration: pass],
    starting from [chunk = '']. *)
Definition next_or_empty (it : list bytes) : bytes * list bytes :=
  match it with
  | [] => ([], [])
  | c :: rest => (c, rest)
  end.

(** [read(size)]: the data returned and the object afterwards. *)
Definition read (self : t) (size : Z) : bytes * t :=
  if size <? 0 then
    let chunk := _chunk self in
    (chunk ++ concat (iterator self), {| iterator := []; _chunk := [] |})
  else
    let '(chunk, it) := next_or_empty (iterator self) in
    if Z.of_nat (length chunk) <=? size then
      (chunk, {| iterator := it; _chunk := _chunk self |})
    else
      (take (Z.to_nat size) chunk,
       {| iterator := it; _chunk := drop (Z.to_nat size) chunk |}).

(** A consumer issuing the reads [sizes] one after the other: the data
    of each read, and the object afterwards. *)
Fixpoint reads (self : t) (sizes : list Z) : list bytes * t :=
  match sizes with
  | [] => ([], self)
  | size :: sizes' =>
      let '(data, self1) := read self size in
      let '(datas, self2) := reads self1 sizes' in
      (data :: datas, self2)
  end.

End Iter2FileLikeObject.

Abbreviation b2s := String.list_byte_of_string (only parsing).

(** ** Exceptions, rows, brokers and the daemon *)

(** The exceptions the module can meet.  The first three derive from
    Python's [Exception]; only the first is a [client.ClientException].
    [BaseException name] is an exception that does not derive from
    [Exception], such as [KeyboardInterrupt], [SystemExit] or eventlet's
    [Timeout]: none of the module's [except] clauses catches it. *)
Inductive exn :=
| ClientException (http_status : Z)
| UnboundLocalError (variable : string)
| Exception (message : string)
| BaseException (name : string).

(** Whether [except Exception] catches [e]. *)
Definition is_Exception (e : exn) : bool :=
  match e with
  | BaseException _ => false
  | _ => true
  end.

Inductive Result (A : Type) :=
| Ok (a : A)
| Raise (e : exn).
Arguments Ok {A} a.
Arguments Raise {A} e.

(** One row of a container's [object] table, as [get_items_since]
    yields it. *)
Record Row := {
  ROWID : Z;
  name : string;
  created_at : string;
  deleted : bool
}.

(** A node of the object ring. *)
Record Node := {
  ip : string;
  port : Z;
  device : string
}.

(** A container database file: what the broker reads and writes. *)
Record ContainerDB := {
  account : string;
  container : string;
  x_container_sync_row : Z;
  db_is_deleted : bool;
  (** [metadata]: key, (value, timestamp), in [iteritems()] order. *)
  metadata : list (string * (string * string));
  (** the [object] table *)
  objects : list Row
}.

Definition with_x_container_sync_row (db : ContainerDB) (row : Z) : ContainerDB :=
  {| account := account db; container := container db;
     x_container_sync_row := row; db_is_deleted := db_is_deleted db;
     metadata := metadata db; objects := objects db |}.

(** A [ContainerBroker] object: a handle on the file [db_file]. *)
Record Broker := { db_file : string }.

(** The [info] dict returned by [broker.get_info()]. *)
Record Info := {
  info_account : string;
  info_container : string;
  info_x_container_sync_row : Z
}.

(** HTTP headers: a dict from header name to value. *)
Abbreviation Headers := (gmap string string).

(** [self]: the configuration the pass reads and the five counters. *)
Record ContainerSync := {
  container_time : Z;
  allowed_sync_hosts : list string;
  container_syncs : Z;
  container_deletes : Z;
  container_puts : Z;
  container_skips : Z;
  container_failures : Z
}.

Definition incr_syncs (s : ContainerSync) : ContainerSync :=
  {| container_time := container_time s; allowed_sync_hosts := allowed_sync_hosts s;
     container_syncs := container_syncs s + 1; container_deletes := container_deletes s;
     container_puts := container_puts s; container_skips := container_skips s;
     container_failures := container_failures s |}.

Definition incr_deletes (s : ContainerSync) : ContainerSync :=
  {| container_time := container_time s; allowed_sync_hosts := allowed_sync_hosts s;
     container_syncs := container_syncs s; container_deletes := container_deletes s + 1;
     container_puts := container_puts s; container_skips := container_skips s;
     container_failures := container_failures s |}.

Definition incr_puts (s : ContainerSync) : ContainerSync :=
  {| container_time := container_time s; allowed_sync_hosts := allowed_sync_hosts s;
     container_syncs := container_syncs s; container_deletes := container_deletes s;
     container_puts := container_puts s + 1; container_skips := container_skips s;
     container_failures := container_failures s |}.

Definition incr_skips (s : ContainerSync) : ContainerSync :=
  {| container_time := container_time s; allowed_sync_hosts := allowed_sync_hosts s;
     container_syncs := container_syncs s; container_deletes := container_deletes s;
     container_puts := container_puts s; container_skips := container_skips s + 1;
     container_failures := container_failures s |}.

Definition incr_failures (s : ContainerSync) : ContainerSync :=
  {| container_time := container_time s; allowed_sync_hosts := allowed_sync_hosts s;
     container_syncs := container_syncs s; container_deletes := container_deletes s;
     container_puts := container_puts s; container_skips := container_skips s;
     container_failures := container_failures s + 1 |}.

(** ** What a pass does to the outside *)

(** Requests sent over the network. *)
Inductive Call :=
| delete_object_call (url name : string) (headers : Headers)
| direct_get_object_call (node : Node) (part : Z) (account container obj : string)
| put_object_call (url name : string) (headers : Headers)
    (contents : Iter2FileLikeObject.t).

(** Lines written through [self.logger]. *)
Inductive LogLine :=
| logger_info_line (format : string) (args : list string)
| logger_exception_line (format : string) (args : list string).

(** The events of a pass, oldest first.  [EvSetCursor] is a call of
    [broker.set_x_container_sync_row].  [EvSyncRow] is a history
    variable: it records that [container_sync_row] was called on the row
    with that ROWID and what it returned. *)
Inductive Event :=
| EvRemote (c : Call)
| EvLog (l : LogLine)
| EvSetCursor (db_file : string) (row : Z)
| EvSyncRow (rowid : Z) (ok : bool).

(** The mutable world: the daemon object, the database files by path,
    how often the clock was read, and the events so far. *)
Record World := {
  daemon : ContainerSync;
  fs : gmap string ContainerDB;
  time_reads : nat;
  trace : list Event
}.

Definition with_daemon (f : ContainerSync -> ContainerSync) (w : World) : World :=
  {| daemon := f (daemon w); fs := fs w; time_reads := time_reads w; trace := trace w |}.

Definition with_fs (f : gmap string ContainerDB -> gmap string ContainerDB)
    (w : World) : World :=
  {| daemon := daemon w; fs := f (fs w); time_reads := time_reads w; trace := trace w |}.

Definition tick (w : World) : World :=
  {| daemon := daemon w; fs := fs w; time_reads := S (time_reads w); trace := trace w |}.

Definition emit (e : Event) (w : World) : World :=
  {| daemon := daemon w; fs := fs w; time_reads := time_reads w;
     trace := trace w ++ [e] |}.

(** The collaborators the module imports, as functions of what has
    happened so far.  [time_time n] is the [n]-th reading of
    [time.time()], in clock ticks. *)
Record Env := {
  ContainerBroker_raises : string -> option exn;
  time_time : nat -> Z;
  validate_sync_to : string -> list string -> option string;
  get_nodes : string -> string -> string -> Z * list Node;
  shuffle : list Event -> list Node -> list Node;
  shuffle_perm : forall h l, shuffle h l ≡ₚ l;
  direct_get_object :
    list Event -> Node -> Z -> string -> string -> string ->
    Result (Headers * list bytes);
  delete_object : list Event -> string -> string -> Headers -> Result unit;
  put_object :
    list Event -> string -> string -> Headers -> Iter2FileLikeObject.t ->
    Result unit
}.

(** ** A state-and-exception monad for method bodies

    A statement runs in a world and either yields a value or raises;
    the effects performed before a [raise] stay. *)

Definition M (A : Type) : Type := World -> Result A * World.

Definition ret {A} (a : A) : M A := fun w => (Ok a, w).

Definition raise {A} (e : exn) : M A := fun w => (Raise e, w).

Definition bind {A B} (c : M A) (k : A -> M B) : M B :=
  fun w =>
    match c w with
    | (Ok a, w1) => k a w1
    | (Raise e, w1) => (Raise e, w1)
    end.

Notation "x <- c1 ;; c2" := (bind c1 (fun x => c2))
  (at level 20, c1 at level 99, c2 at level 200, only parsing).
Notation "' pat <- c1 ;; c2" := (bind c1 (fun x => match x with pat => c2 end))
  (at level 20, pat pattern, c1 at level 99, c2 at level 200, only parsing).
Notation "c1 ;; c2" := (bind c1 (fun _ => c2))
  (at level 100, c2 at level 200, only parsing, right associativity).

(** [try: body / except ...: handler].  [handler e] is [None] when no
    [except] clause matches [e], which then propagates. *)
Definition try_except {A} (body : M A) (handler : exn -> option (M A)) : M A :=
  fun w =>
    match body w with
    | (Ok a, w1) => (Ok a, w1)
    | (Raise e, w1) =>
        match handler e with
        | Some h => h w1
        | None => (Raise e, w1)
        end
    end.

(** Reading a local variable: [UnboundLocalError] when nothing was
    assigned to it yet. *)
Definition local {A} (variable : string) (value : option A) : M A :=
  match value with
  | Some a => ret a
  | None => raise (UnboundLocalError variable)
  end.

Definition modify_self (f : ContainerSync -> ContainerSync) : M unit :=
  fun w => (Ok tt, with_daemon f w).

Definition get_self : M ContainerSync := fun w => (Ok (daemon w), w).

Definition logger_info (format : string) (args : list string) : M unit :=
  fun w => (Ok tt, emit (EvLog (logger_info_line format args)) w).

Definition logger_exception (format : string) (args : list string) : M unit :=
  fun w => (Ok tt, emit (EvLog (logger_exception_line format args)) w).

(** [time.time()] *)
Definition time (env : Env) : M Z :=
  fun w => (Ok (time_time env (time_reads w)), tick w).

(** A request to the network: the answer depends on the events so far,
    and the request is recorded whatever the answer. *)
Definition remote {A} (c : Call) (answer : list Event -> Result A) : M A :=
  fun w => (answer (trace w), emit (EvRemote c) w).

Definition client_delete_object (env : Env) (url name : string)
    (headers : Headers) : M unit :=
  remote (delete_object_call url name headers)
         (fun h => delete_object env h url name headers).

Definition direct_client_direct_get_object (env : Env) (node : Node) (part : Z)
    (account container obj : string) : M (Headers * list bytes) :=
  remote (direct_get_object_call node part account container obj)
         (fun h => direct_get_object env h node part account container obj).

Definition client_put_object (env : Env) (url name : string) (headers : Headers)
    (contents : Iter2FileLikeObject.t) : M unit :=
  remote (put_object_call url name headers contents)
         (fun h => put_object env h url name headers contents).

(** [random.shuffle(nodes)] *)
Definition random_shuffle (env : Env) (nodes : list Node) : M (list Node) :=
  fun w => (Ok (shuffle env (trace w) nodes), w).

(** ** The container broker

    [swift.common.db.ContainerBroker] is imported, not defined, by the
    module; its methods are modelled on a database file held in [fs]. *)

(** Modelled from the spec: [ContainerBroker(path)], "open the
    LocalStateAccessor for the path"; opening may fail. *)
Definition ContainerBroker (env : Env) (path : string) : M Broker :=
  match ContainerBroker_raises env path with
  | Some e => raise e
  | None => ret {| db_file := path |}
  end.

(** Modelled from the spec: every method of the LocalStateAccessor works
    on the database file behind the broker, and fails when there is no
    readable database at that path ("local-store corruption"). *)
Definition broker_db (broker : Broker) : M ContainerDB :=
  fun w =>
    match fs w !! db_file broker with
    | Some db => (Ok db, w)
    | None => (Raise (Exception "DatabaseError"), w)
    end.

(** Modelled from the spec: [getInfo() -> {account, container, cursor}]. *)
Definition get_info (broker : Broker) : M Info :=
  db <- broker_db broker ;;
  ret {| info_account := account db; info_container := container db;
         info_x_container_sync_row := x_container_sync_row db |}.

(** Modelled from the spec: [isDeleted() -> bool]. *)
Definition is_deleted (broker : Broker) : M bool :=
  db <- broker_db broker ;; ret (db_is_deleted db).

(** Modelled from the spec: [metadata -> mapping of key to (value,
    timestamp)]. *)
Definition broker_metadata (broker : Broker)
  : M (list (string * (string * string))) :=
  db <- broker_db broker ;; ret (metadata db).

(** The order of the rows of a table. *)
Definition rowid_le (r1 r2 : Row) : Prop := ROWID r1 <= ROWID r2.

#[global] Instance rowid_le_dec : RelDecision rowid_le.
Proof. intros r1 r2. unfold rowid_le. apply _. Defined.

(** Modelled from the spec: [getChangesSince(cursor, limit) -> ordered
    sequence of ChangeRow], the rows "strictly after the current cursor"
    in increasing ROWID order, at most [count] of them. *)
Definition rows_since (start : Z) (count : nat) (table : list Row) : list Row :=
  take count
    (merge_sort rowid_le (filter (fun r => start < ROWID r) table)).

(** Modelled from the spec: [getChangesSince] on the table of the
    database file behind the broker. *)
Definition get_items_since (broker : Broker) (start : Z) (count : nat)
  : M (list Row) :=
  db <- broker_db broker ;; ret (rows_since start count (objects db)).

(** Modelled from the spec: [setCursor(rowID)], the write-back of the
    cursor to the database file. *)
Definition set_x_container_sync_row (broker : Broker) (row : Z) : M unit :=
  db <- broker_db broker ;;
  fun w =>
    (Ok tt,
     emit (EvSetCursor (db_file broker) row)
       (with_fs (insert (db_file broker) (with_x_container_sync_row db row)) w)).

(** ** [ContainerSync.container_sync_row] *)

(** The replica fan-out, lines 263-281: the [for node in nodes] loop with
    its [else] clause.  [node] and [exc] are the locals of the same name,
    [node] being unbound until the loop assigns it. *)
Fixpoint get_from_nodes (env : Env) (part : Z) (info : Info) (row : Row)
    (nodes : list Node) (node : option Node) (exc : option exn)
  : M (Headers * list bytes) :=
  match nodes with
  | n :: rest =>
      try_except
        (direct_client_direct_get_object env n part
           (info_account info) (info_container info) (name row))
        (fun err =>
           match err with
           | ClientException _ =>
               Some (get_from_nodes env part info row rest (Some n) (Some err))
           | _ => None
           end)
  | [] =>
      match exc with
      | Some e => raise e
      | None =>
          node <- local "node" node ;;
          raise (Exception "Unknown exception trying to GET")
      end
  end.

(** The headers of the PUT, lines 282-288. *)
Definition put_headers (row : Row) (sync_key : string) (headers : Headers)
  : Headers :=
  let headers :=
    foldl (fun (h : Headers) (key : string) =>
             if decide (is_Some (h !! key)) then delete key h else h)
          headers ["date"; "last-modified"] in
  let headers :=
    match headers !! "etag" with
    | Some etag => <["etag" := Py.strip "034"%char etag]> headers
    | None => headers
    end in
  let headers := <["X-Timestamp" := created_at row]> headers in
  <["X-Container-Sync-Key" := sync_key]> headers.

(** The headers of the DELETE, lines 252-253. *)
Definition delete_headers (row : Row) (sync_key : string) : Headers :=
  {[ "X-Timestamp" := created_at row; "X-Container-Sync-Key" := sync_key ]}.

Definition row_error_format : string := "ERROR Syncing %(db_file)s %(row)s".

(** The two [except] clauses that end [container_sync_row], for an
    exception [err] that derives from [Exception]. *)
Definition container_sync_row_except (sync_to sync_key : string)
    (broker : Broker) (info : Info) (row : Row) (err : exn) : M bool :=
  match err with
  | ClientException http_status =>
      (if http_status =? 401 then
         logger_info "Unauth %(sync_from)r => %(sync_to)r key: %(sync_key)r"
           [info_account info; info_container info; sync_to; sync_key]
       else if http_status =? 404 then
         logger_info "Not found %(sync_from)r => %(sync_to)r key: %(sync_key)r"
           [info_account info; info_container info; sync_to; sync_key]
       else
         logger_exception row_error_format [db_file broker; name row]) ;;
      modify_self incr_failures ;;
      ret false
  | _ =>
      logger_exception row_error_format [db_file broker; name row] ;;
      modify_self incr_failures ;;
      ret false
  end.

Definition container_sync_row (env : Env) (row : Row) (sync_to sync_key : string)
    (broker : Broker) (info : Info) : M bool :=
  try_except
    ((if deleted row then
        try_except
          (client_delete_object env sync_to (name row)
             (delete_headers row sync_key))
          (fun err =>
             match err with
             | ClientException http_status =>
                 Some (if negb (http_status =? 404) then raise err else ret tt)
             | _ => None
             end) ;;
        modify_self incr_deletes
      else
        let '(part, nodes) :=
          get_nodes env (info_account info) (info_container info) (name row) in
        nodes <- random_shuffle env nodes ;;
        ' (headers, body) <- get_from_nodes env part info row nodes None None ;;
        let headers := put_headers row sync_key headers in
        client_put_object env sync_to (name row) headers
          (Iter2FileLikeObject.init body) ;;
        modify_self incr_puts) ;;
     ret true)
    (fun err =>
       if is_Exception err then
         Some (container_sync_row_except sync_to sync_key broker info row err)
       else None).

(** ** [ContainerSync.container_sync] *)

(** How a call of [container_sync] ended.  The method itself returns
    [None] on every path; the model returns the path taken.
    [Unfinished] belongs to the model only: the bound on the iterations of
    the row loop was reached ([container_sync_finishes] shows that this
    never happens). *)
Inductive pass_exit :=
| NotADatabase
| ContainerDeleted
| SyncNotConfigured
| InvalidSyncTo
| RowFailed
| RowsExhausted
| DeadlinePassed
| Failed
| Unfinished.

(** The scan of the metadata, lines 202-206. *)
Fixpoint scan_metadata (items : list (string * (string * string)))
    (sync_to sync_key : option string) : option string * option string :=
  match items with
  | [] => (sync_to, sync_key)
  | (key, (value, timestamp)) :: rest =>
      if String.eqb (Py.lower key) "x-container-sync-to" then
        scan_metadata rest (Some value) sync_key
      else if String.eqb (Py.lower key) "x-container-sync-key" then
        scan_metadata rest sync_to (Some value)
      else scan_metadata rest sync_to sync_key
  end.

(** History variable: [container_sync_row] was called on [row] and
    returned [ok]. *)
Definition note_sync_row (row : Row) (ok : bool) : M unit :=
  fun w => (Ok tt, emit (EvSyncRow (ROWID row) ok) w).

(** The row loop, lines 220-228.  [fuel] bounds the number of
    iterations. *)
Fixpoint sync_rows (fuel : nat) (env : Env) (broker : Broker) (info : Info)
    (sync_to sync_key : string) (stop_at sync_row : Z) : M pass_exit :=
  match fuel with
  | O => ret Unfinished
  | S fuel' =>
      now <- time env ;;
      if negb (now <? stop_at) then ret DeadlinePassed else
      rows <- get_items_since broker sync_row 1 ;;
      match rows with
      | [] => ret RowsExhausted
      | row :: _ =>
          ok <- container_sync_row env row sync_to sync_key broker info ;;
          note_sync_row row ok ;;
          if negb ok then ret RowFailed else
          let sync_row := ROWID row in
          set_x_container_sync_row broker sync_row ;;
          sync_rows fuel' env broker info sync_to sync_key stop_at sync_row
      end
  end.

(** A bound on the iterations of the row loop: every iteration but the
    last consumes a row of the table with a larger ROWID. *)
Definition row_loop_bound (broker : Broker) : M nat :=
  fun w =>
    (Ok (S (length (from_option objects [] (fs w !! db_file broker)))), w).

(** The body of the [try], from [broker.get_info()] on. *)
Definition container_sync_try (env : Env) (broker : Broker) : M pass_exit :=
  info <- get_info broker ;;
  is_del <- is_deleted broker ;;
  if negb is_del then
    let sync_row := info_x_container_sync_row info in
    items <- broker_metadata broker ;;
    let '(sync_to, sync_key) := scan_metadata items None None in
    if negb (Py.truthy sync_to) || negb (Py.truthy sync_key) then
      modify_self incr_skips ;;
      ret SyncNotConfigured
    else
      let sync_to := Py.rstrip "/" (default EmptyString sync_to) in
      let sync_key := default EmptyString sync_key in
      self <- get_self ;;
      let err := validate_sync_to env sync_to (allowed_sync_hosts self) in
      if Py.truthy err then
        logger_info "ERROR %(db_file)s: %(validate_sync_to_err)s"
          [db_file broker; default EmptyString err] ;;
        modify_self incr_failures ;;
        ret InvalidSyncTo
      else
        now <- time env ;;
        let stop_at := now + container_time self in
        fuel <- row_loop_bound broker ;;
        exit <- sync_rows fuel env broker info sync_to sync_key stop_at sync_row ;;
        match exit with
        | RowsExhausted | DeadlinePassed =>
            modify_self incr_syncs ;;
            ret exit
        | _ => ret exit
        end
  else ret ContainerDeleted.

(** The [except Exception] clause, lines 230-232.  [broker] is the local
    variable of the [try] body: unbound when [ContainerBroker(path)]
    itself raised. *)
Definition container_sync_except (broker : option Broker) : M pass_exit :=
  modify_self incr_failures ;;
  broker <- local "broker" broker ;;
  logger_exception "ERROR Syncing %s" [db_file broker] ;;
  ret Failed.

Definition container_sync (env : Env) (path : string) : M pass_exit :=
  if negb (Py.endswith path ".db") then ret NotADatabase else
  fun w =>
    match ContainerBroker env path w with
    | (Raise e, w1) =>
        if is_Exception e then container_sync_except None w1 else (Raise e, w1)
    | (Ok broker, w1) =>
        match container_sync_try env broker w1 with
        | (Raise e, w2) =>
            if is_Exception e then container_sync_except (Some broker) w2
            else (Raise e, w2)
        | (Ok exit, w2) => (Ok exit, w2)
        end
    end.

(** ** Vocabulary for the events of a pass *)

(** Events that neither move the cursor nor start a row. *)
Definition quiet (e : Event) : Prop :=
  match e with
  | EvRemote _ | EvLog _ => True
  | EvSetCursor _ _ | EvSyncRow _ _ => False
  end.

(** [w'] is [w] after the events [evs], database files and clock
    untouched. *)
Definition after (w : World) (evs : list Event) (w' : World) : Prop :=
  fs w' = fs w /\ time_reads w' = time_reads w /\ trace w' = trace w ++ evs.

(** The ROWID of the last row in [evs] that [container_sync_row] synced,
    or [c] when there is none. *)
Fixpoint last_success (c : Z) (evs : list Event) : Z :=
  match evs with
  | [] => c
  | EvSyncRow n true :: evs' => last_success n evs'
  | _ :: evs' => last_success c evs'
  end.

(** The values written to the cursor, in order. *)
Fixpoint cursor_writes (evs : list Event) : list Z :=
  match evs with
  | [] => []
  | EvSetCursor _ n :: evs' => n :: cursor_writes evs'
  | _ :: evs' => cursor_writes evs'
  end.

(** The ROWIDs of the rows attempted, in order. *)
Fixpoint attempted (evs : list Event) : list Z :=
  match evs with
  | [] => []
  | EvSyncRow n _ :: evs' => n :: attempted evs'
  | _ :: evs' => attempted evs'
  end.

(** The shape of the events of a pass over the table of the database at
    [path], started with the cursor at [c]. *)
Inductive row_events (path : string) (table : list Row) : Z -> list Event -> Prop :=
| row_events_stop c q :
    Forall quiet q ->
    row_events path table c q
| row_events_failed c row q :
    rows_since c 1 table = [row] ->
    Forall quiet q ->
    row_events path table c (q ++ [EvSyncRow (ROWID row) false])
| row_events_synced c row q rest :
    rows_since c 1 table = [row] ->
    Forall quiet q ->
    row_events path table (ROWID row) rest ->
    row_events path table c
      (q ++ EvSyncRow (ROWID row) true :: EvSetCursor path (ROWID row) :: rest).

(** What the outcome of the row loop says about the run. *)
Definition exit_reason (env : Env) (table : list Row) (stop_at : Z)
    (c : Z) (evs : list Event) (w' : World) (exit : pass_exit) : Prop :=
  match exit with
  | RowsExhausted =>
      rows_since (last_success c evs) 1 table = []
      /\ forall n, EvSyncRow n false ∉ evs
  | DeadlinePassed =>
      stop_at <= time_time env (pred (time_reads w'))
      /\ forall n, EvSyncRow n false ∉ evs
  | RowFailed => exists pre n, evs = pre ++ [EvSyncRow n false]
  | _ => False
  end.

(** The outcomes after which [container_syncs] was incremented. *)
Definition completed (r : Result pass_exit) : bool :=
  match r with
  | Ok RowsExhausted | Ok DeadlinePassed => true
  | _ => false
  end.

(** The deadline of the pass started in [w]. *)
Definition deadline (env : Env) (w : World) : Z :=
  time_time env (time_reads w) + container_time (daemon w).

(** No metadata item named [key], whatever its case, has a value. *)
Definition lacks (key : string) (items : list (string * (string * string))) : Prop :=
  forall k v t, (k, (v, t)) ∈ items -> Py.lower k = key -> v = EmptyString.

(** ** Scenarios *)

Module Scenario.

Definition row (rowid : Z) (name : string) (deleted : bool) : Row :=
  {| ROWID := rowid; name := name; created_at := "1400000000.00000";
     deleted := deleted |}.

Definition self0 : ContainerSync :=
  {| container_time := 60; allowed_sync_hosts := ["10.0.0.5"];
     container_syncs := 0; container_deletes := 0; container_puts := 0;
     container_skips := 0; container_failures := 0 |}.

Definition sync_metadata : list (string * (string * string)) :=
  [("X-Container-Sync-To", ("http://10.0.0.5/v1/AUTH_x/dest/", "1399999999.00000"));
   ("X-Container-Sync-Key", ("secret", "1399999999.00000"))].

Definition db (cursor : Z) (is_del : bool)
    (metadata : list (string * (string * string))) (rows : list Row)
  : ContainerDB :=
  {| account := "AUTH_a"; container := "c"; x_container_sync_row := cursor;
     db_is_deleted := is_del; metadata := metadata; objects := rows |}.

(** A world holding the one database file ["c.db"]. *)
Definition world (d : ContainerDB) : World :=
  {| daemon := self0; fs := {[ "c.db" := d ]}; time_reads := 0%nat; trace := [] |}.

Definition node1 : Node := {| ip := "10.0.1.1"; port := 6000; device := "sda" |}.
Definition node2 : Node := {| ip := "10.0.1.2"; port := 6000; device := "sdb" |}.

Definition quoted (s : string) : string :=
  String "034"%char (s +:+ String "034"%char EmptyString).

Definition fetched_headers : Headers :=
  {[ "etag" := quoted "abc"; "date" := "Tue, 13 May 2014 17:00:00 GMT";
     "last-modified" := "Tue, 13 May 2014 16:53:20 GMT";
     "content-length" := "5" ]}.

(** Collaborators that always succeed, except where the parameters say
    otherwise: whether opening a broker raises, the clock, the verdict
    of [validate_sync_to], the nodes of the ring, and the answer to a
    DELETE of the object with a given name. *)
Definition env (broker_raises : option exn) (clock : nat -> Z)
    (verdict : option string) (nodes : list Node)
    (delete_answer : string -> Result unit) : Env :=
  {| ContainerBroker_raises := fun _ => broker_raises;
     time_time := clock;
     validate_sync_to := fun _ _ => verdict;
     get_nodes := fun _ _ _ => (7, nodes);
     shuffle := fun _ l => l;
     shuffle_perm := fun _ l => Permutation_refl l;
     direct_get_object := fun _ _ _ _ _ _ => Ok (fetched_headers, [b2s "hello"]);
     delete_object := fun _ _ name _ => delete_answer name;
     put_object := fun _ _ _ _ _ => Ok tt |}.

Definition seconds (n : nat) : Z := Z.of_nat n.

Definition env_ok : Env :=
  env None seconds None [node1; node2] (fun _ => Ok tt).

(** Rows 5, 6 and 7 are deletions; the DELETE of ["o6"] fails. *)
Definition db567 : ContainerDB :=
  db 4 false sync_metadata [row 5 "o5" true; row 6 "o6" true; row 7 "o7" true].

Definition env567 : Env :=
  env None seconds None [node1; node2]
    (fun name => if String.eqb name "o6" then Raise (ClientException 503)
                 else Ok tt).


Definition db12 : ContainerDB :=
  db 0 false sync_metadata [row 1 "a.txt" false; row 2 "b.txt" false].


(** Opening the broker fails. *)
Definition env_unopenable : Env :=
  env (Some (Exception "unable to open database file")) seconds None
    [node1; node2] (fun _ => Ok tt).

(** A deleted container without sync metadata, and one with it. *)
Definition db_deleted_plain : ContainerDB := db 0 true [] [].
Definition db_deleted_synced : ContainerDB := db 0 true sync_metadata [].

(** A container with a sync target but no key. *)
Definition db_no_key : ContainerDB :=
  db 0 false
     [("X-Container-Sync-To", ("http://10.0.0.5/v1/AUTH_x/dest/", "1399999999.00000"));
      ("X-Container-Sync-Key", ("", "1399999999.50000"))]
     [row 1 "a.txt" false].

(** [validate_sync_to] rejects the target. *)
Definition env_invalid : Env :=
  env None seconds (Some "Invalid host '10.0.0.5' in X-Container-Sync-To")
    [node1; node2] (fun _ => Ok tt).

(** The ring has no node for the object. *)
Definition env_no_nodes : Env :=
  env None seconds None [] (fun _ => Ok tt).

(** The remote side does not have the object to delete. *)
Definition env_gone : Env :=
  env None seconds None [node1; node2] (fun _ => Raise (ClientException 404)).

Definition broker0 : Broker := {| db_file := "c.db" |}.
Definition info0 : Info :=
  {| info_account := "AUTH_a"; info_container := "c";
     info_x_container_sync_row := 0 |}.

(** One pending row, a PUT or a DELETE. *)
Definition db_put : ContainerDB := db 0 false sync_metadata [row 1 "a.txt" false].
Definition db_delete : ContainerDB := db 1 false sync_metadata [row 2 "a.txt" true].

(** The worlds the passes below start in. *)
Definition w567 : World := world db567.
Definition w12 : World := world db12.
Definition w_deleted_plain : World := world db_deleted_plain.
Definition w_deleted_synced : World := world db_deleted_synced.
Definition w_no_key : World := world db_no_key.

(** A source of one chunk and a source of two. *)
Definition one_chunk : list bytes := [b2s "abcdef"].
Definition two_chunks : list bytes := [b2s "abcdef"; b2s "ghijkl"].

End Scenario.

(** ** The rest of the module: [__init__], [report], [run_once] *)

(** More of Python's [str]. *)
Module Str.

(** [s.split(sep)] for a single character [sep]. *)
Fixpoint split (sep : ascii) (s : string) : list string :=
  match s with
  | EmptyString => [EmptyString]
  | String a s' =>
      if Ascii.eqb a sep then EmptyString :: split sep s'
      else
        match split sep s' with
        | piece :: pieces => String a piece :: pieces
        | [] => [String a EmptyString]
        end
  end.

(** [s.lstrip()]: without leading whitespace. *)
Fixpoint lstrip (s : string) : string :=
  match s with
  | EmptyString => EmptyString
  | String a s' => if Ascii.is_space a then lstrip s' else s
  end.

(** [s.rstrip()]: without trailing whitespace. *)
Fixpoint rstrip (s : string) : string :=
  match s with
  | EmptyString => EmptyString
  | String a s' =>
      let r := rstrip s' in
      if Ascii.is_space a && String.eqb r EmptyString then EmptyString
      else String a r
  end.

(** [s.strip()] *)
Definition strip (s : string) : string := lstrip (rstrip s).

(** [sep.join(pieces)] *)
Fixpoint join (sep : string) (pieces : list string) : string :=
  match pieces with
  | [] => EmptyString
  | [piece] => piece
  | piece :: pieces' => piece +:+ sep +:+ join sep pieces'
  end.

(** The character [c] occurs in [s]. *)
Fixpoint contains (c : ascii) (s : string) : bool :=
  match s with
  | EmptyString => false
  | String a s' => Ascii.eqb a c || contains c s'
  end.

End Str.

(** What the module takes from Python and from [swift.common.utils]:
    [int] on a string ([None] for a [ValueError]), the constant
    [TRUE_VALUES], [time.ctime], and the locations
    [audit_location_generator] yields for a device directory. *)
Record Lib := {
  int : string -> option Z;
  TRUE_VALUES : list string;
  ctime : Z -> string;
  audit_location_generator : string -> bool -> list (string * string * string)
}.

(** The attributes of [self] that a pass does not read. *)
Record Attrs := {
  devices : string;
  mount_check : bool;
  interval : Z;
  reported : Z
}.

Definition with_reported (attrs : Attrs) (now : Z) : Attrs :=
  {| devices := devices attrs; mount_check := mount_check attrs;
     interval := interval attrs; reported := now |}.

(** [int(conf.get(key, default))], the default being an [int] already. *)
Definition conf_int (lib : Lib) (conf : gmap string string) (key : string)
    (default : Z) : M Z :=
  match conf !! key with
  | None => ret default
  | Some value =>
      match int lib value with
      | Some n => ret n
      | None => raise (Exception "ValueError")
      end
  end.

(** The list comprehension of lines 105-107. *)
Definition parse_allowed_sync_hosts (value : string) : list string :=
  omap (fun h => if negb (String.eqb (Str.strip h) EmptyString)
                 then Some (Str.strip h) else None)
       (Str.split "," value).

(** [ContainerSync.__init__], lines 85-124: the new object becomes the
    [daemon] of the world, and its other attributes are returned.  The
    logger and the object ring are collaborators of the pass. *)
Definition ContainerSync_init (lib : Lib) (env : Env) (conf : gmap string string)
  : M Attrs :=
  let devices := default "/srv/node"%string (conf !! "devices") in
  let mount_check :=
    bool_decide
      (Py.lower (default "true"%string (conf !! "mount_check")) ∈ TRUE_VALUES lib) in
  interval <- conf_int lib conf "interval" 300 ;;
  container_time <- conf_int lib conf "container_time" 60 ;;
  let allowed_sync_hosts :=
    parse_allowed_sync_hosts
      (default "127.0.0.1"%string (conf !! "allowed_sync_hosts")) in
  modify_self (fun _ =>
    {| container_time := container_time;
       allowed_sync_hosts := allowed_sync_hosts;
       container_syncs := 0; container_deletes := 0; container_puts := 0;
       container_skips := 0; container_failures := 0 |}) ;;
  now <- time env ;;
  ret {| devices := devices; mount_check := mount_check;
         interval := interval; reported := now |}.

Definition reset_counters (s : ContainerSync) : ContainerSync :=
  {| container_time := container_time s;
     allowed_sync_hosts := allowed_sync_hosts s;
     container_syncs := 0; container_deletes := 0; container_puts := 0;
     container_skips := 0; container_failures := 0 |}.

Definition report_format : string :=
  "Since %(time)s: %(sync)s synced [%(delete)s deletes, %(put)s puts], %(skip)s skipped, %(fail)s failed".

(** [ContainerSync.report], lines 164-183; the clock counts seconds. *)
Definition report (lib : Lib) (env : Env) (attrs : Attrs) : M Attrs :=
  self <- get_self ;;
  logger_info report_format
    [ctime lib (reported attrs); pretty (container_syncs self);
     pretty (container_deletes self); pretty (container_puts self);
     pretty (container_skips self); pretty (container_failures self)] ;;
  now <- time env ;;
  modify_self reset_counters ;;
  ret (with_reported attrs now).

(** The [for] loop of [run_once] and of [run_forever], lines 137-140 and
    155-158. *)
Fixpoint scan (lib : Lib) (env : Env)
    (all_locs : list (string * string * string)) (attrs : Attrs) : M Attrs :=
  match all_locs with
  | [] => ret attrs
  | (path, device, partition) :: rest =>
      container_sync env path ;;
      now <- time env ;;
      attrs <- (if 3600 <=? now - reported attrs then report lib env attrs
                else ret attrs) ;;
      scan lib env rest attrs
  end.

Definition quote : string := String "034"%char EmptyString.

(** [ContainerSync.run_once], lines 145-162. *)
Definition run_once (lib : Lib) (env : Env) (attrs : Attrs) : M Attrs :=
  logger_info ("Begin container sync " +:+ quote +:+ "once" +:+ quote +:+ " mode") [] ;;
  begin <- time env ;;
  let all_locs := audit_location_generator lib (devices attrs) (mount_check attrs) in
  attrs <- scan lib env all_locs attrs ;;
  attrs <- report lib env attrs ;;
  now <- time env ;;
  let elapsed := now - begin in
  logger_info ("Container sync " +:+ quote +:+ "once" +:+ quote
               +:+ " mode completed: %.02fs") [pretty elapsed] ;;
  ret attrs.

(** ** More vocabulary for events *)

(** [w] after the events [evs]. *)
Definition emit_all (evs : list Event) (w : World) : World :=
  {| daemon := daemon w; fs := fs w; time_reads := time_reads w;
     trace := trace w ++ evs |}.

(** The GET of the row's object sent to node [n]. *)
Definition get_call (part : Z) (info : Info) (row : Row) (n : Node) : Event :=
  EvRemote (direct_get_object_call n part (info_account info)
              (info_container info) (name row)).

(** The requests among the events. *)
Definition calls (evs : list Event) : list Call :=
  omap (fun e => match e with EvRemote c => Some c | _ => None end) evs.

(** The ROWIDs of the rows synced, in order. *)
Fixpoint synced (evs : list Event) : list Z :=
  match evs with
  | [] => []
  | EvSyncRow n true :: evs' => n :: synced evs'
  | _ :: evs' => synced evs'
  end.

(** The values of the metadata items named [key], whatever the case of
    their keys, in iteration order. *)
Definition values_of (key : string) (items : list (string * (string * string)))
  : list string :=
  omap (fun item => if String.eqb (Py.lower (fst item)) key
                    then Some (fst (snd item)) else None) items.

(** The counters [after] a run against those [before]: [rows] more rows
    synced, [failed] more failures, everything else as it was. *)
Definition tally (before after : ContainerSync) (rows failed : Z) : Prop :=
  container_time after = container_time before
  /\ allowed_sync_hosts after = allowed_sync_hosts before
  /\ container_syncs after = container_syncs before
  /\ container_skips after = container_skips before
  /\ container_deletes before <= container_deletes after
  /\ container_puts before <= container_puts after
  /\ container_deletes after + container_puts after
     = container_deletes before + container_puts before + rows
  /\ container_failures after = container_failures before + failed.

(** The failure a run of the row loop counted. *)
Definition failed_exit (r : Result pass_exit) : Z :=
  match r with
  | Ok RowFailed => 1
  | _ => 0
  end.

(** Collaborators that answer every request: each DELETE and PUT
    succeeds, each node returns the object, and the ring has nodes for
    every object. *)
Definition healthy (env : Env) : Prop :=
  (forall h url name headers, delete_object env h url name headers = Ok tt)
  /\ (forall h url name headers contents,
        put_object env h url name headers contents = Ok tt)
  /\ (forall h node part account container obj,
        exists answer,
          direct_get_object env h node part account container obj = Ok answer)
  /\ (forall account container obj, snd (get_nodes env account container obj) <> []).

(** The attributes a scan does not touch. *)
Definition same_setup (attrs attrs' : Attrs) : Prop :=
  devices attrs' = devices attrs /\ mount_check attrs' = mount_check attrs
  /\ interval attrs' = interval attrs.

(** A request that leaves the cluster goes to [url] and carries [key]. *)
Definition to_target (url key : string) (c : Call) : Prop :=
  match c with
  | delete_object_call u _ headers | put_object_call u _ headers _ =>
      u = url /\ headers !! "X-Container-Sync-Key" = Some key
  | direct_get_object_call _ _ _ _ _ => True
  end.

(** ** The counters, and the calls of [container_sync_row] in a pass *)

(** The counters of [s'] are those of [s] with [syncs], [deletes],
    [puts], [skips] and [failures] added, and the configuration is the
    same. *)
Definition counts (s s' : ContainerSync) (syncs deletes puts skips failures : Z)
  : Prop :=
  container_time s' = container_time s
  /\ allowed_sync_hosts s' = allowed_sync_hosts s
  /\ container_syncs s' = container_syncs s + syncs
  /\ container_deletes s' = container_deletes s + deletes
  /\ container_puts s' = container_puts s + puts
  /\ container_skips s' = container_skips s + skips
  /\ container_failures s' = container_failures s + failures.

(** No collaborator raises an exception that [except Exception] does not
    catch. *)
Definition only_Exceptions (env : Env) : Prop :=
  (forall h url name headers e,
     delete_object env h url name headers = Raise e -> is_Exception e = true)
  /\ (forall h node part account container obj e,
        direct_get_object env h node part account container obj = Raise e ->
        is_Exception e = true)
  /\ (forall h url name headers contents e,
        put_object env h url name headers contents = Raise e ->
        is_Exception e = true).

(** Some request to a collaborator was answered by raising [e]. *)
Definition raised_by (env : Env) (e : exn) : Prop :=
  (exists h url name headers, delete_object env h url name headers = Raise e)
  \/ (exists h node part account container obj,
        direct_get_object env h node part account container obj = Raise e)
  \/ (exists h url name headers contents,
        put_object env h url name headers contents = Raise e).

(** A line of the log. *)
Definition is_log (e : Event) : Prop :=
  match e with
  | EvLog _ => True
  | _ => False
  end.

(** What a pass over the database [db] hands to [container_sync_row]. *)
Definition info_of (db : ContainerDB) : Info :=
  {| info_account := account db; info_container := container db;
     info_x_container_sync_row := x_container_sync_row db |}.

Definition sync_to_of (db : ContainerDB) : string :=
  Py.rstrip "/" (default EmptyString (fst (scan_metadata (metadata db) None None))).

Definition sync_key_of (db : ContainerDB) : string :=
  default EmptyString (snd (scan_metadata (metadata db) None None)).

Section Pass_rows.

Variables (env : Env) (broker : Broker) (info : Info) (sync_to sync_key : string)
  (table : list Row).

(** [container_sync_row], called on [row] when the events so far are [h],
    ends with [r] and has added the events [seg]. *)
Definition row_run (h : list Event) (row : Row) (r : Result bool)
    (seg : list Event) : Prop :=
  exists w1 w2,
    trace w1 = h
    /\ container_sync_row env row sync_to sync_key broker info w1 = (r, w2)
    /\ trace w2 = h ++ seg.

(** [pass_rows h c log evs]: the events [evs] of a pass that starts after
    the events [h] with the cursor at [c] are those of the calls [log] of
    [container_sync_row], one call after the other and nothing in
    between.  Each call is made on the row [get_items_since] yields for
    the cursor as it then stands; when it returns [True] that is noted
    and the cursor is written; when it returns [False] that is noted and
    the pass is over; when it raises the pass is over.  A pass that calls
    no further row adds nothing but lines of its own to the log. *)
Inductive pass_rows
  : list Event -> Z -> list (Row * Result bool) -> list Event -> Prop :=
| pass_rows_end h c q :
    Forall is_log q ->
    pass_rows h c [] q
| pass_rows_raised h c row e seg :
    rows_since c 1 table = [row] ->
    row_run h row (Raise e) seg ->
    pass_rows h c [(row, Raise e)] seg
| pass_rows_failed h c row seg :
    rows_since c 1 table = [row] ->
    row_run h row (Ok false) seg ->
    pass_rows h c [(row, Ok false)] (seg ++ [EvSyncRow (ROWID row) false])
| pass_rows_synced h c row seg log rest :
    rows_since c 1 table = [row] ->
    row_run h row (Ok true) seg ->
    pass_rows
      (h ++ seg ++ [EvSyncRow (ROWID row) true;
                    EvSetCursor (db_file broker) (ROWID row)])
      (ROWID row) log rest ->
    pass_rows h c ((row, Ok true) :: log)
      (seg ++ EvSyncRow (ROWID row) true
           :: EvSetCursor (db_file broker) (ROWID row) :: rest).

End Pass_rows.

(** The rows of a log for which [container_sync_row] returned [True]. *)
Definition rows_synced (log : list (Row * Result bool)) : list Row :=
  omap (fun entry => match snd entry with
                     | Ok true => Some (fst entry)
                     | _ => None
                     end) log.

(** The name of the object a request is about. *)
Definition call_name (c : Call) : string :=
  match c with
  | delete_object_call _ name _ => name
  | direct_get_object_call _ _ _ _ obj => obj
  | put_object_call _ name _ _ => name
  end.

(** ** More scenarios *)

Module Setup.

(** The number written with the decimal digits [s], after [acc]. *)
Fixpoint digits (s : string) (acc : Z) : option Z :=
  match s with
  | EmptyString => Some acc
  | String a s' =>
      let d := Z.of_N (Ascii.N_of_ascii a) - 48 in
      if (0 <=? d) && (d <=? 9) then digits s' (10 * acc + d) else None
  end.

(** Python's [int] on a string: decimal digits, at least one, after an
    optional sign, with whitespace allowed around the whole. *)
Definition int_of_string (s : string) : option Z :=
  let number (d : string) :=
    if String.eqb d EmptyString then None else digits d 0 in
  match Str.strip s with
  | String "-" d => Z.opp <$> number d
  | String "+" d => number d
  | d => number d
  end.

Definition lib (locs : list (string * string * string)) : Lib :=
  {| int := int_of_string;
     TRUE_VALUES := ["true"; "1"; "yes"; "on"; "t"; "y"];
     ctime := fun t => pretty t;
     audit_location_generator := fun _ _ => locs |}.

Definition attrs0 : Attrs :=
  {| devices := "/srv/node"; mount_check := true; interval := 300;
     reported := 0 |}.

(** Two container databases on the device. *)
Definition locs : list (string * string * string) :=
  [("a.db", "sda", "11"); ("c.db", "sda", "12")].

(** The clock stands still. *)
Definition env_frozen : Env :=
  Scenario.env None (fun _ => 0) None [Scenario.node1; Scenario.node2]
    (fun _ => Ok tt).

(** The first node does not have the object, the second does. *)
Definition env_first_404 : Env :=
  {| ContainerBroker_raises := fun _ => None;
     time_time := Scenario.seconds;
     validate_sync_to := fun _ _ => None;
     get_nodes := fun _ _ _ => (7, [Scenario.node1; Scenario.node2]);
     shuffle := fun _ l => l;
     shuffle_perm := fun _ l => Permutation_refl l;
     direct_get_object := fun _ node _ _ _ _ =>
       if String.eqb (ip node) "10.0.1.1" then Raise (ClientException 404)
       else Ok (Scenario.fetched_headers, [b2s "hello"]);
     delete_object := fun _ _ _ _ => Ok tt;
     put_object := fun _ _ _ _ _ => Ok tt |}.

(** No node has the object. *)
Definition env_all_404 : Env :=
  {| ContainerBroker_raises := fun _ => None;
     time_time := Scenario.seconds;
     validate_sync_to := fun _ _ => None;
     get_nodes := fun _ _ _ => (7, [Scenario.node1; Scenario.node2]);
     shuffle := fun _ l => l;
     shuffle_perm := fun _ l => Permutation_refl l;
     direct_get_object := fun _ _ _ _ _ _ => Raise (ClientException 404);
     delete_object := fun _ _ _ _ => Ok tt;
     put_object := fun _ _ _ _ _ => Ok tt |}.

(** The database ["c.db"] cannot be opened. *)
Definition env_locked : Env :=
  {| ContainerBroker_raises := fun path =>
       if String.eqb path "c.db"
       then Some (Exception "unable to open database file") else None;
     time_time := Scenario.seconds;
     validate_sync_to := fun _ _ => None;
     get_nodes := fun _ _ _ => (7, [Scenario.node1; Scenario.node2]);
     shuffle := fun _ l => l;
     shuffle_perm := fun _ l => Permutation_refl l;
     direct_get_object := fun _ _ _ _ _ _ =>
       Ok (Scenario.fetched_headers, [b2s "hello"]);
     delete_object := fun _ _ _ _ => Ok tt;
     put_object := fun _ _ _ _ _ => Ok tt |}.

(** A daemon configured with [container_time = 0]. *)
Definition w_no_budget : World :=
  {| daemon :=
       {| container_time := 0; allowed_sync_hosts := ["10.0.0.5"];
          container_syncs := 0; container_deletes := 0; container_puts := 0;
          container_skips := 0; container_failures := 0 |};
     fs := {[ "c.db" := Scenario.db12 ]}; time_reads := 0%nat; trace := [] |}.

(** No database file at all. *)
Definition w_empty : World :=
  {| daemon := Scenario.self0; fs := ∅; time_reads := 0%nat; trace := [] |}.

End Setup.

(** * Properties *)

(** ** The iterator-to-file adapter *)

Section Iter2FileLikeObject_facts.
Import Iter2FileLikeObject.

(** A sized read never returns more than [size] bytes. *)
Lemma read_at_most_size (self : t) (size : Z) :
  0 <= size -> Z.of_nat (length (fst (read self size))) <= size.
Proof.
  intros Hsize. unfold read.
  destruct (Z.ltb_spec size 0) as [Hneg|_]; [lia|].
  destruct (next_or_empty (iterator self)) as [chunk it].
  destruct (Z.leb_spec (Z.of_nat (length chunk)) size) as [Hfit|Hbig]; simpl.
  - exact Hfit.
  - rewrite length_take. lia.
Qed.

(** A sized read hands over the next chunk whole when it fits. *)
Lemma read_chunk_fits (chunk : bytes) (rest : list bytes) (kept : bytes) (size : Z) :
  Z.of_nat (length chunk) <= size ->
  read (Build (chunk :: rest) kept) size = (chunk, Build rest kept).
Proof.
  intros Hfit. unfold read.
  destruct (Z.ltb_spec size 0) as [Hneg|_]; [lia|]. simpl.
  destruct (Z.leb_spec (Z.of_nat (length chunk)) size); [reflexivity | lia].
Qed.

(** When every chunk fits, reading chunk by chunk returns the source
    unchanged: the situation of the daemon, which asks the replica for
    chunks of 65536 bytes and whose PUT reads 65536 bytes at a time. *)
Lemma reads_chunks_fit (source : list bytes) (kept : bytes) (size : Z) :
  Forall (fun chunk => Z.of_nat (length chunk) <= size) source ->
  reads (Build source kept) (replicate (length source) size)
  = (source, Build [] kept).
Proof.
  induction 1 as [|chunk rest Hfit _ IH]; [reflexivity|].
  cbn [length replicate reads]. rewrite (read_chunk_fits _ _ _ _ Hfit).
  rewrite IH. reflexivity.
Qed.

(** A read that cuts a chunk keeps the remainder in [_chunk], and the
    next sized read does not look at [_chunk]. *)
Lemma read_ignores_chunk (self : t) (kept : bytes) (size : Z) :
  0 <= size ->
  fst (read (Build (iterator self) kept) size) = fst (read self size).
Proof.
  intros Hsize. unfold read.
  destruct (Z.ltb_spec size 0) as [Hneg|_]; [lia|]. cbn [iterator].
  destruct (next_or_empty (iterator self)) as [chunk it].
  destruct (Z.of_nat (length chunk) <=? size); reflexivity.
Qed.

End Iter2FileLikeObject_facts.

(** C4.  The adapter is not a faithful read-once stream.  A sized read
    that cuts a chunk stores the remainder in [_chunk], but the next
    sized read fetches a new chunk without returning that remainder.
    On the source ["abcdef"], [read(2)] returns "ab" and the next
    [read(2)] returns the empty string, the end of the stream: "cdef"
    was never delivered.  On ["abcdef"; "ghijkl"], reads of 2 bytes
    return "ab", "gh" and the empty string, and even a final read to the
    end returns only "ijkl": the remainder "cdef" was overwritten.  In
    each case the data read differs from the concatenation of the
    source. *)
Theorem read_loses_bytes :
  Iter2FileLikeObject.reads (Iter2FileLikeObject.init Scenario.one_chunk) [2; 2]
    = ([b2s "ab"; []], Iter2FileLikeObject.Build [] (b2s "cdef"))
  /\ concat (fst (Iter2FileLikeObject.reads
                    (Iter2FileLikeObject.init Scenario.one_chunk) [2; 2]))
     <> concat Scenario.one_chunk
  /\ Iter2FileLikeObject.reads (Iter2FileLikeObject.init Scenario.two_chunks) [2; 2; 2]
    = ([b2s "ab"; b2s "gh"; []], Iter2FileLikeObject.Build [] (b2s "ijkl"))
  /\ Iter2FileLikeObject.reads (Iter2FileLikeObject.init Scenario.two_chunks) [2; 2; -1]
    = ([b2s "ab"; b2s "gh"; b2s "ijkl"], Iter2FileLikeObject.Build [] [])
  /\ concat (fst (Iter2FileLikeObject.reads
                    (Iter2FileLikeObject.init Scenario.two_chunks) [2; 2; -1]))
     <> concat Scenario.two_chunks.
Proof. repeat split; try reflexivity; discriminate. Qed.

Example strip_quotes : Py.strip "034"%char (Scenario.quoted "abc") = "abc".
Proof. reflexivity. Qed.

Example read_fits :
  Iter2FileLikeObject.read (Iter2FileLikeObject.init [b2s "ab"; b2s "cd"]) 4
  = (b2s "ab", Iter2FileLikeObject.Build [b2s "cd"] []).
Proof. reflexivity. Qed.

(** ** One row *)

#[global] Instance rowid_le_total : Total rowid_le.
Proof. intros r1 r2. unfold rowid_le. lia. Qed.

#[global] Instance rowid_le_trans : Transitive rowid_le.
Proof. intros r1 r2 r3. unfold rowid_le. lia. Qed.

Lemma after_refl w : after w [] w.
Proof. unfold after. rewrite app_nil_r. auto. Qed.

Lemma after_emit w e : after w [e] (emit e w).
Proof. unfold after. auto. Qed.

Lemma after_with_daemon w evs w' f :
  after w evs w' -> after w evs (with_daemon f w').
Proof. unfold after. auto. Qed.

Lemma after_trans w1 evs1 w2 evs2 w3 :
  after w1 evs1 w2 -> after w2 evs2 w3 -> after w1 (evs1 ++ evs2) w3.
Proof.
  unfold after. intros (Hf1 & Ht1 & Htr1) (Hf2 & Ht2 & Htr2).
  rewrite Hf2, Ht2, Htr2, Htr1, app_assoc. auto.
Qed.

Lemma get_from_nodes_spec env part info row nodes node exc w :
  exists r w' evs,
    get_from_nodes env part info row nodes node exc w = (r, w')
    /\ after w evs w' /\ Forall quiet evs /\ daemon w' = daemon w.
Proof.
  revert node exc w. induction nodes as [|n rest IH]; intros node exc w.
  - exists (fst (get_from_nodes env part info row [] node exc w)), w, [].
    split; [|split; [apply after_refl | split; [constructor | reflexivity]]].
    simpl. destruct exc as [e|]; [reflexivity|].
    destruct node; reflexivity.
  - cbn [get_from_nodes]. unfold try_except, direct_client_direct_get_object, remote.
    set (w1 := emit _ w).
    destruct (direct_get_object env (trace w) n part _ _ _) as [hb|[st|v|m|b]].
    + exists (Ok hb), w1, [EvRemote (direct_get_object_call n part (info_account info) (info_container info) (name row))].
      repeat split; auto. repeat constructor.
    + destruct (IH (Some n) (Some (ClientException st)) w1) as (r & w' & evs & Heq & Haft & Hq & Hd).
      exists r, w', (EvRemote (direct_get_object_call n part (info_account info) (info_container info) (name row)) :: evs).
      split; [exact Heq|]. split; [|split].
      * apply (after_trans w [_] w1 evs w'); [apply after_emit | exact Haft].
      * constructor; [exact I | exact Hq].
      * rewrite Hd. reflexivity.
    + exists (Raise (UnboundLocalError v)), w1, [EvRemote (direct_get_object_call n part (info_account info) (info_container info) (name row))].
      repeat split; auto. repeat constructor.
    + exists (Raise (Exception m)), w1, [EvRemote (direct_get_object_call n part (info_account info) (info_container info) (name row))].
      repeat split; auto. repeat constructor.
    + exists (Raise (BaseException b)), w1, [EvRemote (direct_get_object_call n part (info_account info) (info_container info) (name row))].
      repeat split; auto. repeat constructor.
Qed.

Lemma container_sync_row_except_spec sync_to sync_key broker info row err w :
  exists line,
    container_sync_row_except sync_to sync_key broker info row err w
    = (Ok false, with_daemon incr_failures (emit (EvLog line) w)).
Proof.
  unfold container_sync_row_except.
  destruct err as [st|v|m|b]; [|eexists; reflexivity..].
  destruct (st =? 401) eqn:H401; [eexists; reflexivity|].
  destruct (st =? 404) eqn:H404; eexists; unfold bind; simpl; rewrite ?H401, ?H404; reflexivity.
Qed.

Lemma counts_refl s : counts s s 0 0 0 0 0.
Proof. unfold counts. repeat split; lia. Qed.

Lemma counts_incr_syncs s : counts s (incr_syncs s) 1 0 0 0 0.
Proof. unfold counts. cbn. repeat split; lia. Qed.

Lemma counts_incr_deletes s : counts s (incr_deletes s) 0 1 0 0 0.
Proof. unfold counts. cbn. repeat split; lia. Qed.

Lemma counts_incr_puts s : counts s (incr_puts s) 0 0 1 0 0.
Proof. unfold counts. cbn. repeat split; lia. Qed.

Lemma counts_incr_skips s : counts s (incr_skips s) 0 0 0 1 0.
Proof. unfold counts. cbn. repeat split; lia. Qed.

Lemma counts_incr_failures s : counts s (incr_failures s) 0 0 0 0 1.
Proof. unfold counts. cbn. repeat split; lia. Qed.

Lemma counts_trans s1 s2 s3 a1 b1 c1 d1 e1 a2 b2 c2 d2 e2 :
  counts s1 s2 a1 b1 c1 d1 e1 -> counts s2 s3 a2 b2 c2 d2 e2 ->
  counts s1 s3 (a1 + a2) (b1 + b2) (c1 + c2) (d1 + d2) (e1 + e2).
Proof.
  unfold counts. intros (? & ? & ? & ? & ? & ? & ?) (? & ? & ? & ? & ? & ? & ?).
  repeat split; try congruence; lia.
Qed.

(** The shared handling of a failure: one line in the log, one more
    failure counted, [False] returned. *)
Lemma container_sync_row_except_counts sync_to sync_key broker info row err w :
  exists line w',
    container_sync_row_except sync_to sync_key broker info row err w = (Ok false, w')
    /\ after w [EvLog line] w'
    /\ counts (daemon w) (daemon w') 0 0 0 0 1.
Proof.
  destruct (container_sync_row_except_spec sync_to sync_key broker info row err w)
    as [line ->].
  exists line. eexists. split; [reflexivity|]. split.
  - apply after_with_daemon, after_emit.
  - apply counts_incr_failures.
Qed.

(** C6.  For a deleted row, a DELETE answered with a [ClientException]
    of status 404 is a success: [container_sync_row] returns [True] and
    [container_deletes] is one more than before, exactly as after a
    DELETE that succeeded: nothing is logged and no other counter
    changes.  Any other exception of the DELETE that derives from
    [Exception], a [ClientException] of another status among them,
    reaches the shared handling: a line is logged, [container_failures]
    is one more than before, no other counter changes and the result is
    [False]. *)
Theorem container_sync_row_delete env row sync_to sync_key broker info w :
  deleted row = true ->
  (delete_object env (trace w) sync_to (name row) (delete_headers row sync_key)
     = Raise (ClientException 404)
   \/ delete_object env (trace w) sync_to (name row) (delete_headers row sync_key)
     = Ok tt ->
   exists w',
     container_sync_row env row sync_to sync_key broker info w = (Ok true, w')
     /\ after w [EvRemote (delete_object_call sync_to (name row)
                             (delete_headers row sync_key))] w'
     /\ counts (daemon w) (daemon w') 0 1 0 0 0)
  /\ (forall e,
        delete_object env (trace w) sync_to (name row) (delete_headers row sync_key)
          = Raise e ->
        e <> ClientException 404 ->
        is_Exception e = true ->
        exists line w',
          container_sync_row env row sync_to sync_key broker info w = (Ok false, w')
          /\ after w [EvRemote (delete_object_call sync_to (name row)
                                  (delete_headers row sync_key));
                      EvLog line] w'
          /\ counts (daemon w) (daemon w') 0 0 0 0 1).
Proof.
  intros Hdel.
  unfold container_sync_row, try_except, bind, client_delete_object, remote.
  rewrite Hdel.
  split.
  - intros Hanswer. eexists. split; [destruct Hanswer as [-> | ->]; reflexivity|].
    split; [apply after_with_daemon, after_emit | apply counts_incr_deletes].
  - intros e -> Hne Hexc.
    destruct (container_sync_row_except_counts sync_to sync_key broker info row e
                (emit (EvRemote (delete_object_call sync_to (name row)
                                   (delete_headers row sync_key))) w))
      as (line & w' & Heq & Haft & Hcounts).
    exists line, w'. split; [|split; [|exact Hcounts]].
    + rewrite <- Heq.
      destruct e as [st|v|m|b]; try reflexivity; [|discriminate].
      destruct (Z.eqb_spec st 404) as [->|_]; [congruence | reflexivity].
    + exact (after_trans _ _ _ _ _ (after_emit w _) Haft).
Qed.

Lemma container_sync_row_delete_witness :
  deleted (Scenario.row 2 "a.txt" true) = true
  /\ delete_object Scenario.env_gone (trace Scenario.w12) "http://10.0.0.5/v1/AUTH_x/dest"
       "a.txt" (delete_headers (Scenario.row 2 "a.txt" true) "secret")
     = Raise (ClientException 404)
  /\ container_deletes
       (daemon (snd (container_sync_row Scenario.env_gone (Scenario.row 2 "a.txt" true)
                       "http://10.0.0.5/v1/AUTH_x/dest" "secret" Scenario.broker0
                       Scenario.info0 Scenario.w12)))
     = container_deletes (daemon Scenario.w12) + 1
  /\ exists w',
       container_sync_row Scenario.env_gone (Scenario.row 2 "a.txt" true)
         "http://10.0.0.5/v1/AUTH_x/dest" "secret" Scenario.broker0 Scenario.info0
         Scenario.w12
       = (Ok true, w')
       /\ trace w'
          = [EvRemote (delete_object_call "http://10.0.0.5/v1/AUTH_x/dest" "a.txt"
                         (delete_headers (Scenario.row 2 "a.txt" true) "secret"))]
       /\ container_deletes (daemon w') = 1
       /\ container_failures (daemon w') = 0.
Proof.
  split; [reflexivity|]. split; [reflexivity|]. split; [vm_compute; reflexivity|].
  destruct (container_sync_row_delete Scenario.env_gone (Scenario.row 2 "a.txt" true)
              "http://10.0.0.5/v1/AUTH_x/dest" "secret" Scenario.broker0 Scenario.info0
              Scenario.w12 eq_refl)
    as [Hsuccess _].
  destruct (Hsuccess (or_introl eq_refl))
    as (w' & Heq & (_ & _ & Htr) & (_ & _ & _ & Hdeletes & _ & _ & Hfailures)).
  exists w'. split; [exact Heq|]. split; [exact Htr|].
  split; [exact Hdeletes | exact Hfailures].
Defined.

Lemma shuffle_nil env h : shuffle env h [] = [].
Proof. apply Permutation_nil_r, (shuffle_perm env). Qed.

(** C10.  When the ring returns no node for a row that is not deleted,
    the [else] clause of the fan-out reads the loop variable [node],
    which was never assigned: that raises [UnboundLocalError], which the
    [except Exception] clause catches.  [container_sync_row] logs the
    row, sends nothing and returns [False]; [container_failures] is one
    more than before and no other counter changes. *)
Theorem container_sync_row_no_nodes env row sync_to sync_key broker info w :
  deleted row = false ->
  snd (get_nodes env (info_account info) (info_container info) (name row)) = [] ->
  (forall part,
     get_from_nodes env part info row [] None None w
     = (Raise (UnboundLocalError "node"), w))
  /\ exists w',
       container_sync_row env row sync_to sync_key broker info w = (Ok false, w')
       /\ after w [EvLog (logger_exception_line row_error_format
                            [db_file broker; name row])] w'
       /\ counts (daemon w) (daemon w') 0 0 0 0 1.
Proof.
  intros Hdel Hnodes. split; [reflexivity|].
  unfold container_sync_row, try_except, bind, random_shuffle.
  rewrite Hdel.
  destruct (get_nodes env _ _ _) as [part nodes]. simpl in Hnodes. subst nodes.
  rewrite shuffle_nil. eexists. split; [reflexivity|].
  split; [apply after_with_daemon, after_emit | apply counts_incr_failures].
Qed.

Lemma container_sync_row_no_nodes_witness :
  deleted (Scenario.row 1 "a.txt" false) = false
  /\ snd (get_nodes Scenario.env_no_nodes "AUTH_a" "c" "a.txt") = []
  /\ get_from_nodes Scenario.env_no_nodes 7 Scenario.info0
       (Scenario.row 1 "a.txt" false) [] None None Scenario.w12
     = (Raise (UnboundLocalError "node"), Scenario.w12)
  /\ container_failures
       (daemon (snd (container_sync_row Scenario.env_no_nodes
                       (Scenario.row 1 "a.txt" false) "http://10.0.0.5/v1/AUTH_x/dest"
                       "secret" Scenario.broker0 Scenario.info0 Scenario.w12)))
     = container_failures (daemon Scenario.w12) + 1
  /\ exists w',
       container_sync_row Scenario.env_no_nodes (Scenario.row 1 "a.txt" false)
         "http://10.0.0.5/v1/AUTH_x/dest" "secret" Scenario.broker0 Scenario.info0
         Scenario.w12
       = (Ok false, w')
       /\ trace w'
          = [EvLog (logger_exception_line row_error_format ["c.db"; "a.txt"])]
       /\ container_failures (daemon w') = 1
       /\ container_puts (daemon w') = 0.
Proof.
  split; [reflexivity|]. split; [reflexivity|].
  destruct (container_sync_row_no_nodes Scenario.env_no_nodes
              (Scenario.row 1 "a.txt" false) "http://10.0.0.5/v1/AUTH_x/dest" "secret"
              Scenario.broker0 Scenario.info0 Scenario.w12 eq_refl eq_refl)
    as (Hnode & w' & Heq & (_ & _ & Htr) & (_ & _ & _ & _ & Hputs & _ & Hfailures)).
  split; [exact (Hnode 7)|]. split; [vm_compute; reflexivity|].
  exists w'. split; [exact Heq|]. split; [exact Htr|].
  split; [exact Hfailures | exact Hputs].
Defined.

(** [if key in headers: del headers[key]] *)
Lemma lookup_del_if_present (headers : Headers) (k key : string) :
  (if decide (is_Some (headers !! k)) then delete k headers else headers) !! key
  = if decide (key = k) then None else headers !! key.
Proof.
  destruct (decide (is_Some (headers !! k))) as [Hs|Hn].
  - rewrite lookup_delete. repeat case_decide; congruence.
  - case_decide as Hk; [|reflexivity]. subst key.
    destruct (headers !! k) eqn:E; [|reflexivity]. exfalso. apply Hn. eauto.
Qed.

(** [if 'etag' in headers: headers['etag'] = headers['etag'].strip(...)] *)
Lemma lookup_etag_unquoted (headers : Headers) (key : string) :
  match headers !! "etag" with
  | Some etag => <["etag" := Py.strip "034"%char etag]> headers
  | None => headers
  end !! key
  = if decide (key = "etag") then Py.strip "034"%char <$> headers !! "etag"
    else headers !! key.
Proof.
  destruct (headers !! "etag") as [etag|] eqn:E.
  - rewrite lookup_insert. repeat case_decide; simpl; congruence.
  - case_decide as Hk; [subst key; rewrite E|]; reflexivity.
Qed.

(** What the PUT headers hold, given the headers fetched. *)
Lemma put_headers_spec row sync_key (headers : Headers) :
  let sent := put_headers row sync_key headers in
  sent !! "date" = None
  /\ sent !! "last-modified" = None
  /\ sent !! "etag" = Py.strip "034"%char <$> headers !! "etag"
  /\ sent !! "X-Timestamp" = Some (created_at row)
  /\ sent !! "X-Container-Sync-Key" = Some sync_key
  /\ (forall key : string,
        key <> "date" -> key <> "last-modified" -> key <> "etag" ->
        key <> "X-Timestamp" -> key <> "X-Container-Sync-Key" ->
        sent !! key = headers !! key).
Proof.
  assert (Hall : forall key : string,
    put_headers row sync_key headers !! key
    = if decide (key = "X-Container-Sync-Key") then Some sync_key
      else if decide (key = "X-Timestamp") then Some (created_at row)
      else if decide (key = "etag") then Py.strip "034"%char <$> headers !! "etag"
      else if decide (key = "last-modified") then None
      else if decide (key = "date") then None
      else headers !! key).
  { intros key. unfold put_headers. cbn [foldl].
    rewrite !lookup_insert, lookup_etag_unquoted, !lookup_del_if_present.
    repeat case_decide; try congruence; try reflexivity. }
  cbv zeta. rewrite !Hall.
  repeat split; try reflexivity.
  intros key ? ? ? ? ?. rewrite Hall. repeat case_decide; congruence.
Qed.

(** C7.  For a row that is not deleted, once a replica has answered the
    GET with [headers] and [body], the request sent next is the PUT of
    [body] to [sync_to], and its headers hold neither ['date'] nor
    ['last-modified'], hold the fetched ['etag'] (if there was one) with
    the double quotes around it stripped, hold the row's [created_at] as
    ['X-Timestamp'] and the sync key as ['X-Container-Sync-Key'].
    [container_sync_row] then returns, unless the PUT raises an
    exception that does not derive from [Exception]. *)
Theorem container_sync_row_put_headers env row sync_to sync_key broker info w
    part nodes headers body w1 :
  deleted row = false ->
  get_nodes env (info_account info) (info_container info) (name row)
    = (part, nodes) ->
  get_from_nodes env part info row (shuffle env (trace w) nodes) None None w
    = (Ok (headers, body), w1) ->
  exists sent : Headers,
    (exists r w' logs,
       container_sync_row env row sync_to sync_key broker info w = (r, w')
       /\ trace w' =
          trace w1
          ++ EvRemote (put_object_call sync_to (name row) sent
                         (Iter2FileLikeObject.init body)) :: logs
       /\ ((exists ok, r = Ok ok)
           \/ (exists e,
                 r = Raise e /\ is_Exception e = false
                 /\ put_object env (trace w1) sync_to (name row) sent
                      (Iter2FileLikeObject.init body) = Raise e)))
    /\ sent !! "date" = None
    /\ sent !! "last-modified" = None
    /\ sent !! "etag" = Py.strip "034"%char <$> headers !! "etag"
    /\ sent !! "X-Timestamp" = Some (created_at row)
    /\ sent !! "X-Container-Sync-Key" = Some sync_key.
Proof.
  intros Hdel Hnodes Hget.
  exists (put_headers row sync_key headers).
  destruct (put_headers_spec row sync_key headers) as (Hd & Hl & He & Ht & Hk & _).
  split; [|auto].
  unfold container_sync_row, try_except, bind, random_shuffle.
  rewrite Hdel, Hnodes, Hget.
  unfold client_put_object, remote.
  destruct (put_object env (trace w1) sync_to (name row) _ _) as [[]|e] eqn:Hput.
  - eexists (Ok true), _, []. split; [reflexivity|]. split; [reflexivity|].
    left. eauto.
  - destruct (is_Exception e) eqn:Hexc.
    + destruct (container_sync_row_except_spec sync_to sync_key broker info row e
        (emit (EvRemote (put_object_call sync_to (name row)
           (put_headers row sync_key headers) (Iter2FileLikeObject.init body))) w1))
        as [line Hline].
      rewrite Hline. eexists (Ok false), _, [EvLog line]. split; [reflexivity|].
      split; [simpl; rewrite <- app_assoc; reflexivity|]. left. eauto.
    + eexists (Raise e), _, []. split; [reflexivity|]. split; [reflexivity|].
      right. eauto.
Qed.

Lemma container_sync_row_put_headers_witness :
  deleted (Scenario.row 1 "a.txt" false) = false
  /\ get_nodes Scenario.env_ok "AUTH_a" "c" "a.txt"
     = (7, [Scenario.node1; Scenario.node2])
  /\ get_from_nodes Scenario.env_ok 7 Scenario.info0 (Scenario.row 1 "a.txt" false)
       (shuffle Scenario.env_ok (trace Scenario.w12) [Scenario.node1; Scenario.node2])
       None None Scenario.w12
     = (Ok (Scenario.fetched_headers, [b2s "hello"]),
        emit (EvRemote (direct_get_object_call Scenario.node1 7 "AUTH_a" "c" "a.txt"))
          Scenario.w12)
  /\ Scenario.fetched_headers !! "etag" = Some (Scenario.quoted "abc")
  /\ exists sent : Headers,
       (exists r w' logs,
          container_sync_row Scenario.env_ok (Scenario.row 1 "a.txt" false)
            "http://10.0.0.5/v1/AUTH_x/dest" "secret" Scenario.broker0 Scenario.info0
            Scenario.w12 = (r, w')
          /\ trace w' =
             [EvRemote (direct_get_object_call Scenario.node1 7 "AUTH_a" "c" "a.txt")]
             ++ EvRemote (put_object_call "http://10.0.0.5/v1/AUTH_x/dest" "a.txt" sent
                            (Iter2FileLikeObject.init [b2s "hello"])) :: logs)
       /\ sent !! "date" = None
       /\ sent !! "last-modified" = None
       /\ sent !! "etag" = Some "abc"
       /\ sent !! "X-Timestamp" = Some "1400000000.00000"
       /\ sent !! "X-Container-Sync-Key" = Some "secret".
Proof.
  split; [reflexivity|]. split; [reflexivity|]. split; [reflexivity|].
  split; [reflexivity|].
  destruct (container_sync_row_put_headers Scenario.env_ok
              (Scenario.row 1 "a.txt" false)
              "http://10.0.0.5/v1/AUTH_x/dest" "secret" Scenario.broker0 Scenario.info0
              Scenario.w12 7 [Scenario.node1; Scenario.node2] Scenario.fetched_headers
              [b2s "hello"]
              (emit (EvRemote (direct_get_object_call Scenario.node1 7 "AUTH_a" "c"
                                 "a.txt"))
                 Scenario.w12)
              eq_refl eq_refl eq_refl)
    as (sent & (r & w' & logs & Heq & Htr & _) & Hheaders).
  exists sent. split; [|exact Hheaders].
  exists r, w', logs. split; [exact Heq | exact Htr].
Defined.

(** An exception of the fan-out that does not derive from [Exception]
    is one that a GET raised. *)
Lemma get_from_nodes_raises env part info row nodes node exc w e w' :
  get_from_nodes env part info row nodes node exc w = (Raise e, w') ->
  is_Exception e = false ->
  (forall e0, exc = Some e0 -> is_Exception e0 = true) ->
  exists h n,
    direct_get_object env h n part (info_account info) (info_container info)
      (name row) = Raise e.
Proof.
  revert node exc w. induction nodes as [|n rest IH]; intros node exc w Heq Hexc Hprev.
  - cbn in Heq. destruct exc as [e0|].
    + injection Heq as <- _. rewrite (Hprev e0 eq_refl) in Hexc. discriminate.
    + destruct node; injection Heq as <- _; discriminate.
  - cbn [get_from_nodes] in Heq.
    unfold try_except, direct_client_direct_get_object, remote in Heq.
    destruct (direct_get_object env (trace w) n part _ _ _) as [hb|e1] eqn:Hget;
      [discriminate|].
    destruct e1 as [st|v|m|b].
    + apply (IH _ _ _ Heq Hexc). intros e0 [= <-]. reflexivity.
    + injection Heq as <- _. discriminate.
    + injection Heq as <- _. discriminate.
    + injection Heq as <- _. eauto.
Qed.

(** What one call of [container_sync_row] does: it adds requests and
    lines of the log, leaves the databases and the clock alone, and
    either returns, having counted one delete, one put or one failure,
    or lets out an exception that does not derive from [Exception] and
    that a collaborator raised, having counted nothing. *)
Lemma container_sync_row_spec env row sync_to sync_key broker info w :
  exists r w' evs,
    container_sync_row env row sync_to sync_key broker info w = (r, w')
    /\ after w evs w' /\ Forall quiet evs
    /\ match r with
       | Ok true =>
           counts (daemon w) (daemon w')
             0 (if deleted row then 1 else 0) (if deleted row then 0 else 1) 0 0
       | Ok false => counts (daemon w) (daemon w') 0 0 0 0 1
       | Raise e => is_Exception e = false /\ daemon w' = daemon w /\ raised_by env e
       end.
Proof.
  assert (Hfail : forall e w2 evs2, after w evs2 w2 -> Forall quiet evs2 ->
    daemon w2 = daemon w -> (is_Exception e = false -> raised_by env e) ->
    exists r w' evs,
    match (if is_Exception e
           then Some (container_sync_row_except sync_to sync_key broker info row e)
           else None) with
    | Some h => h w2
    | None => (Raise e, w2)
    end = (r, w')
    /\ after w evs w' /\ Forall quiet evs
    /\ match r with
       | Ok true =>
           counts (daemon w) (daemon w')
             0 (if deleted row then 1 else 0) (if deleted row then 0 else 1) 0 0
       | Ok false => counts (daemon w) (daemon w') 0 0 0 0 1
       | Raise e => is_Exception e = false /\ daemon w' = daemon w /\ raised_by env e
       end).
  { intros e w2 evs2 Haft2 Hq2 Hd2 Hby. destruct (is_Exception e) eqn:Hexc.
    - destruct (container_sync_row_except_counts sync_to sync_key broker info row e w2)
        as (line & w' & -> & Haft & Hcounts).
      exists (Ok false), w', (evs2 ++ [EvLog line]). split; [reflexivity|].
      split; [exact (after_trans _ _ _ _ _ Haft2 Haft)|]. split.
      + apply Forall_app. split; [exact Hq2 | repeat constructor].
      + rewrite <- Hd2. exact Hcounts.
    - exists (Raise e), w2, evs2. repeat split; auto; apply Haft2. }
  unfold container_sync_row, try_except, bind.
  destruct (deleted row).
  - unfold client_delete_object, remote.
    set (w1 := emit _ w).
    assert (Haft1 : after w [EvRemote (delete_object_call sync_to (name row)
                      (delete_headers row sync_key))] w1) by apply after_emit.
    assert (Hq1 : Forall quiet [EvRemote (delete_object_call sync_to (name row)
                      (delete_headers row sync_key))]) by repeat constructor.
    assert (Hok : exists r w' evs,
      (Ok true, with_daemon incr_deletes w1) = (r, w')
      /\ after w evs w' /\ Forall quiet evs
      /\ match r with
         | Ok true => counts (daemon w) (daemon w') 0 1 0 0 0
         | Ok false => counts (daemon w) (daemon w') 0 0 0 0 1
         | Raise e => is_Exception e = false /\ daemon w' = daemon w /\ raised_by env e
         end).
    { eexists (Ok true), _, _. split; [reflexivity|].
      split; [apply after_with_daemon, Haft1|]. split; [exact Hq1|].
      apply counts_incr_deletes. }
    destruct (delete_object env (trace w) sync_to (name row) _)
      as [[]|e] eqn:Hanswer; [exact Hok|].
    assert (Hby : raised_by env e) by (left; do 4 eexists; exact Hanswer).
    destruct e as [st|v|m|b].
    + destruct (Z.eqb_spec st 404) as [->|Hst]; simpl.
      * exact Hok.
      * exact (Hfail (ClientException st) w1 _ Haft1 Hq1 eq_refl (fun _ => Hby)).
    + exact (Hfail (UnboundLocalError v) w1 _ Haft1 Hq1 eq_refl (fun _ => Hby)).
    + exact (Hfail (Exception m) w1 _ Haft1 Hq1 eq_refl (fun _ => Hby)).
    + exact (Hfail (BaseException b) w1 _ Haft1 Hq1 eq_refl (fun _ => Hby)).
  - destruct (get_nodes env _ _ _) as [part nodes]. unfold random_shuffle.
    destruct (get_from_nodes_spec env part info row (shuffle env (trace w) nodes) None None w)
      as (r & w1 & evs1 & Heq & Haft1 & Hq1 & Hd1).
    rewrite Heq.
    destruct r as [[headers body]|e].
    + unfold client_put_object, remote.
      set (w2 := emit _ w1).
      assert (Haft2 : after w (evs1 ++ [EvRemote (put_object_call sync_to (name row)
                (put_headers row sync_key headers) (Iter2FileLikeObject.init body))]) w2).
      { eapply after_trans; [exact Haft1 | apply after_emit]. }
      assert (Hq2 : Forall quiet (evs1 ++ [EvRemote (put_object_call sync_to (name row)
                (put_headers row sync_key headers) (Iter2FileLikeObject.init body))])).
      { apply Forall_app. split; [exact Hq1 | repeat constructor]. }
      destruct (put_object env (trace w1) sync_to (name row) _ _) as [[]|e] eqn:Hanswer.
      * eexists (Ok true), _, _. split; [reflexivity|].
        split; [apply after_with_daemon, Haft2|]. split; [exact Hq2|].
        simpl. rewrite Hd1. apply counts_incr_puts.
      * apply (Hfail e w2 _ Haft2 Hq2 Hd1). intros _. right. right.
        do 5 eexists. exact Hanswer.
    + apply (Hfail e w1 _ Haft1 Hq1 Hd1). intros Hexc.
      destruct (get_from_nodes_raises _ _ _ _ _ _ _ _ _ _ Heq Hexc)
        as (h & n & Hanswer); [discriminate|].
      right. left. do 6 eexists. exact Hanswer.
Qed.

(** ** The row loop *)

(** The row [get_items_since(c, 1)] yields is the row of the table with
    the least ROWID above [c]. *)
Lemma rows_since_1 c table row rest :
  rows_since c 1 table = row :: rest ->
  rest = [] /\ c < ROWID row /\ row ∈ table
  /\ forall r, r ∈ table -> c < ROWID r -> ROWID row <= ROWID r.
Proof.
  unfold rows_since.
  pose proof (StronglySorted_merge_sort rowid_le
                (filter (fun r => c < ROWID r) table)) as Hsorted.
  pose proof (merge_sort_Permutation rowid_le
                (filter (fun r => c < ROWID r) table)) as Hperm.
  destruct (merge_sort rowid_le (filter (fun r => c < ROWID r) table))
    as [|r0 l]; [discriminate|].
  cbn. intros [= -> <-].
  assert (Hin : row ∈ filter (fun r => c < ROWID r) table).
  { rewrite <- Hperm. left. }
  apply list_elem_of_filter in Hin as [Hlt Hin].
  repeat split; auto.
  intros r Hr Hc.
  assert (Hr' : r ∈ row :: l).
  { rewrite Hperm. apply list_elem_of_filter. auto. }
  apply StronglySorted_inv in Hsorted as [_ Hall].
  apply elem_of_cons in Hr' as [->|Hr']; [lia|].
  rewrite Forall_forall in Hall. apply (Hall r Hr').
Qed.

Lemma rows_since_fewer c table row rest :
  rows_since c 1 table = row :: rest ->
  (length (filter (fun r => (ROWID row < ROWID r)%Z) table)
   < length (filter (fun r => (c < ROWID r)%Z) table))%nat.
Proof.
  intros H. apply rows_since_1 in H as (_ & Hlt & Hin & _).
  assert (Heq : filter (fun r => ROWID row < ROWID r) table
                = filter (fun r => ROWID row < ROWID r)
                    (filter (fun r => c < ROWID r) table)).
  { rewrite list_filter_filter. apply list_filter_iff. intros r. lia. }
  rewrite Heq. apply (length_filter_lt _ _ row).
  - apply list_elem_of_filter. auto.
  - lia.
Qed.

Lemma last_success_app_quiet c q evs :
  Forall quiet q -> last_success c (q ++ evs) = last_success c evs.
Proof.
  induction 1 as [|e q He _ IH]; [reflexivity|].
  destruct e; try contradiction; exact IH.
Qed.

Lemma last_success_quiet c q : Forall quiet q -> last_success c q = c.
Proof.
  intros Hq. rewrite <- (app_nil_r q). apply (last_success_app_quiet c q []), Hq.
Qed.

Lemma with_x_container_sync_row_same db :
  with_x_container_sync_row db (x_container_sync_row db) = db.
Proof. destruct db; reflexivity. Qed.

Lemma quiet_not_failed q n : Forall quiet q -> EvSyncRow n false ∉ q.
Proof.
  intros Hq Hin. rewrite Forall_forall in Hq. exact (Hq _ Hin).
Qed.

Lemma sync_rows_spec env broker info sync_to sync_key stop_at db :
  forall fuel c w,
    fs w !! db_file broker = Some (with_x_container_sync_row db c) ->
    (length (filter (fun r => (c < ROWID r)%Z) (objects db)) < fuel)%nat ->
    exists r w' evs log,
      sync_rows fuel env broker info sync_to sync_key stop_at c w = (r, w')
      /\ trace w' = trace w ++ evs
      /\ row_events (db_file broker) (objects db) c evs
      /\ pass_rows env broker info sync_to sync_key (objects db) (trace w) c log evs
      /\ fs w' = <[db_file broker :=
                    with_x_container_sync_row db (last_success c evs)]> (fs w)
      /\ container_syncs (daemon w') = container_syncs (daemon w)
      /\ match r with
         | Ok exit =>
             exit_reason env (objects db) stop_at c evs w' exit
             /\ Forall (fun entry => exists ok, snd entry = Ok ok) log
         | Raise e =>
             is_Exception e = false
             /\ raised_by env e
             /\ (forall n, EvSyncRow n false ∉ evs)
             /\ exists pre row, log = pre ++ [(row, Raise e)]
         end.
Proof.
  induction fuel as [|fuel IH]; intros c w Hfs Hfuel; [lia|].
  cbn [sync_rows]. unfold bind at 1. unfold time at 1.
  destruct (Z.ltb_spec (time_time env (time_reads w)) stop_at) as [Hlt|Hge]; cbn [negb].
  2:{ exists (Ok DeadlinePassed), (tick w), [], []. cbn. rewrite app_nil_r.
      repeat split; auto.
      - constructor. constructor.
      - constructor. constructor.
      - rewrite insert_id; auto.
      - intros n Hin. inversion Hin. }
  unfold bind at 1. unfold get_items_since, bind at 1, broker_db.
  cbn [fs tick]. rewrite Hfs. cbn [objects with_x_container_sync_row ret].
  destruct (rows_since c 1 (objects db)) as [|row rest] eqn:Hrows.
  { exists (Ok RowsExhausted), (tick w), [], []. cbn. rewrite app_nil_r.
    repeat split; auto.
    - constructor. constructor.
    - constructor. constructor.
    - rewrite insert_id; auto.
    - intros n Hin. inversion Hin. }
  pose proof (rows_since_fewer _ _ _ _ Hrows) as Hfewer.
  pose proof (rows_since_1 _ _ _ _ Hrows) as (-> & Hc & Hin & Hleast).
  unfold bind at 1.
  destruct (container_sync_row_spec env row sync_to sync_key broker info (tick w))
    as (r1 & w1 & evs1 & Hrow & (Hfs1 & Htime1 & Htr1) & Hq1 & Hcount).
  rewrite Hrow.
  assert (Hrun : row_run env broker info sync_to sync_key (trace w) row r1 evs1).
  { exists (tick w), w1. auto. }
  assert (Hsyncs1 : container_syncs (daemon w1) = container_syncs (daemon w)).
  { destruct r1 as [[]|e].
    - destruct Hcount as (_ & _ & Hs & _). cbn in Hs. lia.
    - destruct Hcount as (_ & _ & Hs & _). cbn in Hs. lia.
    - destruct Hcount as (_ & -> & _). reflexivity. }
  destruct r1 as [ok|e].
  2:{ destruct Hcount as (Hexc & _ & Hby).
      exists (Raise e), w1, evs1, [(row, Raise e)].
      split; [reflexivity|]. split; [exact Htr1|].
      split; [apply row_events_stop, Hq1|].
      split; [apply pass_rows_raised; assumption|].
      split; [|split; [exact Hsyncs1|]].
      - rewrite Hfs1, last_success_quiet by exact Hq1. cbn. rewrite insert_id; auto.
      - split; [exact Hexc|]. split; [exact Hby|].
        split; [intros n; apply quiet_not_failed, Hq1|].
        exists [], row. reflexivity. }
  unfold bind at 1, note_sync_row.
  destruct ok; cbn [negb].
  2:{ exists (Ok RowFailed), (emit (EvSyncRow (ROWID row) false) w1),
        (evs1 ++ [EvSyncRow (ROWID row) false]), [(row, Ok false)].
      cbn. rewrite Htr1, Hfs1, <- app_assoc. cbn.
      repeat split; auto.
      - apply row_events_failed; auto.
      - apply pass_rows_failed; auto.
      - rewrite last_success_app_quiet by exact Hq1. cbn.
        rewrite insert_id; auto.
      - eauto.
      - repeat constructor. eauto. }
  unfold bind at 1. unfold set_x_container_sync_row, bind at 1, broker_db.
  cbn [fs emit]. rewrite Hfs1. cbn [fs tick]. rewrite Hfs.
  set (w3 := emit (EvSetCursor (db_file broker) (ROWID row)) _).
  destruct (IH (ROWID row) w3)
    as (r & w' & evs & log & Heq & Htr & Hev & Hlog & Hfs' & Hsyncs & Hexit).
  { subst w3. cbn. rewrite lookup_insert_eq. reflexivity. }
  { lia. }
  assert (Htr3 : trace w3
                 = trace w ++ evs1 ++ [EvSyncRow (ROWID row) true;
                                       EvSetCursor (db_file broker) (ROWID row)]).
  { subst w3. cbn. rewrite Htr1. cbn. rewrite <- !app_assoc. reflexivity. }
  exists r, w',
    (evs1 ++ EvSyncRow (ROWID row) true :: EvSetCursor (db_file broker) (ROWID row) :: evs),
    ((row, Ok true) :: log).
  split; [exact Heq|].
  assert (Hlast : last_success c
            (evs1 ++ EvSyncRow (ROWID row) true
               :: EvSetCursor (db_file broker) (ROWID row) :: evs)
          = last_success (ROWID row) evs).
  { rewrite last_success_app_quiet by exact Hq1. reflexivity. }
  split; [|split; [|split; [|split; [|split]]]].
  - rewrite Htr, Htr3, <- !app_assoc. reflexivity.
  - apply row_events_synced; auto.
  - apply pass_rows_synced; auto. rewrite <- Htr3. exact Hlog.
  - rewrite Hlast, Hfs'. subst w3. cbn. rewrite Hfs1. cbn.
    apply insert_insert_eq.
  - rewrite Hsyncs. subst w3. cbn. exact Hsyncs1.
  - assert (Hnf : (forall n, EvSyncRow n false ∉ evs) ->
        forall n, EvSyncRow n false
          ∉ evs1 ++ EvSyncRow (ROWID row) true
               :: EvSetCursor (db_file broker) (ROWID row) :: evs).
    { intros Hn n Hbad. apply elem_of_app in Hbad as [Hbad|Hbad].
      - exact (quiet_not_failed _ _ Hq1 Hbad).
      - apply elem_of_cons in Hbad as [Hbad|Hbad]; [discriminate|].
        apply elem_of_cons in Hbad as [Hbad|Hbad]; [discriminate|].
        exact (Hn n Hbad). }
    destruct r as [exit|e].
    + destruct Hexit as [Hexit Hoks]. split; [|constructor; [cbn; eauto | exact Hoks]].
      destruct exit; cbn in Hexit |- *; try contradiction.
      * destruct Hexit as (pre & n & ->).
        exists (evs1 ++ EvSyncRow (ROWID row) true
                  :: EvSetCursor (db_file broker) (ROWID row) :: pre), n.
        rewrite <- app_assoc. reflexivity.
      * rewrite Hlast. destruct Hexit. auto.
      * destruct Hexit. auto.
    + destruct Hexit as (Hexc & Hby & Hnone & pre & row' & ->). split; [exact Hexc|].
      split; [exact Hby|]. split; [exact (Hnf Hnone)|].
      exists ((row, Ok true) :: pre), row'. reflexivity.
Qed.

(** ** The whole pass *)

(** [container_sync] path by path, with the reads of the database file
    resolved. *)
Lemma container_sync_unfold env path w :
  container_sync env path w =
  if negb (Py.endswith path ".db") then (Ok NotADatabase, w) else
  match ContainerBroker_raises env path with
  | Some e =>
      if is_Exception e
      then (Raise (UnboundLocalError "broker"), with_daemon incr_failures w)
      else (Raise e, w)
  | None =>
      let broker := {| db_file := path |} in
      match fs w !! path with
      | None =>
          (Ok Failed,
           emit (EvLog (logger_exception_line "ERROR Syncing %s" [path]))
             (with_daemon incr_failures w))
      | Some db =>
          if db_is_deleted db then (Ok ContainerDeleted, w) else
          let '(sync_to, sync_key) := scan_metadata (metadata db) None None in
          if negb (Py.truthy sync_to) || negb (Py.truthy sync_key) then
            (Ok SyncNotConfigured, with_daemon incr_skips w)
          else
            let sync_to := Py.rstrip "/" (default EmptyString sync_to) in
            let sync_key := default EmptyString sync_key in
            let err := validate_sync_to env sync_to (allowed_sync_hosts (daemon w)) in
            if Py.truthy err then
              (Ok InvalidSyncTo,
               with_daemon incr_failures
                 (emit (EvLog (logger_info_line
                                 "ERROR %(db_file)s: %(validate_sync_to_err)s"
                                 [path; default EmptyString err])) w))
            else
              let stop_at :=
                time_time env (time_reads w) + container_time (daemon w) in
              let info :=
                {| info_account := account db; info_container := container db;
                   info_x_container_sync_row := x_container_sync_row db |} in
              match sync_rows (S (length (objects db))) env broker info
                      sync_to sync_key stop_at (x_container_sync_row db) (tick w)
              with
              | (Ok exit, w') =>
                  (Ok exit,
                   match exit with
                   | RowsExhausted | DeadlinePassed => with_daemon incr_syncs w'
                   | _ => w'
                   end)
              | (Raise e, w') =>
                  if is_Exception e then
                    (Ok Failed,
                     emit (EvLog (logger_exception_line "ERROR Syncing %s" [path]))
                       (with_daemon incr_failures w'))
                  else (Raise e, w')
              end
      end
  end.
Proof.
  unfold container_sync.
  destruct (Py.endswith path ".db"); [|reflexivity]. cbn [negb].
  unfold ContainerBroker.
  destruct (ContainerBroker_raises env path) as [e|];
    [unfold raise; destruct (is_Exception e); reflexivity|].
  unfold ret at 1.
  unfold container_sync_try, get_info, is_deleted, broker_metadata, bind, broker_db,
    get_self, time, row_loop_bound, modify_self, logger_info, ret.
  cbn [db_file].
  destruct (fs w !! path) as [db|] eqn:Hfs; [|reflexivity].
  cbv beta iota. rewrite Hfs. cbv beta iota.
  destruct (db_is_deleted db); [reflexivity|]. cbn [negb].
  cbv beta iota. rewrite Hfs. cbv beta iota.
  destruct (scan_metadata (metadata db) None None) as [sync_to sync_key].
  destruct (negb (Py.truthy sync_to) || negb (Py.truthy sync_key)); [reflexivity|].
  cbv beta iota zeta.
  destruct (Py.truthy (validate_sync_to env _ _)); [reflexivity|].
  cbv beta iota. cbn [fs tick]. rewrite Hfs. cbn [from_option].
  destruct (sync_rows _ _ _ _ _ _ _ _ _) as [[exit|e] w'];
    [|destruct (is_Exception e); reflexivity].
  destruct exit; reflexivity.
Qed.

Lemma is_log_quiet q : Forall is_log q -> Forall quiet q.
Proof. intros H. eapply Forall_impl; [exact H|]. intros [] He; cbn in *; tauto. Qed.

Lemma container_sync_run env path w :
  exists r w' evs,
    container_sync env path w = (r, w')
    /\ trace w' = trace w ++ evs
    /\ r <> Ok Unfinished
    /\ container_syncs (daemon w')
       = container_syncs (daemon w) + (if completed r then 1 else 0)
    /\ ((exists n, EvSyncRow n false ∈ evs) <-> r = Ok RowFailed)
    /\ forall db,
         fs w !! path = Some db ->
         let c0 := x_container_sync_row db in
         row_events path (objects db) c0 evs
         /\ fs w' = <[path := with_x_container_sync_row db (last_success c0 evs)]> (fs w)
         /\ (r = Ok RowsExhausted ->
             rows_since (last_success c0 evs) 1 (objects db) = [])
         /\ (r = Ok DeadlinePassed ->
             deadline env w <= time_time env (pred (time_reads w')))
         /\ exists log,
              pass_rows env {| db_file := path |} (info_of db) (sync_to_of db)
                (sync_key_of db) (objects db) (trace w) c0 log evs
              /\ match r with
                 | Ok _ => Forall (fun entry => exists ok, snd entry = Ok ok) log
                 | Raise e =>
                     (exists e0, ContainerBroker_raises env path = Some e0)
                     \/ (is_Exception e = false /\ raised_by env e
                         /\ exists pre row, log = pre ++ [(row, Raise e)])
                 end.
Proof.
  rewrite container_sync_unfold.
  assert (Hquiet : forall (r : Result pass_exit) (w' : World) q,
    Forall is_log q -> trace w' = trace w ++ q -> fs w' = fs w ->
    container_syncs (daemon w') = container_syncs (daemon w) ->
    completed r = false -> r <> Ok RowFailed -> r <> Ok Unfinished ->
    (forall e, r = Raise e -> exists e0, ContainerBroker_raises env path = Some e0) ->
    exists r0 w0 evs,
      (r, w') = (r0, w0)
      /\ trace w0 = trace w ++ evs
      /\ r0 <> Ok Unfinished
      /\ container_syncs (daemon w0)
         = container_syncs (daemon w) + (if completed r0 then 1 else 0)
      /\ ((exists n, EvSyncRow n false ∈ evs) <-> r0 = Ok RowFailed)
      /\ forall db,
           fs w !! path = Some db ->
           let c0 := x_container_sync_row db in
           row_events path (objects db) c0 evs
           /\ fs w0 = <[path := with_x_container_sync_row db (last_success c0 evs)]> (fs w)
           /\ (r0 = Ok RowsExhausted ->
               rows_since (last_success c0 evs) 1 (objects db) = [])
           /\ (r0 = Ok DeadlinePassed ->
               deadline env w <= time_time env (pred (time_reads w0)))
           /\ exists log,
                pass_rows env {| db_file := path |} (info_of db) (sync_to_of db)
                  (sync_key_of db) (objects db) (trace w) c0 log evs
                /\ match r0 with
                   | Ok _ => Forall (fun entry => exists ok, snd entry = Ok ok) log
                   | Raise e =>
                       (exists e0, ContainerBroker_raises env path = Some e0)
                       \/ (is_Exception e = false /\ raised_by env e
                           /\ exists pre row, log = pre ++ [(row, Raise e)])
                   end).
  { intros r w' q Hlog Htr Hfs' Hsyncs Hc Hnf Hnu Hraise. exists r, w', q.
    pose proof (is_log_quiet _ Hlog) as Hq.
    split; [reflexivity|]. split; [exact Htr|]. split; [exact Hnu|].
    split; [rewrite Hc; lia|]. split.
    - split; [|contradiction]. intros [n Hn]. destruct (quiet_not_failed _ _ Hq Hn).
    - intros db Hdb c0. split; [apply row_events_stop, Hq|]. split; [|split; [|split]].
      + unfold c0. rewrite last_success_quiet, with_x_container_sync_row_same by exact Hq.
        rewrite insert_id; auto.
      + intros ->. discriminate.
      + intros ->. discriminate.
      + exists []. split; [apply pass_rows_end, Hlog|].
        destruct r as [exit|e]; [constructor | left; eauto]. }
  destruct (negb (Py.endswith path ".db")).
  { apply (Hquiet _ _ []); auto using app_nil_r; discriminate. }
  destruct (ContainerBroker_raises env path) as [e0|] eqn:Hopen.
  { destruct (is_Exception e0).
    - apply (Hquiet _ _ []); cbn; auto using app_nil_r; try discriminate. eauto.
    - apply (Hquiet _ _ []); cbn; auto using app_nil_r; try discriminate. eauto. }
  cbv zeta.
  destruct (fs w !! path) as [db|] eqn:Hfs.
  2:{ eapply (Hquiet _ _ [_]); cbn; auto; try discriminate. repeat constructor. }
  destruct (db_is_deleted db).
  { apply (Hquiet _ _ []); auto using app_nil_r; discriminate. }
  unfold sync_to_of, sync_key_of in Hquiet |- *.
  destruct (scan_metadata (metadata db) None None) as [sync_to sync_key] eqn:Hscan.
  destruct (negb (Py.truthy sync_to) || negb (Py.truthy sync_key)).
  { apply (Hquiet _ _ []); cbn; auto using app_nil_r; discriminate. }
  destruct (Py.truthy (validate_sync_to env _ _)).
  { eapply (Hquiet _ _ [_]); cbn; auto; try discriminate. repeat constructor. }
  clear Hquiet.
  edestruct (sync_rows_spec env {| db_file := path |} (info_of db)
               (Py.rstrip "/" (default EmptyString sync_to))
               (default EmptyString sync_key)
               (time_time env (time_reads w) + container_time (daemon w))
               db (S (length (objects db))) (x_container_sync_row db) (tick w))
    as (r & w' & evs & log & Heq & Htr & Hev & Hlog & Hfs' & Hsyncs & Hexit).
  { cbn. rewrite with_x_container_sync_row_same. exact Hfs. }
  { pose proof (length_filter (fun r => x_container_sync_row db < ROWID r) (objects db)).
    lia. }
  cbn [db_file] in *. unfold info_of in Heq. rewrite Heq.
  assert (Hlog' : forall db', Some db = Some db' ->
            pass_rows env {| db_file := path |} (info_of db')
              (Py.rstrip "/"
                 (default EmptyString (fst (scan_metadata (metadata db') None None))))
              (default EmptyString (snd (scan_metadata (metadata db') None None)))
              (objects db') (trace w) (x_container_sync_row db') log evs).
  { intros db' [= <-]. rewrite Hscan. exact Hlog. }
  destruct r as [exit|e].
  - destruct Hexit as [Hexit Hoks].
    eexists _, _, evs. split; [reflexivity|]. split; [destruct exit; exact Htr|].
    unfold deadline.
    destruct exit; cbn in Hexit; try contradiction; cbn [completed].
    + (* RowFailed *)
      split; [discriminate|]. split; [cbn in Hsyncs |- *; lia|]. split.
      * split; [reflexivity|]. intros _. destruct Hexit as (pre & n & ->).
        exists n. apply elem_of_app. right. left.
      * intros db' Hdb'. pose proof (Hlog' db' Hdb') as Hl. injection Hdb' as <-.
        repeat split; auto; try discriminate. exists log. auto.
    + (* RowsExhausted *)
      destruct Hexit as [Hnone Hnf].
      split; [discriminate|]. split; [cbn in Hsyncs |- *; lia|]. split.
      * split; [|discriminate]. intros [n Hn]. destruct (Hnf n Hn).
      * intros db' Hdb'. pose proof (Hlog' db' Hdb') as Hl. injection Hdb' as <-.
        repeat split; auto; try discriminate. exists log. auto.
    + (* DeadlinePassed *)
      destruct Hexit as [Hlate Hnf].
      split; [discriminate|]. split; [cbn in Hsyncs |- *; lia|]. split.
      * split; [|discriminate]. intros [n Hn]. destruct (Hnf n Hn).
      * intros db' Hdb'. pose proof (Hlog' db' Hdb') as Hl. injection Hdb' as <-.
        repeat split; auto; try discriminate. exists log. auto.
  - destruct Hexit as (Hexc & Hby & Hnf & Hlast). rewrite Hexc.
    exists (Raise e), w', evs. split; [reflexivity|]. split; [exact Htr|].
    split; [discriminate|]. split; [cbn in Hsyncs |- *; lia|]. split.
    + split; [|discriminate]. intros [n Hn]. destruct (Hnf n Hn).
    + intros db' Hdb'. pose proof (Hlog' db' Hdb') as Hl. injection Hdb' as <-.
      repeat split; auto; try discriminate. exists log. auto.
Qed.

(** *** What the shape of the events entails *)

Lemma cursor_writes_app evs1 evs2 :
  cursor_writes (evs1 ++ evs2) = cursor_writes evs1 ++ cursor_writes evs2.
Proof.
  induction evs1 as [|e evs1 IH]; [reflexivity|].
  destruct e; cbn; rewrite IH; reflexivity.
Qed.

Lemma cursor_writes_quiet q : Forall quiet q -> cursor_writes q = [].
Proof.
  induction 1 as [|e q He _ IH]; [reflexivity|].
  destruct e; try contradiction; exact IH.
Qed.

Lemma attempted_app evs1 evs2 :
  attempted (evs1 ++ evs2) = attempted evs1 ++ attempted evs2.
Proof.
  induction evs1 as [|e evs1 IH]; [reflexivity|].
  destruct e; cbn; rewrite IH; reflexivity.
Qed.

Lemma attempted_quiet q : Forall quiet q -> attempted q = [].
Proof.
  induction 1 as [|e q He _ IH]; [reflexivity|].
  destruct e; try contradiction; exact IH.
Qed.

Lemma elem_of_attempted n ok evs : EvSyncRow n ok ∈ evs -> n ∈ attempted evs.
Proof.
  induction evs as [|e evs IH]; intros Hin; [inversion Hin|].
  apply elem_of_cons in Hin as [<-|Hin]; [left|].
  destruct e; cbn; auto. right. auto.
Qed.

Lemma last_success_app c evs1 evs2 :
  last_success c (evs1 ++ evs2) = last_success (last_success c evs1) evs2.
Proof.
  revert c. induction evs1 as [|e evs1 IH]; intros c; [reflexivity|].
  destruct e as [| | |n []]; cbn; apply IH.
Qed.

Lemma row_events_writes_sorted path table c evs :
  row_events path table c evs -> StronglySorted Z.lt (c :: cursor_writes evs).
Proof.
  intros H. apply Sorted_StronglySorted; [exact _|].
  induction H as [c q Hq | c row q Hrows Hq | c row q rest Hrows Hq _ IH].
  - rewrite cursor_writes_quiet by exact Hq. repeat constructor.
  - rewrite cursor_writes_app, cursor_writes_quiet by exact Hq. repeat constructor.
  - rewrite cursor_writes_app, cursor_writes_quiet by exact Hq. cbn.
    apply rows_since_1 in Hrows as (_ & Hlt & _).
    constructor; [exact IH | constructor; exact Hlt].
Qed.

Lemma row_events_attempted_sorted path table c evs :
  row_events path table c evs -> StronglySorted Z.lt (c :: attempted evs).
Proof.
  intros H. apply Sorted_StronglySorted; [exact _|].
  induction H as [c q Hq | c row q Hrows Hq | c row q rest Hrows Hq _ IH].
  - rewrite attempted_quiet by exact Hq. repeat constructor.
  - rewrite attempted_app, attempted_quiet by exact Hq. cbn.
    apply rows_since_1 in Hrows as (_ & Hlt & _). repeat constructor; auto.
  - rewrite attempted_app, attempted_quiet by exact Hq. cbn.
    apply rows_since_1 in Hrows as (_ & Hlt & _).
    constructor; [exact IH | constructor; exact Hlt].
Qed.

Lemma row_events_last_write path table c evs :
  row_events path table c evs ->
  last (c :: cursor_writes evs) = Some (last_success c evs).
Proof.
  induction 1 as [c q Hq | c row q Hrows Hq | c row q rest Hrows Hq _ IH].
  - rewrite cursor_writes_quiet, last_success_quiet by exact Hq. reflexivity.
  - rewrite cursor_writes_app, cursor_writes_quiet, last_success_app_quiet by exact Hq.
    reflexivity.
  - rewrite cursor_writes_app, cursor_writes_quiet, last_success_app_quiet by exact Hq.
    cbn [app cursor_writes last_success]. rewrite <- IH. reflexivity.
Qed.

(** An event that is not quiet lies behind a quiet prefix. *)
Lemma quiet_prefix_split q l pre e post :
  Forall quiet q -> ~ quiet e ->
  q ++ l = pre ++ e :: post ->
  exists pre2, pre = q ++ pre2 /\ l = pre2 ++ e :: post.
Proof.
  intros Hq He. revert pre. induction Hq as [|x q Hx _ IH]; intros pre Heq.
  - exists pre. auto.
  - destruct pre as [|y pre]; cbn in Heq.
    + injection Heq as -> _. contradiction.
    + injection Heq as -> Heq. destruct (IH pre Heq) as (pre2 & -> & ->).
      exists pre2. auto.
Qed.

(** Every event of a pass that is not quiet is of one of three kinds: a
    row that failed, after which nothing happens; a row that was synced,
    followed at once by the write of its ROWID to the cursor; and that
    write.  The row is each time the one [get_items_since] yields for
    the cursor as it then stands. *)
Lemma row_events_inv path table c evs :
  row_events path table c evs ->
  forall pre e post,
    ~ quiet e -> evs = pre ++ e :: post ->
    (exists row,
        rows_since (last_success c pre) 1 table = [row]
        /\ e = EvSyncRow (ROWID row) false /\ post = [])
    \/ (exists row post',
        rows_since (last_success c pre) 1 table = [row]
        /\ e = EvSyncRow (ROWID row) true
        /\ post = EvSetCursor path (ROWID row) :: post')
    \/ (exists row pre',
        rows_since (last_success c pre') 1 table = [row]
        /\ e = EvSetCursor path (ROWID row)
        /\ pre = pre' ++ [EvSyncRow (ROWID row) true]).
Proof.
  induction 1 as [c q Hq | c row q Hrows Hq | c row q rest Hrows Hq _ IH];
    intros pre e post He Heq.
  - exfalso. apply He. rewrite Forall_forall in Hq. apply Hq.
    rewrite Heq. apply elem_of_app. right. left.
  - apply quiet_prefix_split in Heq as (pre2 & -> & Heq); auto.
    destruct pre2 as [|x pre2]; cbn in Heq.
    + injection Heq as <- <-. left. exists row.
      rewrite last_success_app_quiet by exact Hq. auto.
    + injection Heq as _ Heq. destruct pre2; discriminate.
  - apply quiet_prefix_split in Heq as (pre2 & -> & Heq); auto.
    destruct pre2 as [|x [|y pre3]]; cbn in Heq.
    + injection Heq as <- <-. right. left. exists row, rest.
      rewrite last_success_app_quiet by exact Hq. auto.
    + injection Heq as <- <- <-. right. right. exists row, q.
      rewrite last_success_quiet by exact Hq. auto.
    + injection Heq as <- <- ->.
      assert (Hlast : forall l,
        last_success c
          (q ++ EvSyncRow (ROWID row) true :: EvSetCursor path (ROWID row) :: l)
        = last_success (ROWID row) l).
      { intros l. rewrite last_success_app_quiet by exact Hq. reflexivity. }
      destruct (IH pre3 e post He eq_refl)
        as [(r & Hr & -> & ->) | [(r & post' & Hr & -> & ->) | (r & pre' & Hr & -> & ->)]].
      * left. exists r. rewrite Hlast. auto.
      * right. left. exists r, post'. rewrite Hlast. auto.
      * right. right. exists r,
          (q ++ EvSyncRow (ROWID row) true :: EvSetCursor path (ROWID row) :: pre').
        rewrite Hlast. repeat split; auto.
        rewrite <- app_assoc. reflexivity.
Qed.

(** *** The calls of [container_sync_row] behind the events *)

Lemma row_run_quiet env broker info sync_to sync_key h row r seg :
  row_run env broker info sync_to sync_key h row r seg -> Forall quiet seg.
Proof.
  intros (w1 & w2 & Hh & Heq & Htr).
  destruct (container_sync_row_spec env row sync_to sync_key broker info w1)
    as (r' & w' & evs & Heq' & (_ & _ & Htr') & Hq & _).
  rewrite Heq in Heq'. injection Heq' as <- <-.
  rewrite Htr', Hh in Htr. apply app_inv_head in Htr. subst seg. exact Hq.
Qed.

Lemma marker_not_quiet q n ok : Forall quiet q -> EvSyncRow n ok ∉ q.
Proof.
  intros Hq Hin. rewrite Forall_forall in Hq. exact (Hq _ Hin).
Qed.

Lemma marker_behind_quiet q l n ok :
  Forall quiet q -> EvSyncRow n ok ∈ q ++ l -> EvSyncRow n ok ∈ l.
Proof.
  intros Hq Hin. apply elem_of_app in Hin as [Hin|Hin]; [|exact Hin].
  destruct (marker_not_quiet _ _ _ Hq Hin).
Qed.

Section Pass_rows_facts.

Variables (env : Env) (broker : Broker) (info : Info) (sync_to sync_key : string)
  (table : list Row).

Local Abbreviation pass := (pass_rows env broker info sync_to sync_key table).

Lemma pass_rows_row_events h c log evs :
  pass h c log evs -> row_events (db_file broker) table c evs.
Proof.
  induction 1 as [h c q Hq | h c row e seg Hrow Hrun | h c row seg Hrow Hrun
                 | h c row seg log rest Hrow Hrun _ IH].
  - apply row_events_stop, is_log_quiet, Hq.
  - apply row_events_stop. exact (row_run_quiet _ _ _ _ _ _ _ _ _ Hrun).
  - apply row_events_failed; [exact Hrow|].
    exact (row_run_quiet _ _ _ _ _ _ _ _ _ Hrun).
  - apply row_events_synced; [exact Hrow | | exact IH].
    exact (row_run_quiet _ _ _ _ _ _ _ _ _ Hrun).
Qed.

(** The cursor is written for the rows on which [container_sync_row]
    returned [True], in that order, and for nothing else. *)
Lemma pass_rows_writes h c log evs :
  pass h c log evs -> cursor_writes evs = ROWID <$> rows_synced log.
Proof.
  induction 1 as [h c q Hq | h c row e seg Hrow Hrun | h c row seg Hrow Hrun
                 | h c row seg log rest Hrow Hrun _ IH].
  - apply cursor_writes_quiet, is_log_quiet, Hq.
  - apply cursor_writes_quiet. exact (row_run_quiet _ _ _ _ _ _ _ _ _ Hrun).
  - rewrite cursor_writes_app, cursor_writes_quiet
      by exact (row_run_quiet _ _ _ _ _ _ _ _ _ Hrun).
    reflexivity.
  - rewrite cursor_writes_app, cursor_writes_quiet
      by exact (row_run_quiet _ _ _ _ _ _ _ _ _ Hrun).
    cbn. rewrite IH. reflexivity.
Qed.

(** The rows are called in strictly increasing order of ROWID, all
    beyond the cursor the pass started from. *)
Lemma pass_rows_sorted h c log evs :
  pass h c log evs ->
  StronglySorted Z.lt (c :: ((fun entry => ROWID (fst entry)) <$> log)).
Proof.
  intros H. apply Sorted_StronglySorted; [exact _|].
  induction H as [h c q Hq | h c row e seg Hrow Hrun | h c row seg Hrow Hrun
                 | h c row seg log rest Hrow Hrun _ IH].
  - repeat constructor.
  - apply rows_since_1 in Hrow as (_ & Hlt & _). repeat constructor. exact Hlt.
  - apply rows_since_1 in Hrow as (_ & Hlt & _). repeat constructor. exact Hlt.
  - apply rows_since_1 in Hrow as (_ & Hlt & _). cbn.
    constructor; [exact IH | constructor; exact Hlt].
Qed.

(** Every row called is a row of the table. *)
Lemma pass_rows_table h c log evs :
  pass h c log evs -> Forall (fun entry => fst entry ∈ table) log.
Proof.
  induction 1 as [h c q Hq | h c row e seg Hrow Hrun | h c row seg Hrow Hrun
                 | h c row seg log rest Hrow Hrun _ IH].
  - constructor.
  - apply rows_since_1 in Hrow as (_ & _ & Hin & _). repeat constructor. exact Hin.
  - apply rows_since_1 in Hrow as (_ & _ & Hin & _). repeat constructor. exact Hin.
  - apply rows_since_1 in Hrow as (_ & _ & Hin & _). constructor; [exact Hin | exact IH].
Qed.

(** Nothing follows a call that returned [False] or raised. *)
Lemma pass_rows_halt h c log evs :
  pass h c log evs ->
  forall pre row r post,
    log = pre ++ (row, r) :: post -> r <> Ok true -> post = [].
Proof.
  induction 1 as [h c q Hq | h c row e seg Hrow Hrun | h c row seg Hrow Hrun
                 | h c row seg log rest Hrow Hrun _ IH];
    intros pre row' r post Heq Hr.
  - destruct pre; discriminate.
  - destruct pre as [|x pre]; [injection Heq as _ _ <-; reflexivity|].
    destruct pre; discriminate.
  - destruct pre as [|x pre]; [injection Heq as _ _ <-; reflexivity|].
    destruct pre; discriminate.
  - destruct pre as [|x pre]; cbn in Heq.
    + injection Heq as _ <- _. contradiction.
    + injection Heq as _ Heq. exact (IH pre row' r post Heq Hr).
Qed.

Lemma pass_rows_marker_beyond h c log evs n ok :
  pass h c log evs -> EvSyncRow n ok ∈ evs -> c < n.
Proof.
  intros H Hin. apply pass_rows_row_events in H.
  apply row_events_attempted_sorted, StronglySorted_inv in H as [_ Hall].
  rewrite Forall_forall in Hall. exact (Hall n (elem_of_attempted _ _ _ Hin)).
Qed.

(** The markers of the events are those of the calls that returned. *)
Lemma pass_rows_markers h c log evs :
  pass h c log evs ->
  attempted evs
  = omap (fun entry => match snd entry with
                       | Ok _ => Some (ROWID (fst entry))
                       | Raise _ => None
                       end) log.
Proof.
  induction 1 as [h c q Hq | h c row e seg Hrow Hrun | h c row seg Hrow Hrun
                 | h c row seg log rest Hrow Hrun _ IH].
  - apply attempted_quiet, is_log_quiet, Hq.
  - apply attempted_quiet. exact (row_run_quiet _ _ _ _ _ _ _ _ _ Hrun).
  - rewrite attempted_app, attempted_quiet
      by exact (row_run_quiet _ _ _ _ _ _ _ _ _ Hrun).
    reflexivity.
  - rewrite attempted_app, attempted_quiet
      by exact (row_run_quiet _ _ _ _ _ _ _ _ _ Hrun).
    cbn. rewrite IH. reflexivity.
Qed.

(** A marker stands for a call of [container_sync_row] that returned. *)
Lemma pass_rows_marker_iff h c log evs :
  pass h c log evs ->
  forall n ok,
    EvSyncRow n ok ∈ evs <-> exists row, ROWID row = n /\ (row, Ok ok) ∈ log.
Proof.
  induction 1 as [h c q Hq | h c row e seg Hrow Hrun | h c row seg Hrow Hrun
                 | h c row seg log rest Hrow Hrun _ IH]; intros n ok.
  - split.
    + intros Hin. destruct (marker_not_quiet _ _ _ (is_log_quiet _ Hq) Hin).
    + intros (row & _ & Hin). inversion Hin.
  - split.
    + intros Hin.
      destruct (marker_not_quiet _ _ _ (row_run_quiet _ _ _ _ _ _ _ _ _ Hrun) Hin).
    + intros (row' & _ & Hin). apply list_elem_of_singleton in Hin. discriminate.
  - split.
    + intros Hin. apply marker_behind_quiet in Hin;
        [|exact (row_run_quiet _ _ _ _ _ _ _ _ _ Hrun)].
      apply list_elem_of_singleton in Hin. injection Hin as -> ->.
      exists row. split; [reflexivity | left].
    + intros (row' & <- & Hin). apply list_elem_of_singleton in Hin.
      injection Hin as -> <-. apply elem_of_app. right. left.
  - split.
    + intros Hin. apply marker_behind_quiet in Hin;
        [|exact (row_run_quiet _ _ _ _ _ _ _ _ _ Hrun)].
      apply elem_of_cons in Hin as [Hin|Hin].
      { injection Hin as -> ->. exists row. split; [reflexivity | left]. }
      apply elem_of_cons in Hin as [Hin|Hin]; [discriminate|].
      apply IH in Hin as (row' & Hid & Hin). exists row'. split; [exact Hid | right; exact Hin].
    + intros (row' & Hid & Hin). apply elem_of_app. right.
      apply elem_of_cons in Hin as [Hin|Hin].
      { injection Hin as -> <-. rewrite <- Hid. left. }
      right. right. apply IH. eauto.
Qed.

End Pass_rows_facts.

(** The row [get_items_since] yields has the least ROWID of the table
    above the cursor. *)
Lemma rows_since_least c table row n :
  rows_since c 1 table = [row] ->
  n ∈ ROWID <$> table -> c < n ->
  (forall m, m ∈ ROWID <$> table -> c < m -> n <= m) ->
  ROWID row = n.
Proof.
  intros Hrow Hn Hc Hleast.
  apply rows_since_1 in Hrow as (_ & Hlt & Hin & Hmin).
  apply list_elem_of_fmap in Hn as (r & -> & Hr).
  pose proof (Hmin r Hr Hc).
  assert (ROWID r <= ROWID row).
  { apply Hleast; [|exact Hlt]. apply list_elem_of_fmap. eauto. }
  lia.
Qed.

(** C1.  In every pass over a container database, whatever the rows and
    whatever [container_sync_row] answers: the values the cursor takes,
    from the one the pass found on, increase strictly; every write of
    the cursor is that of the ROWID of a row for which
    [container_sync_row] has just returned [True], and every such return
    is followed at once by that write; and when the pass is over the
    persisted cursor is the ROWID of the last row for which
    [container_sync_row] returned [True], or the initial cursor when
    there is no such row.  The events of the pass are those of its calls
    [log] of [container_sync_row], each on the row that
    [get_items_since] yields for the cursor as it stands, and the cursor
    is written for the rows of the calls that returned [True], in that
    order, and for nothing else. *)
Theorem cursor_only_advances env path w db :
  fs w !! path = Some db ->
  exists r w' evs log,
    container_sync env path w = (r, w')
    /\ trace w' = trace w ++ evs
    /\ pass_rows env {| db_file := path |} (info_of db) (sync_to_of db)
         (sync_key_of db) (objects db) (trace w) (x_container_sync_row db) log evs
    /\ cursor_writes evs = ROWID <$> rows_synced log
    /\ StronglySorted Z.lt (x_container_sync_row db :: cursor_writes evs)
    /\ (forall pre p n post,
          evs = pre ++ EvSetCursor p n :: post ->
          p = path /\ exists pre', pre = pre' ++ [EvSyncRow n true])
    /\ (forall pre n post,
          evs = pre ++ EvSyncRow n true :: post ->
          exists post', post = EvSetCursor path n :: post')
    /\ last (x_container_sync_row db :: cursor_writes evs)
       = Some (last_success (x_container_sync_row db) evs)
    /\ x_container_sync_row <$> fs w' !! path
       = last (x_container_sync_row db :: (ROWID <$> rows_synced log)).
Proof.
  intros Hfs.
  destruct (container_sync_run env path w)
    as (r & w' & evs & Heq & Htr & _ & _ & _ & Hdb).
  destruct (Hdb db Hfs) as (Hev & Hfs' & _ & _ & log & Hlog & _).
  pose proof (pass_rows_writes _ _ _ _ _ _ _ _ _ _ Hlog) as Hwrites.
  exists r, w', evs, log. split; [exact Heq|]. split; [exact Htr|].
  split; [exact Hlog|]. split; [exact Hwrites|].
  split; [|split; [|split; [|split]]].
  - exact (row_events_writes_sorted _ _ _ _ Hev).
  - intros pre p n post Hsplit.
    destruct (row_events_inv _ _ _ _ Hev pre (EvSetCursor p n) post (fun H => H) Hsplit)
      as [(row & _ & Hbad & _) | [(row & post' & _ & Hbad & _) | (row & pre' & _ & He & ->)]];
      try discriminate.
    injection He as -> ->. eauto.
  - intros pre n post Hsplit.
    destruct (row_events_inv _ _ _ _ Hev pre (EvSyncRow n true) post (fun H => H) Hsplit)
      as [(row & _ & Hbad & _) | [(row & post' & _ & He & ->) | (row & pre' & _ & Hbad & _)]];
      try discriminate.
    injection He as ->. eauto.
  - exact (row_events_last_write _ _ _ _ Hev).
  - rewrite Hfs', lookup_insert_eq. cbn [fmap option_fmap option_map].
    rewrite <- Hwrites, (row_events_last_write _ _ _ _ Hev). reflexivity.
Qed.

Lemma cursor_only_advances_witness :
  fs Scenario.w567 !! "c.db" = Some Scenario.db567
  /\ (exists r w' evs log,
        container_sync Scenario.env567 "c.db" Scenario.w567 = (r, w')
        /\ trace w' = trace Scenario.w567 ++ evs
        /\ pass_rows Scenario.env567 {| db_file := "c.db" |}
             (info_of Scenario.db567) (sync_to_of Scenario.db567)
             (sync_key_of Scenario.db567) (objects Scenario.db567)
             (trace Scenario.w567) 4 log evs
        /\ cursor_writes evs = ROWID <$> rows_synced log
        /\ StronglySorted Z.lt (4 :: cursor_writes evs)
        /\ x_container_sync_row <$> fs w' !! "c.db"
           = last (4 :: (ROWID <$> rows_synced log)))
  /\ calls (trace (snd (container_sync Scenario.env567 "c.db" Scenario.w567)))
     = [delete_object_call "http://10.0.0.5/v1/AUTH_x/dest" "o5"
          (delete_headers (Scenario.row 5 "o5" true) "secret");
        delete_object_call "http://10.0.0.5/v1/AUTH_x/dest" "o6"
          (delete_headers (Scenario.row 6 "o6" true) "secret")]
  /\ cursor_writes (trace (snd (container_sync Scenario.env567 "c.db" Scenario.w567)))
     = [5]
  /\ x_container_sync_row
       <$> fs (snd (container_sync Scenario.env567 "c.db" Scenario.w567)) !! "c.db"
     = Some 5.
Proof.
  split; [reflexivity|]. split.
  - destruct (cursor_only_advances Scenario.env567 "c.db" Scenario.w567 Scenario.db567
                eq_refl)
      as (r & w' & evs & log & Heq & Htr & Hlog & Hwrites & Hsorted & _ & _ & _ & Hcur).
    exists r, w', evs, log. repeat split; assumption.
  - vm_compute. repeat split; reflexivity.
Defined.

(** C5.  Within a pass [container_sync_row] is called on the rows in
    strictly increasing ROWID order, and nothing follows a call that
    returned [False]: no further row is attempted, no request is sent
    and the cursor is not written.  The marker [EvSyncRow n ok] is in
    the events exactly when one of the calls was on a row of ROWID [n]
    and returned [ok].  So, when the table holds the rows 5, 6 and 7,
    all pending, and [container_sync_row] returns [False] on row 6,
    [container_sync_row] has been called on rows 5 and 6 and on no
    other, and the persisted cursor is 5. *)
Theorem rows_in_order env path w db :
  fs w !! path = Some db ->
  exists r w' evs log,
    container_sync env path w = (r, w')
    /\ trace w' = trace w ++ evs
    /\ pass_rows env {| db_file := path |} (info_of db) (sync_to_of db)
         (sync_key_of db) (objects db) (trace w) (x_container_sync_row db) log evs
    /\ StronglySorted Z.lt ((fun entry => ROWID (fst entry)) <$> log)
    /\ (forall pre row post, log = pre ++ (row, Ok false) :: post -> post = [])
    /\ StronglySorted Z.lt (attempted evs)
    /\ (forall pre n post, evs = pre ++ EvSyncRow n false :: post -> post = [])
    /\ (forall n ok,
          EvSyncRow n ok ∈ evs <-> exists row, ROWID row = n /\ (row, Ok ok) ∈ log)
    /\ (ROWID <$> objects db = [5; 6; 7] ->
        x_container_sync_row db < 5 ->
        (exists row, ROWID row = 6 /\ (row, Ok false) ∈ log) ->
        (forall ok, EvSyncRow 7 ok ∉ evs)
        /\ (fun entry => ROWID (fst entry)) <$> log = [5; 6]
        /\ snd <$> log = [Ok true; Ok false]
        /\ x_container_sync_row <$> fs w' !! path = Some 5).
Proof.
  intros Hfs.
  destruct (container_sync_run env path w)
    as (r & w' & evs & Heq & Htr & _ & _ & _ & Hdb).
  destruct (Hdb db Hfs) as (Hev & Hfs' & _ & _ & log & Hlog & _).
  exists r, w', evs, log. split; [exact Heq|]. split; [exact Htr|].
  split; [exact Hlog|].
  pose proof (row_events_attempted_sorted _ _ _ _ Hev) as Hsorted.
  assert (Hhalt : forall pre n post,
            evs = pre ++ EvSyncRow n false :: post ->
            post = []
            /\ exists row, rows_since (last_success (x_container_sync_row db) pre) 1
                             (objects db) = [row] /\ n = ROWID row).
  { intros pre n post Hsplit.
    destruct (row_events_inv _ _ _ _ Hev pre (EvSyncRow n false) post (fun H => H) Hsplit)
      as [(row & Hrow & He & ->) | [(row & post' & _ & Hbad & _) | (row & pre' & _ & Hbad & _)]];
      try discriminate.
    injection He as ->. eauto. }
  pose proof (pass_rows_marker_iff _ _ _ _ _ _ _ _ _ _ Hlog) as Hmarker.
  split; [|split; [|split; [|split; [|split]]]].
  - pose proof (pass_rows_sorted _ _ _ _ _ _ _ _ _ _ Hlog) as Hs.
    apply StronglySorted_inv in Hs as [Hs _]. exact Hs.
  - intros pre row post Hsplit.
    apply (pass_rows_halt _ _ _ _ _ _ _ _ _ _ Hlog pre row (Ok false) post Hsplit).
    discriminate.
  - apply StronglySorted_inv in Hsorted as [Hs _]. exact Hs.
  - intros pre n post Hsplit. apply (Hhalt pre n post Hsplit).
  - exact Hmarker.
  - intros Hids Hc0 H6. apply Hmarker in H6. clear Hmarker.
    assert (Hmem : forall n, n ∈ ROWID <$> objects db <-> n = 5 \/ n = 6 \/ n = 7).
    { intros n. rewrite Hids. rewrite !elem_of_cons, elem_of_nil. tauto. }
    assert (Hnext5 : forall c row, c < 5 -> rows_since c 1 (objects db) = [row] ->
                                   ROWID row = 5).
    { intros c row Hc Hrow. apply (rows_since_least c (objects db) row 5 Hrow).
      - apply Hmem. auto.
      - exact Hc.
      - intros m Hm _. apply Hmem in Hm. lia. }
    assert (Hnext6 : forall row, rows_since 5 1 (objects db) = [row] -> ROWID row = 6).
    { intros row Hrow. apply (rows_since_least 5 (objects db) row 6 Hrow).
      - apply Hmem. auto.
      - lia.
      - intros m Hm Hlt. apply Hmem in Hm. lia. }
    assert (Hlog56 : (fun entry => ROWID (fst entry)) <$> log = [5; 6]
                     /\ snd <$> log = [Ok true; Ok false]).
    { clear Hhalt Hsorted Hev Hfs' Heq Htr Hdb.
      inversion Hlog as [h c q Hq | h c row e seg Hrow Hrun | h c row seg Hrow Hrun
                        | h c row seg log0 rest Hrow Hrun Hrest]; subst.
      - destruct (marker_not_quiet _ _ _ (is_log_quiet _ Hq) H6).
      - destruct (marker_not_quiet _ _ _
                    (row_run_quiet _ _ _ _ _ _ _ _ _ Hrun) H6).
      - apply marker_behind_quiet in H6;
          [|exact (row_run_quiet _ _ _ _ _ _ _ _ _ Hrun)].
        apply list_elem_of_singleton in H6. injection H6 as H6.
        rewrite (Hnext5 _ _ Hc0 Hrow) in H6. discriminate.
      - apply marker_behind_quiet in H6;
          [|exact (row_run_quiet _ _ _ _ _ _ _ _ _ Hrun)].
        apply elem_of_cons in H6 as [H6|H6]; [discriminate|].
        apply elem_of_cons in H6 as [H6|H6]; [discriminate|].
        pose proof (Hnext5 _ _ Hc0 Hrow) as H5. rewrite H5 in Hrest.
        inversion Hrest as [h c q Hq | h c row' e seg' Hrow' Hrun'
                           | h c row' seg' Hrow' Hrun'
                           | h c row' seg' log1 rest' Hrow' Hrun' Hrest']; subst.
        + destruct (marker_not_quiet _ _ _ (is_log_quiet _ Hq) H6).
        + destruct (marker_not_quiet _ _ _
                      (row_run_quiet _ _ _ _ _ _ _ _ _ Hrun') H6).
        + cbn. rewrite H5, (Hnext6 _ Hrow'). auto.
        + apply marker_behind_quiet in H6;
            [|exact (row_run_quiet _ _ _ _ _ _ _ _ _ Hrun')].
          apply elem_of_cons in H6 as [H6|H6]; [discriminate|].
          apply elem_of_cons in H6 as [H6|H6]; [discriminate|].
          pose proof (pass_rows_marker_beyond _ _ _ _ _ _ _ _ _ _ _ _ Hrest' H6) as Hlt.
          rewrite (Hnext6 _ Hrow') in Hlt. lia. }
    apply list_elem_of_split in H6 as (pre & post & Hsplit).
    destruct (Hhalt pre 6 post Hsplit) as (-> & row & Hrow & H6).
    apply rows_since_1 in Hrow as (_ & Hlt & _ & Hleast).
    assert (H5in : exists r5, r5 ∈ objects db /\ ROWID r5 = 5).
    { destruct (objects db) as [|r5 l]; [discriminate|].
      injection Hids as H5 _. exists r5. split; [left | exact H5]. }
    destruct H5in as (r5 & Hr5 & Hid5).
    assert (Hcur : last_success (x_container_sync_row db) pre = 5).
    { pose proof (Hleast r5 Hr5) as Hmin. rewrite Hid5, <- H6 in Hmin.
      lia. }
    split; [|split; [exact (proj1 Hlog56) | split; [exact (proj2 Hlog56)|]]].
    + intros ok H7. subst evs.
      apply elem_of_app in H7 as [H7|H7].
      * apply (elem_of_attempted 7 ok) in H7.
        rewrite attempted_app in Hsorted. cbn in Hsorted.
        apply StronglySorted_inv in Hsorted as [Hs _].
        pose proof (StronglySorted_app_1_elem_of _ _ _ 7 6 Hs H7) as Hcontra.
        specialize (Hcontra ltac:(left)). lia.
      * apply elem_of_cons in H7 as [H7|H7]; [discriminate | inversion H7].
    + rewrite Hfs', lookup_insert_eq. cbn. subst evs.
      rewrite last_success_app. rewrite Hcur. reflexivity.
Qed.

Lemma rows_in_order_witness :
  fs Scenario.w567 !! "c.db" = Some Scenario.db567
  /\ ROWID <$> objects Scenario.db567 = [5; 6; 7]
  /\ x_container_sync_row Scenario.db567 < 5
  /\ attempted (trace (snd (container_sync Scenario.env567 "c.db" Scenario.w567)))
     = [5; 6]
  /\ EvSyncRow 6 false
       ∈ trace (snd (container_sync Scenario.env567 "c.db" Scenario.w567))
  /\ calls (trace (snd (container_sync Scenario.env567 "c.db" Scenario.w567)))
     = [delete_object_call "http://10.0.0.5/v1/AUTH_x/dest" "o5"
          (delete_headers (Scenario.row 5 "o5" true) "secret");
        delete_object_call "http://10.0.0.5/v1/AUTH_x/dest" "o6"
          (delete_headers (Scenario.row 6 "o6" true) "secret")]
  /\ (exists log,
        pass_rows Scenario.env567 {| db_file := "c.db" |}
          (info_of Scenario.db567) (sync_to_of Scenario.db567)
          (sync_key_of Scenario.db567) (objects Scenario.db567)
          (trace Scenario.w567) 4 log
          (trace (snd (container_sync Scenario.env567 "c.db" Scenario.w567)))
        /\ (fun entry => ROWID (fst entry)) <$> log = [5; 6]
        /\ snd <$> log = [Ok true; Ok false])
  /\ (forall ok,
        EvSyncRow 7 ok
          ∉ trace (snd (container_sync Scenario.env567 "c.db" Scenario.w567)))
  /\ x_container_sync_row
       <$> fs (snd (container_sync Scenario.env567 "c.db" Scenario.w567)) !! "c.db"
     = Some 5.
Proof.
  split; [reflexivity|]. split; [reflexivity|]. split; [reflexivity|].
  split; [vm_compute; reflexivity|].
  assert (H6 : EvSyncRow 6 false
                 ∈ trace (snd (container_sync Scenario.env567 "c.db" Scenario.w567))).
  { vm_compute. do 5 right. left. }
  split; [exact H6|].
  split; [vm_compute; reflexivity|].
  destruct (rows_in_order Scenario.env567 "c.db" Scenario.w567 Scenario.db567 eq_refl)
    as (r & w' & evs & log & Heq & Htr & Hlog & _ & _ & _ & _ & Hmarker & Hscenario).
  rewrite Heq in H6 |- *. cbn [snd] in H6 |- *.
  rewrite Htr in H6 |- *. cbn [Scenario.w567 Scenario.world trace app] in H6 |- *.
  apply Hmarker in H6.
  destruct (Hscenario eq_refl eq_refl H6) as (H7 & Hids & Hres & Hcur).
  split; [|split; [exact H7 | exact Hcur]].
  exists log. split; [exact Hlog|]. split; [exact Hids | exact Hres].
Defined.


(** ** Two passes from end to end *)

(** A pending PUT: the object is fetched from the first node and sent on
    with the sanitized headers; the cursor moves to 1. *)
Example pass_with_put :
  container_sync Scenario.env_ok "c.db" (Scenario.world Scenario.db_put)
  = (Ok RowsExhausted,
     {| daemon := incr_syncs (incr_puts Scenario.self0);
        fs := {[ "c.db" := with_x_container_sync_row Scenario.db_put 1 ]};
        time_reads := 3%nat;
        trace :=
          [EvRemote (direct_get_object_call Scenario.node1 7 "AUTH_a" "c" "a.txt");
           EvRemote (put_object_call "http://10.0.0.5/v1/AUTH_x/dest" "a.txt"
                       {[ "etag" := "abc"; "content-length" := "5";
                          "X-Timestamp" := "1400000000.00000";
                          "X-Container-Sync-Key" := "secret" ]}
                       (Iter2FileLikeObject.init [b2s "hello"]));
           EvSyncRow 1 true;
           EvSetCursor "c.db" 1] |}).
Proof. vm_compute. reflexivity. Qed.

(** A pending DELETE answered 404: counted as a delete; the cursor moves
    to 2. *)
Example pass_with_delete_404 :
  container_sync Scenario.env_gone "c.db" (Scenario.world Scenario.db_delete)
  = (Ok RowsExhausted,
     {| daemon := incr_syncs (incr_deletes Scenario.self0);
        fs := {[ "c.db" := with_x_container_sync_row Scenario.db_delete 2 ]};
        time_reads := 3%nat;
        trace :=
          [EvRemote (delete_object_call "http://10.0.0.5/v1/AUTH_x/dest" "a.txt"
                       {[ "X-Timestamp" := "1400000000.00000";
                          "X-Container-Sync-Key" := "secret" ]});
           EvSyncRow 2 true;
           EvSetCursor "c.db" 2] |}).
Proof. vm_compute. reflexivity. Qed.

(** ** The counters and the outcome of a pass *)



(** C3.  [container_sync] lets an exception out when the broker cannot be
    opened.  [ContainerBroker(path)] raises inside the [try], before
    [broker] is assigned; the [except Exception] clause counts the
    failure and then evaluates [broker.db_file] for its log line, which
    raises [UnboundLocalError].  Nothing is logged and the exception
    reaches the caller. *)
Theorem broker_unbound_in_handler :
  ContainerBroker_raises Scenario.env_unopenable "c.db"
    = Some (Exception "unable to open database file")
  /\ container_sync Scenario.env_unopenable "c.db" Scenario.w12
     = (Raise (UnboundLocalError "broker"), with_daemon incr_failures Scenario.w12)
  /\ trace (snd (container_sync Scenario.env_unopenable "c.db" Scenario.w12))
     = trace Scenario.w12
  /\ container_failures
       (daemon (snd (container_sync Scenario.env_unopenable "c.db" Scenario.w12)))
     = container_failures (daemon Scenario.w12) + 1.
Proof. vm_compute. repeat split; reflexivity. Qed.

(** Whenever opening the broker raises an exception that derives from
    [Exception], the handler fails on its own reference to [broker]: the
    failure is counted, nothing is logged and [UnboundLocalError] leaves
    [container_sync]. *)
Lemma container_sync_unopenable env path w e :
  Py.endswith path ".db" = true ->
  ContainerBroker_raises env path = Some e ->
  is_Exception e = true ->
  container_sync env path w
  = (Raise (UnboundLocalError "broker"), with_daemon incr_failures w).
Proof.
  intros Hdb Hraises Hexc.
  rewrite container_sync_unfold, Hdb, Hraises, Hexc. reflexivity.
Qed.

(** Once the broker is open, the row loop ends within its bound, and
    what leaves [container_sync] is at most an exception that does not
    derive from [Exception]. *)
Lemma container_sync_finishes env path w :
  ContainerBroker_raises env path = None ->
  exists r w',
    container_sync env path w = (r, w') /\ r <> Ok Unfinished
    /\ forall e, r = Raise e -> is_Exception e = false.
Proof.
  intros Hopen.
  destruct (container_sync_run env path w) as (r & w' & evs & Heq & _ & Hfin & _).
  exists r, w'. split; [exact Heq|]. split; [exact Hfin|].
  intros e ->. revert Heq. rewrite container_sync_unfold, Hopen.
  destruct (negb (Py.endswith path ".db")); [discriminate|].
  cbv zeta. destruct (fs w !! path) as [db|]; [|discriminate].
  destruct (db_is_deleted db); [discriminate|].
  destruct (scan_metadata (metadata db) None None) as [sync_to sync_key].
  destruct (negb (Py.truthy sync_to) || negb (Py.truthy sync_key)); [discriminate|].
  destruct (Py.truthy (validate_sync_to env _ _)); [discriminate|].
  destruct (sync_rows _ _ _ _ _ _ _ _ _) as [[exit|e1] w1]; [discriminate|].
  destruct (is_Exception e1) eqn:Hexc; [discriminate|].
  intros [= <- _]. exact Hexc.
Qed.

(** ** Containers that are not synced *)

Lemma scan_metadata_lacks items :
  forall sync_to sync_key,
    (lacks "x-container-sync-to" items -> Py.truthy sync_to = false ->
     Py.truthy (fst (scan_metadata items sync_to sync_key)) = false)
    /\ (lacks "x-container-sync-key" items -> Py.truthy sync_key = false ->
        Py.truthy (snd (scan_metadata items sync_to sync_key)) = false).
Proof.
  induction items as [|[k [v t]] items IH]; intros sync_to sync_key; [cbn; auto|].
  assert (Htail : forall key, lacks key ((k, (v, t)) :: items) -> lacks key items).
  { intros key H k' v' t' Hin Hk. apply (H k' v' t'); [right; exact Hin | exact Hk]. }
  assert (Hhead : forall key, lacks key ((k, (v, t)) :: items) ->
                              Py.lower k = key -> Py.truthy (Some v) = false).
  { intros key H Hk. rewrite (H k v t); [reflexivity | left | exact Hk]. }
  cbn [scan_metadata].
  destruct (String.eqb_spec (Py.lower k) "x-container-sync-to") as [Hto|_];
    [|destruct (String.eqb_spec (Py.lower k) "x-container-sync-key") as [Hkey|_]].
  - destruct (IH (Some v) sync_key) as [IH1 IH2]. split.
    + intros H _. apply IH1; eauto.
    + intros H Hs. apply IH2; eauto.
  - destruct (IH sync_to (Some v)) as [IH1 IH2]. split.
    + intros H Hs. apply IH1; eauto.
    + intros H _. apply IH2; eauto.
  - destruct (IH sync_to sync_key) as [IH1 IH2]. split.
    + intros H Hs. apply IH1; eauto.
    + intros H Hs. apply IH2; eauto.
Qed.

(** C8 fails for a container marked deleted: its metadata holds neither
    key, and the pass leaves every counter alone. *)
Lemma deleted_container_not_skipped :
  lacks "x-container-sync-to" (metadata Scenario.db_deleted_plain)
  /\ lacks "x-container-sync-key" (metadata Scenario.db_deleted_plain)
  /\ container_sync Scenario.env_ok "c.db" Scenario.w_deleted_plain
     = (Ok ContainerDeleted, Scenario.w_deleted_plain)
  /\ container_skips
       (daemon (snd (container_sync Scenario.env_ok "c.db" Scenario.w_deleted_plain)))
     <> container_skips (daemon Scenario.w_deleted_plain) + 1.
Proof.
  split; [|split].
  - intros k v t Hin. inversion Hin.
  - intros k v t Hin. inversion Hin.
  - vm_compute. split; [reflexivity | discriminate].
Qed.

(** C8, as the code has it.  For a container database that opens and is
    not marked deleted, when no metadata item named x-container-sync-to
    (in any case) has a value, or none named x-container-sync-key has,
    [container_sync] leaves [container_skips] one more than before and
    does nothing else: no request, no log line, no write of the cursor,
    no reading of the clock, no other counter. *)
Theorem unconfigured_container_skipped env path w db :
  Py.endswith path ".db" = true ->
  ContainerBroker_raises env path = None ->
  fs w !! path = Some db ->
  db_is_deleted db = false ->
  lacks "x-container-sync-to" (metadata db)
  \/ lacks "x-container-sync-key" (metadata db) ->
  exists w',
    container_sync env path w = (Ok SyncNotConfigured, w')
    /\ after w [] w'
    /\ counts (daemon w) (daemon w') 0 0 0 1 0.
Proof.
  intros Hdb Hopen Hfs Hlive Hlacks.
  exists (with_daemon incr_skips w).
  split; [|split; [apply after_with_daemon, after_refl | apply counts_incr_skips]].
  rewrite container_sync_unfold, Hdb, Hopen, Hfs, Hlive. cbn [negb].
  destruct (scan_metadata_lacks (metadata db) None None) as [Hto Hkey].
  destruct (scan_metadata (metadata db) None None) as [sync_to sync_key].
  cbn [fst snd] in Hto, Hkey.
  destruct Hlacks as [H|H].
  - rewrite (Hto H eq_refl). reflexivity.
  - rewrite (Hkey H eq_refl), orb_true_r. reflexivity.
Qed.

Lemma unconfigured_container_skipped_witness :
  Py.endswith "c.db" ".db" = true
  /\ fs Scenario.w_no_key !! "c.db" = Some Scenario.db_no_key
  /\ db_is_deleted Scenario.db_no_key = false
  /\ lacks "x-container-sync-key" (metadata Scenario.db_no_key)
  /\ container_skips
       (daemon (snd (container_sync Scenario.env_ok "c.db" Scenario.w_no_key)))
     = container_skips (daemon Scenario.w_no_key) + 1
  /\ exists w',
       container_sync Scenario.env_ok "c.db" Scenario.w_no_key
       = (Ok SyncNotConfigured, w')
       /\ trace w' = []
       /\ fs w' = fs Scenario.w_no_key
       /\ container_skips (daemon w') = 1
       /\ container_failures (daemon w') = 0.
Proof.
  assert (Hlacks : lacks "x-container-sync-key" (metadata Scenario.db_no_key)).
  { intros k v t Hin Hk.
    apply elem_of_cons in Hin as [Hin|Hin]; [injection Hin as -> _ _; discriminate|].
    apply elem_of_cons in Hin as [Hin|Hin]; [injection Hin as _ -> _; reflexivity|].
    inversion Hin. }
  split; [reflexivity|]. split; [reflexivity|]. split; [reflexivity|].
  split; [exact Hlacks|]. split; [vm_compute; reflexivity|].
  destruct (unconfigured_container_skipped Scenario.env_ok "c.db"
              Scenario.w_no_key Scenario.db_no_key
              eq_refl eq_refl eq_refl eq_refl (or_intror Hlacks))
    as (w' & Heq & (Hfs & _ & Htr) & (_ & _ & _ & _ & _ & Hskips & Hfailures)).
  exists w'. split; [exact Heq|]. split; [exact Htr|]. split; [exact Hfs|].
  split; [exact Hskips | exact Hfailures].
Defined.

(** C9 fails for a container marked deleted, and for one without a sync
    key: the target is one [validate_sync_to] rejects, yet in the first
    case the pass does nothing, and in the second it counts a skip, not
    a failure. *)
Lemma invalid_target_not_validated :
  validate_sync_to Scenario.env_invalid
    (Py.rstrip "/" "http://10.0.0.5/v1/AUTH_x/dest/")
    (allowed_sync_hosts (daemon Scenario.w_deleted_synced))
  = Some "Invalid host '10.0.0.5' in X-Container-Sync-To"
  /\ container_sync Scenario.env_invalid "c.db" Scenario.w_deleted_synced
     = (Ok ContainerDeleted, Scenario.w_deleted_synced)
  /\ container_failures
       (daemon (snd (container_sync Scenario.env_invalid "c.db"
                       Scenario.w_deleted_synced)))
     <> container_failures (daemon Scenario.w_deleted_synced) + 1
  /\ container_sync Scenario.env_invalid "c.db" Scenario.w_no_key
     = (Ok SyncNotConfigured, with_daemon incr_skips Scenario.w_no_key)
  /\ container_failures
       (daemon (snd (container_sync Scenario.env_invalid "c.db" Scenario.w_no_key)))
     <> container_failures (daemon Scenario.w_no_key) + 1.
Proof. vm_compute. repeat split; try reflexivity; discriminate. Qed.

(** C9, as the code has it.  For a container database that opens, is not
    marked deleted and has both a sync target and a sync key, when
    [validate_sync_to] rejects the target (stripped of trailing slashes)
    against [allowed_sync_hosts], [container_sync] logs the error, leaves
    [container_failures] one more than before and does nothing else: no
    request, no write of the cursor, no reading of the clock, no other
    counter. *)
Theorem invalid_sync_to_fails env path w db sync_to sync_key err :
  Py.endswith path ".db" = true ->
  ContainerBroker_raises env path = None ->
  fs w !! path = Some db ->
  db_is_deleted db = false ->
  scan_metadata (metadata db) None None = (Some sync_to, Some sync_key) ->
  sync_to <> EmptyString ->
  sync_key <> EmptyString ->
  validate_sync_to env (Py.rstrip "/" sync_to) (allowed_sync_hosts (daemon w))
    = Some err ->
  err <> EmptyString ->
  exists w',
    container_sync env path w = (Ok InvalidSyncTo, w')
    /\ after w [EvLog (logger_info_line "ERROR %(db_file)s: %(validate_sync_to_err)s"
                         [path; err])] w'
    /\ counts (daemon w) (daemon w') 0 0 0 0 1.
Proof.
  intros Hdb Hopen Hfs Hlive Hscan Hto Hkey Herr Hmsg.
  eexists.
  split; [|split; [apply after_with_daemon, after_emit | apply counts_incr_failures]].
  rewrite container_sync_unfold, Hdb, Hopen, Hfs, Hlive, Hscan. cbn [negb].
  assert (Htruthy : forall s, s <> EmptyString -> Py.truthy (Some s) = true).
  { intros s Hs. cbn. destruct (String.eqb_spec s EmptyString); [contradiction | reflexivity]. }
  rewrite (Htruthy _ Hto), (Htruthy _ Hkey). cbn [negb orb].
  change (default EmptyString (Some sync_to)) with sync_to.
  cbv zeta. rewrite Herr, (Htruthy _ Hmsg). reflexivity.
Qed.

Lemma invalid_sync_to_fails_witness :
  fs Scenario.w12 !! "c.db" = Some Scenario.db12
  /\ db_is_deleted Scenario.db12 = false
  /\ scan_metadata (metadata Scenario.db12) None None
     = (Some "http://10.0.0.5/v1/AUTH_x/dest/", Some "secret")
  /\ validate_sync_to Scenario.env_invalid
       (Py.rstrip "/" "http://10.0.0.5/v1/AUTH_x/dest/")
       (allowed_sync_hosts (daemon Scenario.w12))
     = Some "Invalid host '10.0.0.5' in X-Container-Sync-To"
  /\ container_failures
       (daemon (snd (container_sync Scenario.env_invalid "c.db" Scenario.w12)))
     = container_failures (daemon Scenario.w12) + 1
  /\ exists w',
       container_sync Scenario.env_invalid "c.db" Scenario.w12
       = (Ok InvalidSyncTo, w')
       /\ trace w'
          = [EvLog (logger_info_line
                      "ERROR %(db_file)s: %(validate_sync_to_err)s"
                      ["c.db"; "Invalid host '10.0.0.5' in X-Container-Sync-To"])]
       /\ fs w' = fs Scenario.w12
       /\ container_failures (daemon w') = 1
       /\ container_skips (daemon w') = 0.
Proof.
  split; [reflexivity|]. split; [reflexivity|]. split; [reflexivity|].
  split; [reflexivity|]. split; [vm_compute; reflexivity|].
  destruct (invalid_sync_to_fails Scenario.env_invalid "c.db"
              Scenario.w12 Scenario.db12
              "http://10.0.0.5/v1/AUTH_x/dest/" "secret"
              "Invalid host '10.0.0.5' in X-Container-Sync-To"
              eq_refl eq_refl eq_refl eq_refl eq_refl
              ltac:(discriminate) ltac:(discriminate) eq_refl ltac:(discriminate))
    as (w' & Heq & (Hfs & _ & Htr) & (_ & _ & _ & _ & _ & Hskips & Hfailures)).
  exists w'. split; [exact Heq|]. split; [exact Htr|]. split; [exact Hfs|].
  split; [exact Hfailures | exact Hskips].
Defined.

(** * More properties *)

(** ** More on the iterator-to-file adapter *)

Lemma reads_app (self : Iter2FileLikeObject.t) (sizes1 sizes2 : list Z) :
  Iter2FileLikeObject.reads self (sizes1 ++ sizes2)
  = (fst (Iter2FileLikeObject.reads self sizes1)
       ++ fst (Iter2FileLikeObject.reads
                 (snd (Iter2FileLikeObject.reads self sizes1)) sizes2),
     snd (Iter2FileLikeObject.reads
            (snd (Iter2FileLikeObject.reads self sizes1)) sizes2)).
Proof.
  revert self. induction sizes1 as [|size sizes1 IH]; intros self.
  - cbn. destruct (Iter2FileLikeObject.reads self sizes2); reflexivity.
  - cbn [app Iter2FileLikeObject.reads].
    destruct (Iter2FileLikeObject.read self size) as [data self1].
    rewrite IH.
    destruct (Iter2FileLikeObject.reads self1 sizes1) as [datas self2].
    reflexivity.
Qed.

(** The chunk a sized read returns and the state it leaves. *)
Lemma read_sized (source : list bytes) (kept : bytes) (size : Z) :
  0 <= size ->
  exists kept',
    Iter2FileLikeObject.read (Iter2FileLikeObject.Build source kept) size
    = (take (Z.to_nat size) (default [] (head source)),
       Iter2FileLikeObject.Build (tail source) kept').
Proof.
  intros Hsize. unfold Iter2FileLikeObject.read.
  destruct (Z.ltb_spec size 0) as [Hneg|_]; [lia|].
  cbn [Iter2FileLikeObject.iterator Iter2FileLikeObject._chunk].
  destruct source as [|chunk rest]; cbn [Iter2FileLikeObject.next_or_empty head tail default from_option id].
  - exists kept. rewrite take_nil.
    destruct (Z.leb_spec (Z.of_nat (length (@nil Byte.byte))) size) as [_|Hbig];
      [reflexivity | cbn in Hbig; lia].
  - destruct (Z.leb_spec (Z.of_nat (length chunk)) size) as [Hfit|Hbig].
    + exists kept. rewrite take_ge by lia. reflexivity.
    + exists (drop (Z.to_nat size) chunk). reflexivity.
Qed.

(** X1.  Reads with a size: the i-th [read(size)] returns the first [size]
    bytes of the i-th chunk of the iterator and nothing else, or the
    empty string once the iterator is exhausted, whatever earlier reads
    left in [_chunk]. *)
Theorem sized_reads_return_prefixes (source : list bytes) (kept : bytes)
    (sizes : list Z) :
  Forall (fun size => 0 <= size) sizes ->
  fst (Iter2FileLikeObject.reads (Iter2FileLikeObject.Build source kept) sizes)
  = zip_with (fun size chunk => take (Z.to_nat size) chunk) sizes
      (source ++ replicate (length sizes - length source)%nat []).
Proof.
  intros Hsizes. revert source kept.
  induction Hsizes as [|size sizes Hsize _ IH]; intros source kept; [reflexivity|].
  cbn [Iter2FileLikeObject.reads].
  destruct (read_sized source kept size Hsize) as (kept' & ->).
  specialize (IH (tail source) kept').
  destruct (Iter2FileLikeObject.reads _ sizes) as [datas self2].
  cbn [fst] in *. rewrite IH.
  destruct source as [|chunk rest]; cbn [head tail default from_option id length app].
  - cbn. destruct (length sizes); reflexivity.
  - reflexivity.
Qed.

Lemma sized_reads_return_prefixes_witness :
  Forall (fun size => 0 <= size) [2; 10; 3]
  /\ fst (Iter2FileLikeObject.reads
            (Iter2FileLikeObject.Build Scenario.two_chunks (b2s "xy")) [2; 10; 3])
     = [b2s "ab"; b2s "ghijkl"; []].
Proof.
  assert (H : Forall (fun size => 0 <= size) [2; 10; 3])
    by (repeat constructor; lia).
  split; [exact H|].
  rewrite (sized_reads_return_prefixes Scenario.two_chunks (b2s "xy") [2; 10; 3] H).
  reflexivity.
Defined.

(** Reads that each return a whole chunk leave [_chunk] alone. *)
Lemma reads_fitting (sizes : list Z) (source : list bytes) (kept : bytes) :
  Forall2 (fun size chunk => Z.of_nat (length chunk) <= size)
    sizes (take (length sizes) source) ->
  Iter2FileLikeObject.reads (Iter2FileLikeObject.Build source kept) sizes
  = (take (length sizes) source,
     Iter2FileLikeObject.Build (drop (length sizes) source) kept).
Proof.
  revert source. induction sizes as [|size sizes IH]; intros source Hfit.
  - reflexivity.
  - destruct source as [|chunk rest]; [inversion Hfit|].
    cbn [length take] in Hfit. apply Forall2_cons in Hfit as [Hchunk Hrest].
    cbn [Iter2FileLikeObject.reads].
    rewrite (read_chunk_fits _ _ _ _ Hchunk), (IH rest Hrest). reflexivity.
Qed.

(** X2.  No byte is lost as long as at most one sized read cuts a chunk
    and the read after it is [read(-1)]: after sized reads that each
    take a whole chunk, one sized read of any size and a final
    [read(-1)], the concatenation of what was returned is the
    concatenation of the chunks. *)
Theorem no_loss_before_second_cut (sizes : list Z) (last_size : Z)
    (source : list bytes) :
  Forall2 (fun size chunk => Z.of_nat (length chunk) <= size)
    sizes (take (length sizes) source) ->
  0 <= last_size ->
  concat (fst (Iter2FileLikeObject.reads (Iter2FileLikeObject.init source)
                 (sizes ++ [last_size; -1])))
  = concat source.
Proof.
  intros Hfit Hlast. unfold Iter2FileLikeObject.init.
  rewrite reads_app, (reads_fitting sizes source [] Hfit). cbn [fst snd].
  cbn [Iter2FileLikeObject.reads].
  transitivity (concat (take (length sizes) source)
                ++ concat (drop (length sizes) source));
    [|rewrite <- concat_app, take_drop; reflexivity].
  rewrite concat_app. f_equal.
  generalize (drop (length sizes) source) as rest. intros rest.
  unfold Iter2FileLikeObject.read at 1.
  destruct (Z.ltb_spec last_size 0) as [Hneg|_]; [lia|].
  cbn [Iter2FileLikeObject.iterator Iter2FileLikeObject._chunk].
  destruct rest as [|chunk rest']; cbn [Iter2FileLikeObject.next_or_empty].
  - destruct (Z.leb_spec (Z.of_nat (length (@nil Byte.byte))) last_size) as [_|Hcut];
      [reflexivity | cbn in Hcut; lia].
  - destruct (Z.leb_spec (Z.of_nat (length chunk)) last_size) as [Hchunk|Hcut].
    + cbn. rewrite !app_nil_r. reflexivity.
    + cbn. rewrite !app_nil_r, app_assoc, take_drop. reflexivity.
Qed.

Lemma no_loss_before_second_cut_witness :
  concat (fst (Iter2FileLikeObject.reads
                 (Iter2FileLikeObject.init Scenario.two_chunks) [6; 2; -1]))
  = b2s "abcdefghijkl".
Proof.
  apply (no_loss_before_second_cut [6] 2 Scenario.two_chunks).
  - repeat constructor. cbn. lia.
  - lia.
Defined.

Lemma lstrip_idem s : Str.lstrip (Str.lstrip s) = Str.lstrip s.
Proof.
  induction s as [|a s IH]; [reflexivity|]. cbn.
  destruct (Ascii.is_space a) eqn:Ha; [exact IH|]. cbn. rewrite Ha. reflexivity.
Qed.

Lemma rstrip_idem s : Str.rstrip (Str.rstrip s) = Str.rstrip s.
Proof.
  induction s as [|a s IH]; [reflexivity|]. cbn.
  destruct (Ascii.is_space a && String.eqb (Str.rstrip s) EmptyString) eqn:Ha;
    [reflexivity|].
  cbn. rewrite IH, Ha. reflexivity.
Qed.

Lemma rstrip_lstrip s : Str.rstrip (Str.lstrip s) = Str.lstrip (Str.rstrip s).
Proof.
  induction s as [|a s IH]; [reflexivity|]. cbn.
  destruct (Ascii.is_space a) eqn:Ha; cbn.
  - rewrite IH. destruct (String.eqb_spec (Str.rstrip s) EmptyString) as [->|_];
      [reflexivity|]. cbn. rewrite Ha. reflexivity.
  - rewrite Ha. reflexivity.
Qed.

Lemma strip_idem s : Str.strip (Str.strip s) = Str.strip s.
Proof.
  unfold Str.strip.
  rewrite rstrip_lstrip, rstrip_idem, lstrip_idem. reflexivity.
Qed.

(** A string is clean when it is not empty and has no whitespace at
    either end. *)
Lemma parse_allowed_sync_hosts_clean value :
  Forall (fun h => h <> EmptyString /\ Str.strip h = h)
         (parse_allowed_sync_hosts value).
Proof.
  unfold parse_allowed_sync_hosts. apply Forall_forall. intros h Hin.
  apply list_elem_of_omap in Hin as (piece & _ & Hsome).
  destruct (String.eqb_spec (Str.strip piece) EmptyString) as [|Hne];
    [discriminate|].
  cbn in Hsome. injection Hsome as <-. split; [exact Hne | apply strip_idem].
Qed.

Lemma split_not_nil sep s : Str.split sep s <> [].
Proof.
  destruct s as [|a s]; cbn; [discriminate|].
  destruct (Ascii.eqb a sep); [discriminate|].
  destruct (Str.split sep s); discriminate.
Qed.

Lemma split_no_sep sep s : Str.contains sep s = false -> Str.split sep s = [s].
Proof.
  induction s as [|a s IH]; [reflexivity|]. cbn.
  destruct (Ascii.eqb a sep); [discriminate|]. cbn.
  intros H. rewrite (IH H). reflexivity.
Qed.

Lemma append_nil_l s : EmptyString +:+ s = s.
Proof. reflexivity. Qed.

Lemma append_cons a s t : String a s +:+ t = String a (s +:+ t).
Proof. reflexivity. Qed.

Lemma split_app sep s rest :
  Str.contains sep s = false ->
  Str.split sep (s +:+ String sep rest) = s :: Str.split sep rest.
Proof.
  induction s as [|a s IH].
  - intros _. rewrite append_nil_l. cbn. rewrite Ascii.eqb_refl. reflexivity.
  - rewrite append_cons. cbn.
    destruct (Ascii.eqb a sep); [discriminate|]. cbn.
    intros H. rewrite (IH H). reflexivity.
Qed.

Lemma join_cons sep piece piece' pieces :
  Str.join sep (piece :: piece' :: pieces)
  = piece +:+ sep +:+ Str.join sep (piece' :: pieces).
Proof. reflexivity. Qed.

Lemma split_join sep items :
  Forall (fun item => Str.contains sep item = false) items ->
  items <> [] ->
  Str.split sep (Str.join (String sep EmptyString) items) = items.
Proof.
  induction 1 as [|item items Hitem Hitems IH]; [contradiction|]. intros _.
  destruct items as [|item' items'].
  - cbn. apply split_no_sep, Hitem.
  - rewrite join_cons, append_cons, append_nil_l.
    rewrite split_app by exact Hitem. rewrite IH by discriminate. reflexivity.
Qed.

(** X3.  The [allowed_sync_hosts] option is read back from its
    comma-separated form: joining items that hold no comma and parsing
    the result gives the items stripped of surrounding whitespace, when
    none of them is blank. *)
Theorem allowed_sync_hosts_round_trip (items hosts : list string) :
  Forall2 (fun item h => Str.strip item = h) items hosts ->
  Forall (fun item => Str.contains "," item = false) items ->
  Forall (fun h => h <> EmptyString) hosts ->
  parse_allowed_sync_hosts (Str.join "," items) = hosts.
Proof.
  intros Hstrip Hcomma Hne. unfold parse_allowed_sync_hosts.
  destruct items as [|item items].
  - apply Forall2_nil_inv_l in Hstrip as ->. reflexivity.
  - rewrite (split_join "," (item :: items) Hcomma) by discriminate.
    clear Hcomma. revert Hne.
    induction Hstrip as [|it h its hs Hit _ IH]; intros Hne; [reflexivity|].
    apply Forall_cons in Hne as [Hh Hhs]. cbn [omap list_omap].
    rewrite Hit. destruct (String.eqb_spec h EmptyString); [contradiction|].
    cbn. rewrite (IH Hhs). reflexivity.
Qed.

Lemma allowed_sync_hosts_round_trip_witness :
  parse_allowed_sync_hosts (Str.join "," [" 10.0.0.5 "; "example.com"]%string)
  = ["10.0.0.5"; "example.com"]%string.
Proof.
  apply (allowed_sync_hosts_round_trip
           [" 10.0.0.5 "; "example.com"]%string ["10.0.0.5"; "example.com"]%string).
  - repeat constructor.
  - repeat constructor.
  - repeat constructor; discriminate.
Defined.

(** ** [__init__] *)

(** X4.  [__init__] either builds a daemon whose counters are all zero,
    whose [allowed_sync_hosts] are non-empty and stripped, and whose
    [reported] is the clock's reading, without logging or touching a
    database; or it raises [ValueError] because [interval] or
    [container_time] is configured with a value [int] rejects, and
    nothing has changed. *)
Theorem init_daemon lib env conf w :
  match ContainerSync_init lib env conf w with
  | (Ok attrs, w') =>
      Forall (fun h => h <> EmptyString /\ Str.strip h = h)
        (allowed_sync_hosts (daemon w'))
      /\ container_syncs (daemon w') = 0
      /\ container_deletes (daemon w') = 0
      /\ container_puts (daemon w') = 0
      /\ container_skips (daemon w') = 0
      /\ container_failures (daemon w') = 0
      /\ reported attrs = time_time env (time_reads w)
      /\ trace w' = trace w
      /\ fs w' = fs w
  | (Raise e, w') =>
      e = Exception "ValueError" /\ w' = w
      /\ exists key value,
           (key = "interval"%string \/ key = "container_time"%string)
           /\ conf !! key = Some value /\ int lib value = None
  end.
Proof.
  unfold ContainerSync_init, bind, conf_int.
  destruct (conf !! "interval") as [v1|] eqn:H1.
  - destruct (int lib v1) as [n1|] eqn:Hn1; cbn.
    2:{ split; [reflexivity|]. split; [reflexivity|]. exists "interval"%string, v1. auto. }
    destruct (conf !! "container_time") as [v2|] eqn:H2.
    + destruct (int lib v2) as [n2|] eqn:Hn2; cbn.
      2:{ split; [reflexivity|]. split; [reflexivity|].
          exists "container_time"%string, v2. auto. }
      repeat split; auto. apply parse_allowed_sync_hosts_clean.
    + cbn. repeat split; auto. apply parse_allowed_sync_hosts_clean.
  - cbn. destruct (conf !! "container_time") as [v2|] eqn:H2.
    + destruct (int lib v2) as [n2|] eqn:Hn2; cbn.
      2:{ split; [reflexivity|]. split; [reflexivity|].
          exists "container_time"%string, v2. auto. }
      repeat split; auto. apply parse_allowed_sync_hosts_clean.
    + cbn. repeat split; auto. apply parse_allowed_sync_hosts_clean.
Qed.

(** ** The replica fan-out *)

Lemma emit_all_nil w : emit_all [] w = w.
Proof. destruct w. unfold emit_all. cbn. rewrite app_nil_r. reflexivity. Qed.

Lemma emit_all_emit e evs w : emit_all evs (emit e w) = emit_all (e :: evs) w.
Proof. unfold emit_all, emit. cbn. rewrite <- app_assoc. reflexivity. Qed.

Lemma emit_is_emit_all e w : emit e w = emit_all [e] w.
Proof. reflexivity. Qed.

(** X5.  The replica fan-out stops at the first node whose answer is not
    a [ClientException]: when the nodes before [n] answer with
    [ClientException] and [n] answers [r], a result or another
    exception, the loop ends with [r] after one GET to each node up to
    [n], and the nodes after [n] are not asked. *)
Theorem fan_out_stops env part info row pre n post node exc w r :
  (forall h n', n' ∈ pre ->
     exists st, direct_get_object env h n' part (info_account info)
                  (info_container info) (name row)
                = Raise (ClientException st)) ->
  (forall h, direct_get_object env h n part (info_account info)
               (info_container info) (name row) = r) ->
  (forall st, r <> Raise (ClientException st)) ->
  get_from_nodes env part info row (pre ++ n :: post) node exc w
  = (r, emit_all (get_call part info row <$> pre ++ [n]) w).
Proof.
  intros Hpre Hn Hr. revert node exc w.
  induction pre as [|n' pre IH]; intros node exc w.
  - cbn [app get_from_nodes fmap list_fmap].
    unfold try_except, direct_client_direct_get_object, remote.
    rewrite Hn. destruct r as [hb|[st|v|m|b]]; try reflexivity.
    destruct (Hr st eq_refl).
  - cbn [app get_from_nodes fmap list_fmap].
    unfold try_except, direct_client_direct_get_object, remote.
    destruct (Hpre (trace w) n' ltac:(left)) as [st ->].
    rewrite IH.
    + rewrite emit_all_emit. reflexivity.
    + intros h n'' Hin. apply Hpre. right. exact Hin.
Qed.

Lemma fan_out_stops_witness :
  get_from_nodes Setup.env_first_404 7 Scenario.info0 (Scenario.row 1 "a.txt" false)
    [Scenario.node1; Scenario.node2] None None Scenario.w12
  = (Ok (Scenario.fetched_headers, [b2s "hello"]),
     emit_all
       (get_call 7 Scenario.info0 (Scenario.row 1 "a.txt" false)
          <$> [Scenario.node1; Scenario.node2])
       Scenario.w12).
Proof.
  apply (fan_out_stops Setup.env_first_404 7 Scenario.info0
           (Scenario.row 1 "a.txt" false) [Scenario.node1] Scenario.node2 []).
  - intros h n' Hin. apply list_elem_of_singleton in Hin. subst n'.
    exists 404. reflexivity.
  - intros h. reflexivity.
  - intros st. discriminate.
Defined.

(** X6.  When every node answers the GET with a [ClientException], the
    fan-out raises the one of the last node, after one GET to each
    node in order. *)
Theorem fan_out_last_error env part info row pre n node exc w st :
  (forall h n', n' ∈ pre ->
     exists st', direct_get_object env h n' part (info_account info)
                   (info_container info) (name row)
                 = Raise (ClientException st')) ->
  (forall h, direct_get_object env h n part (info_account info)
               (info_container info) (name row)
             = Raise (ClientException st)) ->
  get_from_nodes env part info row (pre ++ [n]) node exc w
  = (Raise (ClientException st),
     emit_all (get_call part info row <$> pre ++ [n]) w).
Proof.
  intros Hpre Hn. revert node exc w.
  induction pre as [|n' pre IH]; intros node exc w.
  - cbn [app get_from_nodes fmap list_fmap].
    unfold try_except, direct_client_direct_get_object, remote.
    rewrite Hn. reflexivity.
  - cbn [app get_from_nodes fmap list_fmap].
    unfold try_except, direct_client_direct_get_object, remote.
    destruct (Hpre (trace w) n' ltac:(left)) as [st' ->].
    rewrite IH.
    + rewrite emit_all_emit. reflexivity.
    + intros h n'' Hin. apply Hpre. right. exact Hin.
Qed.

Lemma fan_out_last_error_witness :
  get_from_nodes Setup.env_all_404 7 Scenario.info0 (Scenario.row 1 "a.txt" false)
    [Scenario.node1; Scenario.node2] None None Scenario.w12
  = (Raise (ClientException 404),
     emit_all
       (get_call 7 Scenario.info0 (Scenario.row 1 "a.txt" false)
          <$> [Scenario.node1; Scenario.node2])
       Scenario.w12).
Proof.
  apply (fan_out_last_error Setup.env_all_404 7 Scenario.info0
           (Scenario.row 1 "a.txt" false) [Scenario.node1] Scenario.node2).
  - intros h n' Hin. exists 404. reflexivity.
  - intros h. reflexivity.
Defined.

(** ** What one row sends and counts *)

Lemma only_Exceptions_raised_by env e :
  only_Exceptions env -> raised_by env e -> is_Exception e = true.
Proof.
  intros (Hdelete & Hget & Hput)
    [(h & url & name & headers & H)
    |[(h & node & part & account & container & obj & H)
     |(h & url & name & headers & contents & H)]]; eauto.
Qed.

(** When no collaborator raises anything but an [Exception],
    [container_sync_row] returns. *)
Lemma container_sync_row_returns_if env row sync_to sync_key broker info w :
  only_Exceptions env ->
  exists ok w',
    container_sync_row env row sync_to sync_key broker info w = (Ok ok, w').
Proof.
  intros Honly.
  destruct (container_sync_row_spec env row sync_to sync_key broker info w)
    as (r & w' & evs & Heq & _ & _ & Hr).
  destruct r as [ok|e]; [eauto|]. exfalso. destruct Hr as (Hexc & _ & Hby).
  rewrite (only_Exceptions_raised_by env e Honly Hby) in Hexc. discriminate.
Qed.

(** X7.  [container_sync_row] catches every exception that derives from
    [Exception], whatever its collaborators do: it returns [True] or
    [False], or lets out an exception that does not derive from
    [Exception] and that one of its requests was answered with.  It
    leaves the databases and the clock alone and adds only requests and
    lines of the log.  When it returns [True] exactly
    one counter has changed, [container_deletes] for a deleted row and
    [container_puts] for any other, and is one more than before; when it
    returns [False] that counter is [container_failures]; when it raises
    no counter has changed.  It returns whenever no collaborator raises
    anything but an [Exception]. *)
Theorem container_sync_row_catches_exceptions env row sync_to sync_key broker info w :
  exists r w' evs,
    container_sync_row env row sync_to sync_key broker info w = (r, w')
    /\ trace w' = trace w ++ evs
    /\ Forall quiet evs
    /\ fs w' = fs w
    /\ time_reads w' = time_reads w
    /\ match r with
       | Ok true =>
           counts (daemon w) (daemon w')
             0 (if deleted row then 1 else 0) (if deleted row then 0 else 1) 0 0
       | Ok false => counts (daemon w) (daemon w') 0 0 0 0 1
       | Raise e =>
           is_Exception e = false /\ raised_by env e
           /\ counts (daemon w) (daemon w') 0 0 0 0 0
       end
    /\ (only_Exceptions env -> exists ok, r = Ok ok).
Proof.
  destruct (container_sync_row_spec env row sync_to sync_key broker info w)
    as (r & w' & evs & Heq & (Hfs & Htime & Htr) & Hq & Hcount).
  exists r, w', evs. repeat split; auto.
  - destruct r as [[]|e]; auto. destruct Hcount as (Hexc & -> & Hby).
    split; [exact Hexc|]. split; [exact Hby | apply counts_refl].
  - intros Honly.
    destruct (container_sync_row_returns_if env row sync_to sync_key broker info w Honly)
      as (ok & w1 & Heq1).
    rewrite Heq in Heq1. injection Heq1 as -> _. eauto.
Qed.

Lemma container_sync_row_catches_exceptions_witness :
  only_Exceptions Scenario.env_ok
  /\ (exists ok w',
        container_sync_row Scenario.env_ok (Scenario.row 1 "a.txt" false)
          "http://10.0.0.5/v1/AUTH_x/dest" "secret" Scenario.broker0 Scenario.info0
          Scenario.w12
        = (Ok ok, w')
        /\ fs w' = fs Scenario.w12)
  /\ container_puts
       (daemon (snd (container_sync_row Scenario.env_ok (Scenario.row 1 "a.txt" false)
                       "http://10.0.0.5/v1/AUTH_x/dest" "secret" Scenario.broker0
                       Scenario.info0 Scenario.w12)))
     = container_puts (daemon Scenario.w12) + 1.
Proof.
  assert (Honly : only_Exceptions Scenario.env_ok).
  { split; [|split]; intros; discriminate. }
  split; [exact Honly|]. split; [|vm_compute; reflexivity].
  destruct (container_sync_row_catches_exceptions Scenario.env_ok
              (Scenario.row 1 "a.txt" false) "http://10.0.0.5/v1/AUTH_x/dest"
              "secret" Scenario.broker0 Scenario.info0 Scenario.w12)
    as (r & w' & evs & Heq & _ & _ & Hfs & _ & _ & Hret).
  destruct (Hret Honly) as [ok ->]. exists ok, w'. split; assumption.
Defined.

Lemma get_from_nodes_calls env part info row nodes node exc w :
  exists r k,
    get_from_nodes env part info row nodes node exc w
    = (r, emit_all (get_call part info row <$> take k nodes) w).
Proof.
  revert node exc w. induction nodes as [|n rest IH]; intros node exc w.
  - exists (fst (get_from_nodes env part info row [] node exc w)), 0%nat.
    cbn [take fmap list_fmap]. rewrite emit_all_nil.
    cbn. destruct exc; [reflexivity|]. destruct node; reflexivity.
  - cbn [get_from_nodes].
    unfold try_except, direct_client_direct_get_object, remote.
    destruct (direct_get_object env (trace w) n part _ _ _) as [hb|[st|v|m|b]].
    + exists (Ok hb), 1%nat. reflexivity.
    + destruct (IH (Some n) (Some (ClientException st))
                  (emit (EvRemote (direct_get_object_call n part (info_account info)
                                     (info_container info) (name row))) w))
        as (r & k & ->).
      exists r, (S k). rewrite emit_all_emit. reflexivity.
    + exists (Raise (UnboundLocalError v)), 1%nat. reflexivity.
    + exists (Raise (Exception m)), 1%nat. reflexivity.
    + exists (Raise (BaseException b)), 1%nat. reflexivity.
Qed.

Lemma calls_app evs1 evs2 : calls (evs1 ++ evs2) = calls evs1 ++ calls evs2.
Proof. apply omap_app. Qed.

Lemma calls_gets part info row nodes :
  calls (get_call part info row <$> nodes)
  = (fun n => direct_get_object_call n part (info_account info)
                (info_container info) (name row)) <$> nodes.
Proof. induction nodes as [|n nodes IH]; [reflexivity|]. cbn. f_equal. exact IH. Qed.

Lemma row_calls env row sync_to sync_key broker info w :
  exists r w' evs,
    container_sync_row env row sync_to sync_key broker info w = (r, w')
    /\ trace w' = trace w ++ evs
    /\ if deleted row then
         calls evs
         = [delete_object_call sync_to (name row) (delete_headers row sync_key)]
       else
         exists fetched w1 k,
           get_from_nodes env
             (fst (get_nodes env (info_account info) (info_container info) (name row)))
             info row
             (shuffle env (trace w)
                (snd (get_nodes env (info_account info) (info_container info)
                        (name row))))
             None None w
           = (fetched, w1)
           /\ calls evs
              = ((fun n =>
                    direct_get_object_call n
                      (fst (get_nodes env (info_account info) (info_container info)
                              (name row)))
                      (info_account info) (info_container info) (name row))
                   <$> take k (shuffle env (trace w)
                                 (snd (get_nodes env (info_account info)
                                         (info_container info) (name row)))))
                ++ match fetched with
                   | Ok (headers, body) =>
                       [put_object_call sync_to (name row)
                          (put_headers row sync_key headers)
                          (Iter2FileLikeObject.init body)]
                   | Raise _ => []
                   end
           /\ (r = Ok true -> exists answer, fetched = Ok answer).
Proof.
  assert (Hfail : forall e w2 evs2, trace w2 = trace w ++ evs2 -> exists r w' evs,
    match (if is_Exception e
           then Some (container_sync_row_except sync_to sync_key broker info row e)
           else None) with
    | Some h => h w2
    | None => (Raise e, w2)
    end = (r, w')
    /\ trace w' = trace w ++ evs /\ calls evs = calls evs2 /\ r <> Ok true).
  { intros e w2 evs2 Htr2. destruct (is_Exception e).
    - destruct (container_sync_row_except_spec sync_to sync_key broker info row e w2)
        as [line ->].
      exists (Ok false). eexists. exists (evs2 ++ [EvLog line]).
      split; [reflexivity|].
      split; [cbn; rewrite Htr2, <- app_assoc; reflexivity|].
      split; [rewrite calls_app; apply app_nil_r | discriminate].
    - exists (Raise e), w2, evs2. repeat split; auto; discriminate. }
  unfold container_sync_row, try_except, bind.
  destruct (deleted row).
  - unfold client_delete_object, remote.
    set (request := delete_object_call sync_to (name row) (delete_headers row sync_key)).
    assert (Hfail1 : forall e, exists r w' evs,
      match (if is_Exception e
             then Some (container_sync_row_except sync_to sync_key broker info row e)
             else None) with
      | Some h => h (emit (EvRemote request) w)
      | None => (Raise e, emit (EvRemote request) w)
      end = (r, w')
      /\ trace w' = trace w ++ evs /\ calls evs = [request]).
    { intros e. destruct (Hfail e (emit (EvRemote request) w) [EvRemote request] eq_refl)
        as (r & w' & evs & Heq & Htr & Hcalls & _). exists r, w', evs. auto. }
    destruct (delete_object env (trace w) sync_to (name row) _) as [[]|[st|v|m|b]].
    + exists (Ok true). eexists. exists [EvRemote request]. repeat split.
    + destruct (Z.eqb_spec st 404) as [->|Hst]; cbn [negb].
      * exists (Ok true). eexists. exists [EvRemote request]. repeat split.
      * apply (Hfail1 (ClientException st)).
    + apply (Hfail1 (UnboundLocalError v)).
    + apply (Hfail1 (Exception m)).
    + apply (Hfail1 (BaseException b)).
  - destruct (get_nodes env _ _ _) as [part nodes]. cbn [fst snd].
    unfold random_shuffle.
    destruct (get_from_nodes_calls env part info row (shuffle env (trace w) nodes)
                None None w) as (r & k & Hfetch).
    rewrite Hfetch.
    set (gets := get_call part info row <$> take k (shuffle env (trace w) nodes)).
    assert (Hgets : calls gets
                    = (fun n => direct_get_object_call n part (info_account info)
                                  (info_container info) (name row))
                        <$> take k (shuffle env (trace w) nodes))
      by apply calls_gets.
    destruct r as [[headers body]|e].
    + unfold client_put_object, remote.
      set (put := put_object_call sync_to (name row) (put_headers row sync_key headers)
                    (Iter2FileLikeObject.init body)).
      destruct (put_object env _ sync_to (name row) _ _) as [[]|e].
      * exists (Ok true). eexists. exists (gets ++ [EvRemote put]).
        split; [reflexivity|]. split; [cbn; rewrite app_assoc; reflexivity|].
        eexists _, _, k. split; [reflexivity|].
        rewrite calls_app, Hgets. split; [reflexivity | eauto].
      * destruct (Hfail e (emit (EvRemote put) (emit_all gets w))
                    (gets ++ [EvRemote put]))
          as (r & w' & evs & Heq & Htr & Hcalls & Hr).
        { cbn. rewrite app_assoc. reflexivity. }
        exists r, w', evs. split; [exact Heq|]. split; [exact Htr|].
        eexists _, _, k. split; [reflexivity|].
        rewrite Hcalls, calls_app, Hgets. split; [reflexivity | eauto].
    + destruct (Hfail e (emit_all gets w) gets eq_refl)
        as (r & w' & evs & Heq & Htr & Hcalls & Hr).
      exists r, w', evs. split; [exact Heq|]. split; [exact Htr|].
      eexists _, _, k. split; [reflexivity|].
      rewrite Hcalls, Hgets, app_nil_r. split; [reflexivity | contradiction].
Qed.

(** X8.  The requests of one row.  A deleted row sends exactly one
    request: a DELETE to [sync_to] for the row's name, with the row's
    [created_at] as ['X-Timestamp'], the sync key as
    ['X-Container-Sync-Key'] and no other header.  Any other row sends
    GETs to a prefix of the shuffled nodes of the ring, in order, as the
    fan-out does.  If the fan-out raised, nothing else is sent and the
    row does not return [True].  If it returned [headers] and [body],
    exactly one more request follows: the PUT to [sync_to] for the row's
    name, with the headers rewritten from [headers] and a body that
    wraps [body]. *)
Theorem row_requests env row sync_to sync_key broker info w :
  exists r w' evs,
    container_sync_row env row sync_to sync_key broker info w = (r, w')
    /\ trace w' = trace w ++ evs
    /\ if deleted row then
         calls evs
         = [delete_object_call sync_to (name row)
              {[ "X-Timestamp" := created_at row;
                 "X-Container-Sync-Key" := sync_key ]}]
       else
         exists fetched w1 k,
           get_from_nodes env
             (fst (get_nodes env (info_account info) (info_container info) (name row)))
             info row
             (shuffle env (trace w)
                (snd (get_nodes env (info_account info) (info_container info)
                        (name row))))
             None None w
           = (fetched, w1)
           /\ calls evs
              = ((fun n =>
                    direct_get_object_call n
                      (fst (get_nodes env (info_account info) (info_container info)
                              (name row)))
                      (info_account info) (info_container info) (name row))
                   <$> take k (shuffle env (trace w)
                                 (snd (get_nodes env (info_account info)
                                         (info_container info) (name row)))))
                ++ match fetched with
                   | Ok (headers, body) =>
                       [put_object_call sync_to (name row)
                          (put_headers row sync_key headers)
                          (Iter2FileLikeObject.init body)]
                   | Raise _ => []
                   end
           /\ (r = Ok true -> exists answer, fetched = Ok answer).
Proof. exact (row_calls env row sync_to sync_key broker info w). Qed.

(** X9.  The headers of the PUT forward every fetched header other than
    [date], [last-modified], [etag], [X-Timestamp] and
    [X-Container-Sync-Key] unchanged, and add none. *)
Theorem put_headers_forwards_others row sync_key (headers : Headers) (key : string) :
  key <> "date"%string -> key <> "last-modified"%string -> key <> "etag"%string ->
  key <> "X-Timestamp"%string -> key <> "X-Container-Sync-Key"%string ->
  put_headers row sync_key headers !! key = headers !! key.
Proof.
  intros. destruct (put_headers_spec row sync_key headers) as (_ & _ & _ & _ & _ & H').
  apply H'; assumption.
Qed.

Lemma put_headers_forwards_others_witness :
  put_headers (Scenario.row 1 "a.txt" false) "secret" Scenario.fetched_headers
    !! "content-length"
  = Some "5"%string.
Proof.
  rewrite (put_headers_forwards_others (Scenario.row 1 "a.txt" false) "secret"
             Scenario.fetched_headers "content-length") by discriminate.
  reflexivity.
Defined.

(** X10.  Once an object has been fetched, the PUT decides the row.  If
    it succeeds the row returns [True], [container_puts] is one more
    than before and no other counter changes.  If it raises an exception
    that derives from [Exception], whichever, the row returns [False],
    one line is logged, [container_failures] is one more than before and
    no other counter changes.  Any other exception leaves
    [container_sync_row] as it is, and no counter changes.  In each
    case the PUT is the last request of the row. *)
Theorem put_decides_row env row sync_to sync_key broker info w
    part nodes headers body w1 :
  deleted row = false ->
  get_nodes env (info_account info) (info_container info) (name row)
    = (part, nodes) ->
  get_from_nodes env part info row (shuffle env (trace w) nodes) None None w
    = (Ok (headers, body), w1) ->
  (put_object env (trace w1) sync_to (name row) (put_headers row sync_key headers)
     (Iter2FileLikeObject.init body) = Ok tt ->
   exists w',
     container_sync_row env row sync_to sync_key broker info w = (Ok true, w')
     /\ after w1 [EvRemote (put_object_call sync_to (name row)
                              (put_headers row sync_key headers)
                              (Iter2FileLikeObject.init body))] w'
     /\ counts (daemon w) (daemon w') 0 0 1 0 0)
  /\ (forall e,
        put_object env (trace w1) sync_to (name row)
          (put_headers row sync_key headers) (Iter2FileLikeObject.init body)
          = Raise e ->
        is_Exception e = true ->
        exists line w',
          container_sync_row env row sync_to sync_key broker info w = (Ok false, w')
          /\ after w1 [EvRemote (put_object_call sync_to (name row)
                                   (put_headers row sync_key headers)
                                   (Iter2FileLikeObject.init body));
                       EvLog line] w'
          /\ counts (daemon w) (daemon w') 0 0 0 0 1)
  /\ (forall e,
        put_object env (trace w1) sync_to (name row)
          (put_headers row sync_key headers) (Iter2FileLikeObject.init body)
          = Raise e ->
        is_Exception e = false ->
        exists w',
          container_sync_row env row sync_to sync_key broker info w = (Raise e, w')
          /\ after w1 [EvRemote (put_object_call sync_to (name row)
                                   (put_headers row sync_key headers)
                                   (Iter2FileLikeObject.init body))] w'
          /\ counts (daemon w) (daemon w') 0 0 0 0 0).
Proof.
  intros Hdel Hnodes Hget.
  destruct (get_from_nodes_spec env part info row (shuffle env (trace w) nodes)
              None None w) as (r0 & w0 & evs0 & Heq0 & _ & _ & Hd1).
  rewrite Hget in Heq0. injection Heq0 as <- <-.
  unfold container_sync_row, try_except, bind, random_shuffle.
  rewrite Hdel, Hnodes, Hget.
  unfold client_put_object, remote.
  split; [|split].
  - intros ->. eexists. split; [reflexivity|].
    split; [apply after_with_daemon, after_emit|].
    cbn. rewrite Hd1. apply counts_incr_puts.
  - intros e -> ->.
    destruct (container_sync_row_except_counts sync_to sync_key broker info row e
      (emit (EvRemote (put_object_call sync_to (name row)
         (put_headers row sync_key headers) (Iter2FileLikeObject.init body))) w1))
      as (line & w' & Heq & Haft & Hcounts).
    exists line, w'. split; [exact Heq|].
    split; [exact (after_trans _ _ _ _ _ (after_emit w1 _) Haft)|].
    cbn in Hcounts. rewrite Hd1 in Hcounts. exact Hcounts.
  - intros e -> ->. eexists. split; [reflexivity|]. split; [apply after_emit|].
    cbn. rewrite Hd1. apply counts_refl.
Qed.

Lemma put_decides_row_witness :
  container_puts
    (daemon (snd (container_sync_row Scenario.env_ok (Scenario.row 1 "a.txt" false)
                    "http://10.0.0.5/v1/AUTH_x/dest" "secret" Scenario.broker0
                    Scenario.info0 Scenario.w12)))
  = container_puts (daemon Scenario.w12) + 1
  /\ exists w',
    container_sync_row Scenario.env_ok (Scenario.row 1 "a.txt" false)
      "http://10.0.0.5/v1/AUTH_x/dest" "secret" Scenario.broker0 Scenario.info0
      Scenario.w12
    = (Ok true, w')
    /\ trace w'
       = [EvRemote (direct_get_object_call Scenario.node1 7 "AUTH_a" "c" "a.txt");
          EvRemote (put_object_call "http://10.0.0.5/v1/AUTH_x/dest" "a.txt"
                      (put_headers (Scenario.row 1 "a.txt" false) "secret"
                         Scenario.fetched_headers)
                      (Iter2FileLikeObject.init [b2s "hello"]))]
    /\ container_puts (daemon w') = 1
    /\ container_failures (daemon w') = 0.
Proof.
  split; [vm_compute; reflexivity|].
  destruct (put_decides_row Scenario.env_ok (Scenario.row 1 "a.txt" false)
              "http://10.0.0.5/v1/AUTH_x/dest" "secret" Scenario.broker0
              Scenario.info0 Scenario.w12 7 [Scenario.node1; Scenario.node2]
              Scenario.fetched_headers [b2s "hello"]
              (emit (EvRemote (direct_get_object_call Scenario.node1 7 "AUTH_a" "c"
                                 "a.txt"))
                 Scenario.w12)
              eq_refl eq_refl eq_refl)
    as [Hsuccess _].
  destruct (Hsuccess eq_refl)
    as (w' & Heq & (_ & _ & Htr) & (_ & _ & _ & _ & Hputs & _ & Hfailures)).
  exists w'. split; [exact Heq|]. split; [exact Htr|].
  split; [exact Hputs | exact Hfailures].
Defined.

(** ** The scan of the metadata *)

Lemma last_cons_default {A} (x : A) (l : list A) (a : option A) :
  from_option Some a (last (x :: l)) = from_option Some (Some x) (last l).
Proof. destruct l as [|y l]; [reflexivity|]. rewrite last_cons_cons.
  destruct (last (y :: l)) eqn:E; [reflexivity|].
  apply last_None in E. discriminate.
Qed.

(** X11.  The metadata scan keeps, for each of [x-container-sync-to] and
    [x-container-sync-key], the value of the last item in iteration
    order whose key is that name in any case, and the initial value when
    there is none. *)
Theorem scan_metadata_last_wins items sync_to sync_key :
  scan_metadata items sync_to sync_key
  = (from_option Some sync_to (last (values_of "x-container-sync-to" items)),
     from_option Some sync_key (last (values_of "x-container-sync-key" items))).
Proof.
  revert sync_to sync_key.
  induction items as [|[k [v t]] items IH]; intros sync_to sync_key; [reflexivity|].
  cbn [scan_metadata]. unfold values_of. cbn [omap list_omap fst snd].
  fold (values_of "x-container-sync-to" items).
  fold (values_of "x-container-sync-key" items).
  destruct (String.eqb_spec (Py.lower k) "x-container-sync-to") as [Hto|Hnto].
  - rewrite Hto. cbn. rewrite IH, last_cons_default. reflexivity.
  - destruct (String.eqb_spec (Py.lower k) "x-container-sync-key") as [Hkey|_].
    + rewrite IH, last_cons_default. reflexivity.
    + apply IH.
Qed.

(** ** The counters of a pass *)

Lemma synced_app evs1 evs2 : synced (evs1 ++ evs2) = synced evs1 ++ synced evs2.
Proof.
  induction evs1 as [|e evs1 IH]; [reflexivity|].
  destruct e as [| | |n []]; cbn; rewrite IH; reflexivity.
Qed.

Lemma synced_quiet q : Forall quiet q -> synced q = [].
Proof.
  induction 1 as [|e q He _ IH]; [reflexivity|].
  destruct e; try contradiction; exact IH.
Qed.

Lemma tally_refl d : tally d d 0 0.
Proof. unfold tally. repeat split; lia. Qed.

Lemma tally_trans d1 d2 d3 rows1 failed1 rows2 failed2 :
  tally d1 d2 rows1 failed1 -> tally d2 d3 rows2 failed2 ->
  0 <= rows1 -> 0 <= rows2 ->
  tally d1 d3 (rows1 + rows2) (failed1 + failed2).
Proof.
  unfold tally. intros (?&?&?&?&?&?&?&?) (?&?&?&?&?&?&?&?) ? ?.
  repeat split; try congruence; lia.
Qed.

Lemma counts_tally d d' deletes puts failures :
  counts d d' 0 deletes puts 0 failures -> 0 <= deletes -> 0 <= puts ->
  tally d d' (deletes + puts) failures.
Proof.
  unfold counts, tally. intros (? & ? & ? & ? & ? & ? & ?) ? ?.
  repeat split; try congruence; lia.
Qed.

Lemma sync_rows_tally env broker info sync_to sync_key stop_at :
  forall fuel c w,
    exists r w' evs,
      sync_rows fuel env broker info sync_to sync_key stop_at c w = (r, w')
      /\ trace w' = trace w ++ evs
      /\ tally (daemon w) (daemon w') (Z.of_nat (length (synced evs)))
           (failed_exit r)
      /\ match r with
         | Ok RowFailed | Ok RowsExhausted | Ok DeadlinePassed | Ok Unfinished
         | Raise _ => True
         | _ => False
         end.
Proof.
  induction fuel as [|fuel IH]; intros c w.
  { exists (Ok Unfinished), w, []. cbn [sync_rows ret].
    split; [reflexivity|]. split; [rewrite app_nil_r; reflexivity|]. split; [apply tally_refl | exact I]. }
  cbn [sync_rows]. unfold bind at 1. unfold time at 1.
  destruct (time_time env (time_reads w) <? stop_at); cbn [negb].
  2:{ exists (Ok DeadlinePassed), (tick w), [].
      split; [reflexivity|]. split; [cbn; rewrite app_nil_r; reflexivity|]. split; [apply tally_refl | exact I]. }
  unfold bind at 1. unfold get_items_since, bind at 1, broker_db.
  cbn [fs tick].
  destruct (fs w !! db_file broker) as [db|] eqn:Hfs.
  2:{ exists (Raise (Exception "DatabaseError")), (tick w), [].
      split; [reflexivity|]. split; [cbn; rewrite app_nil_r; reflexivity|]. split; [apply tally_refl | exact I]. }
  cbn [ret].
  destruct (rows_since c 1 (objects db)) as [|row rest].
  { exists (Ok RowsExhausted), (tick w), [].
    split; [reflexivity|]. split; [cbn; rewrite app_nil_r; reflexivity|]. split; [apply tally_refl | exact I]. }
  unfold bind at 1.
  destruct (container_sync_row_spec env row sync_to sync_key broker info (tick w))
    as (r1 & w1 & evs1 & -> & (Hfs1 & Htime1 & Htr1) & Hq1 & Hcount).
  cbn [daemon tick] in Hcount.
  destruct r1 as [ok|e].
  2:{ destruct Hcount as (_ & Hd & _).
      exists (Raise e), w1, evs1. split; [reflexivity|]. split; [exact Htr1|].
      rewrite synced_quiet, Hd by exact Hq1. split; [apply tally_refl | exact I]. }
  assert (Htally1 : tally (daemon w) (daemon w1) (if ok then 1 else 0)
                      (if ok then 0 else 1)).
  { destruct ok.
    - destruct (deleted row);
        [apply (counts_tally _ _ 1 0 0) | apply (counts_tally _ _ 0 1 0)];
        first [exact Hcount | lia].
    - apply (counts_tally _ _ 0 0 1); first [exact Hcount | lia]. }
  clear Hcount. rename Htally1 into Hcount.
  unfold bind at 1, note_sync_row.
  destruct ok; cbn [negb].
  2:{ exists (Ok RowFailed), (emit (EvSyncRow (ROWID row) false) w1),
        (evs1 ++ [EvSyncRow (ROWID row) false]).
      cbn. rewrite Htr1, <- app_assoc. cbn.
      split; [reflexivity|]. split; [reflexivity|].
      rewrite synced_app, synced_quiet by exact Hq1. cbn. split; [exact Hcount | exact I]. }
  unfold bind at 1. unfold set_x_container_sync_row, bind at 1, broker_db.
  cbn [fs emit]. rewrite Hfs1. cbn [fs tick]. rewrite Hfs.
  set (w3 := emit (EvSetCursor (db_file broker) (ROWID row)) _).
  destruct (IH (ROWID row) w3) as (r & w' & evs & Heq & Htr & Htally & Hkind).
  exists r, w',
    (evs1 ++ EvSyncRow (ROWID row) true :: EvSetCursor (db_file broker) (ROWID row) :: evs).
  split; [exact Heq|]. split; [|split; [|exact Hkind]].
  - rewrite Htr. subst w3. cbn. rewrite Htr1. cbn.
    rewrite <- !app_assoc. reflexivity.
  - rewrite synced_app, synced_quiet by exact Hq1. cbn [app synced length].
    replace (Z.of_nat (S (length (synced evs))))
      with (1 + Z.of_nat (length (synced evs))) by lia.
    replace (failed_exit r) with (0 + failed_exit r) by lia.
    eapply tally_trans; [exact Hcount | exact Htally | lia | lia].
Qed.

Lemma container_sync_tally env path w :
  exists r w' evs,
    container_sync env path w = (r, w')
    /\ trace w' = trace w ++ evs
    /\ container_time (daemon w') = container_time (daemon w)
    /\ allowed_sync_hosts (daemon w') = allowed_sync_hosts (daemon w)
    /\ container_deletes (daemon w) <= container_deletes (daemon w')
    /\ container_puts (daemon w) <= container_puts (daemon w')
    /\ container_deletes (daemon w') + container_puts (daemon w')
       = container_deletes (daemon w) + container_puts (daemon w)
         + Z.of_nat (length (synced evs))
    /\ container_syncs (daemon w')
       = container_syncs (daemon w) + (if completed r then 1 else 0)
    /\ container_skips (daemon w')
       = container_skips (daemon w)
         + match r with Ok SyncNotConfigured => 1 | _ => 0 end
    /\ container_failures (daemon w')
       = container_failures (daemon w)
         + match r with
           | Ok InvalidSyncTo | Ok RowFailed | Ok Failed => 1
           | Raise e => if is_Exception e then 1 else 0
           | _ => 0
           end.
Proof.
  rewrite container_sync_unfold.
  assert (Hsame : forall (r : Result pass_exit),
    match r with
    | Ok NotADatabase | Ok ContainerDeleted => True
    | Raise e => is_Exception e = false
    | _ => False
    end ->
    exists r0 w0 evs,
      (r, w) = (r0, w0) /\ trace w0 = trace w ++ evs
      /\ container_time (daemon w0) = container_time (daemon w)
      /\ allowed_sync_hosts (daemon w0) = allowed_sync_hosts (daemon w)
      /\ container_deletes (daemon w) <= container_deletes (daemon w0)
      /\ container_puts (daemon w) <= container_puts (daemon w0)
      /\ container_deletes (daemon w0) + container_puts (daemon w0)
         = container_deletes (daemon w) + container_puts (daemon w)
           + Z.of_nat (length (synced evs))
      /\ container_syncs (daemon w0)
         = container_syncs (daemon w) + (if completed r0 then 1 else 0)
      /\ container_skips (daemon w0)
         = container_skips (daemon w)
           + match r0 with Ok SyncNotConfigured => 1 | _ => 0 end
      /\ container_failures (daemon w0)
         = container_failures (daemon w)
           + match r0 with
             | Ok InvalidSyncTo | Ok RowFailed | Ok Failed => 1
             | Raise e => if is_Exception e then 1 else 0
             | _ => 0
             end).
  { intros r Hr. exists r, w, []. rewrite app_nil_r.
    destruct r as [[]|e]; try contradiction; cbn; rewrite ?Hr;
      repeat split; first [reflexivity | lia]. }
  destruct (negb (Py.endswith path ".db")); [apply Hsame; exact I|].
  destruct (ContainerBroker_raises env path) as [e0|].
  { destruct (is_Exception e0) eqn:Hexc0; [|apply Hsame; exact Hexc0].
    eexists _, _, []. split; [reflexivity|]. cbn. rewrite app_nil_r.
    repeat split; first [reflexivity | lia]. }
  cbv zeta.
  destruct (fs w !! path) as [db|] eqn:Hfs.
  2:{ eexists _, _, [_]. split; [reflexivity|]. split; [reflexivity|]. cbn.
      repeat split; first [reflexivity | lia]. }
  destruct (db_is_deleted db); [apply Hsame; exact I|]. clear Hsame.
  destruct (scan_metadata (metadata db) None None) as [sync_to sync_key].
  destruct (negb (Py.truthy sync_to) || negb (Py.truthy sync_key)).
  { eexists _, _, []. split; [reflexivity|]. cbn. rewrite app_nil_r.
    repeat split; first [reflexivity | lia]. }
  destruct (Py.truthy (validate_sync_to env _ _)).
  { eexists _, _, [_]. split; [reflexivity|]. split; [reflexivity|]. cbn.
    repeat split; first [reflexivity | lia]. }
  destruct (sync_rows_tally env {| db_file := path |}
               {| info_account := account db; info_container := container db;
                  info_x_container_sync_row := x_container_sync_row db |}
               (Py.rstrip "/" (default EmptyString sync_to))
               (default EmptyString sync_key)
               (time_time env (time_reads w) + container_time (daemon w))
               (S (length (objects db))) (x_container_sync_row db) (tick w))
    as (r & w' & evs & -> & Htr & Htally & Hkind).
  unfold tally in Htally. cbn [daemon tick trace] in Htally, Htr.
  destruct Htally as (Ht & Hh & Hs & Hk & Hd & Hp & Hdp & Hf).
  destruct r as [exit|e].
  - exists (Ok exit). eexists. exists evs. split; [reflexivity|].
    destruct exit; try contradiction; cbn in *; repeat split; first [assumption | lia].
  - destruct (is_Exception e) eqn:Hexc.
    + eexists _, _, (evs ++ [_]). split; [reflexivity|].
      split; [cbn; rewrite Htr, <- app_assoc; reflexivity|].
      rewrite synced_app, length_app. cbn in Hf |- *.
      repeat split; first [assumption | lia].
    + exists (Raise e), w', evs. split; [reflexivity|]. split; [exact Htr|].
      cbn in Hf |- *. rewrite Hexc. repeat split; first [assumption | lia].
Qed.

(** ** What a pass leaves and what the next one finds *)

Lemma row_events_cursor_le path table c evs :
  row_events path table c evs -> c <= last_success c evs.
Proof.
  induction 1 as [c q Hq | c row q Hrows Hq | c row q rest Hrows Hq _ IH].
  - rewrite last_success_quiet by exact Hq. lia.
  - rewrite last_success_app_quiet by exact Hq. cbn. lia.
  - rewrite last_success_app_quiet by exact Hq. cbn.
    apply rows_since_1 in Hrows as (_ & Hlt & _). lia.
Qed.

Lemma row_events_synced_bounds path table c evs n :
  row_events path table c evs -> n ∈ synced evs ->
  c < n <= last_success c evs.
Proof.
  induction 1 as [c q Hq | c row q Hrows Hq | c row q rest Hrows Hq Hrest IH];
    intros Hin.
  - rewrite synced_quiet in Hin by exact Hq. inversion Hin.
  - rewrite synced_app, synced_quiet in Hin by exact Hq. inversion Hin.
  - rewrite synced_app, synced_quiet in Hin by exact Hq. cbn in Hin.
    rewrite last_success_app_quiet by exact Hq. cbn.
    apply rows_since_1 in Hrows as (_ & Hlt & _).
    pose proof (row_events_cursor_le _ _ _ _ Hrest).
    apply elem_of_cons in Hin as [->|Hin]; [lia|].
    specialize (IH Hin). lia.
Qed.

Lemma row_events_none_skipped path table c evs r :
  row_events path table c evs ->
  r ∈ table -> c < ROWID r <= last_success c evs ->
  ROWID r ∈ synced evs.
Proof.
  induction 1 as [c q Hq | c row q Hrows Hq | c row q rest Hrows Hq _ IH];
    intros Hr Hbounds.
  - rewrite last_success_quiet in Hbounds by exact Hq. lia.
  - rewrite last_success_app_quiet in Hbounds by exact Hq. cbn in Hbounds. lia.
  - rewrite last_success_app_quiet in Hbounds by exact Hq. cbn in Hbounds.
    rewrite synced_app, synced_quiet by exact Hq. cbn.
    apply rows_since_1 in Hrows as (_ & Hlt & _ & Hleast).
    pose proof (Hleast r Hr ltac:(lia)) as Hge.
    destruct (Z.eq_dec (ROWID r) (ROWID row)) as [->|Hne]; [left|].
    right. apply IH; [exact Hr | lia].
Qed.

Lemma row_events_first_attempt path table c evs n rest :
  row_events path table c evs -> attempted evs = n :: rest ->
  exists row, rows_since c 1 table = [row] /\ ROWID row = n.
Proof.
  destruct 1 as [c q Hq | c row q Hrows Hq | c row q rest' Hrows Hq _]; intros Hatt.
  - rewrite attempted_quiet in Hatt by exact Hq. discriminate.
  - rewrite attempted_app, attempted_quiet in Hatt by exact Hq.
    injection Hatt as <- _. eauto.
  - rewrite attempted_app, attempted_quiet in Hatt by exact Hq.
    injection Hatt as <- _. eauto.
Qed.

(** X12.  A pass touches no database but its own, and of its own only the
    cursor, which never decreases; a path without a database still has
    none afterwards. *)
Theorem container_sync_frame env path w :
  exists r w',
    container_sync env path w = (r, w')
    /\ (forall p, p <> path -> fs w' !! p = fs w !! p)
    /\ match fs w !! path with
       | None => fs w' !! path = None
       | Some db =>
           exists c,
             x_container_sync_row db <= c
             /\ fs w' !! path = Some (with_x_container_sync_row db c)
       end.
Proof.
  destruct (container_sync_run env path w)
    as (r & w' & evs & Heq & Htr & _ & _ & _ & Hdb).
  exists r, w'. split; [exact Heq|].
  destruct (fs w !! path) as [db|] eqn:Hfs.
  - destruct (Hdb db eq_refl) as (Hev & Hfs' & _). split.
    + intros p Hp. rewrite Hfs', lookup_insert_ne by congruence. reflexivity.
    + exists (last_success (x_container_sync_row db) evs). split.
      * exact (row_events_cursor_le _ _ _ _ Hev).
      * rewrite Hfs', lookup_insert_eq. reflexivity.
  - clear Hdb. rewrite container_sync_unfold, Hfs in Heq.
    assert (Hw : fs w' = fs w).
    { destruct (negb (Py.endswith path ".db")); [congruence|].
      destruct (ContainerBroker_raises env path) as [e0|];
        [destruct (is_Exception e0)|]; cbv zeta in Heq;
        injection Heq as _ <-; reflexivity. }
    rewrite Hw. split; [reflexivity | exact Hfs].
Qed.

Section Pass_rows_synced.

Variables (env : Env) (broker : Broker) (info : Info) (sync_to sync_key : string)
  (table : list Row).

Local Abbreviation pass := (pass_rows env broker info sync_to sync_key table).

(** The rows marked as synced are those on which [container_sync_row]
    returned [True]. *)
Lemma pass_rows_synced_ids h c log evs :
  pass h c log evs -> synced evs = ROWID <$> rows_synced log.
Proof.
  induction 1 as [h c q Hq | h c row e seg Hrow Hrun | h c row seg Hrow Hrun
                 | h c row seg log rest Hrow Hrun _ IH].
  - apply synced_quiet, is_log_quiet, Hq.
  - apply synced_quiet. exact (row_run_quiet _ _ _ _ _ _ _ _ _ Hrun).
  - rewrite synced_app, synced_quiet
      by exact (row_run_quiet _ _ _ _ _ _ _ _ _ Hrun).
    reflexivity.
  - rewrite synced_app, synced_quiet
      by exact (row_run_quiet _ _ _ _ _ _ _ _ _ Hrun).
    cbn. rewrite IH. reflexivity.
Qed.

(** The first call of a pass is on the row [get_items_since] yields for
    the cursor the pass starts from. *)
Lemma pass_rows_first h c row r rest evs :
  pass h c ((row, r) :: rest) evs -> rows_since c 1 table = [row].
Proof. inversion 1; subst; assumption. Qed.

(** After a call that returned [False], the row [get_items_since] yields
    for the cursor the pass left is the row of that call. *)
Lemma pass_rows_failed_next h c log evs pre row :
  pass h c log evs -> log = pre ++ [(row, Ok false)] ->
  rows_since (last_success c evs) 1 table = [row].
Proof.
  intros H. revert pre.
  induction H as [h c q Hq | h c row' e seg Hrow Hrun | h c row' seg Hrow Hrun
                 | h c row' seg log rest Hrow Hrun _ IH]; intros pre Heq.
  - destruct pre; discriminate.
  - destruct pre as [|x pre]; [discriminate|]. destruct pre; discriminate.
  - destruct pre as [|x pre]; [|destruct pre; discriminate].
    injection Heq as ->.
    rewrite last_success_app_quiet
      by exact (row_run_quiet _ _ _ _ _ _ _ _ _ Hrun).
    exact Hrow.
  - destruct pre as [|x pre]; cbn in Heq.
    + injection Heq as _ Hbad _. discriminate.
    + injection Heq as _ Heq.
      rewrite last_success_app_quiet
        by exact (row_run_quiet _ _ _ _ _ _ _ _ _ Hrun).
      exact (IH pre Heq).
Qed.

(** When every call of [container_sync_row] returns [True], so do those
    of a pass. *)
Lemma pass_rows_all_true h c log evs :
  (forall row w,
     fst (container_sync_row env row sync_to sync_key broker info w) = Ok true) ->
  pass h c log evs -> Forall (fun entry => snd entry = Ok true) log.
Proof.
  intros Htrue.
  assert (Hrun : forall h row r seg,
            row_run env broker info sync_to sync_key h row r seg -> r = Ok true).
  { intros h0 row r seg (w1 & w2 & _ & Heq & _).
    specialize (Htrue row w1). rewrite Heq in Htrue. exact Htrue. }
  induction 1 as [h c q Hq | h c row e seg Hrow Hrun' | h c row seg Hrow Hrun'
                 | h c row seg log rest Hrow Hrun' _ IH].
  - constructor.
  - apply Hrun in Hrun'. discriminate.
  - apply Hrun in Hrun'. discriminate.
  - constructor; [reflexivity | exact IH].
Qed.

End Pass_rows_synced.

Lemma rows_synced_all_true log :
  Forall (fun entry => snd entry = Ok true) log -> rows_synced log = fst <$> log.
Proof.
  induction 1 as [|[row r] log Hr _ IH]; [reflexivity|].
  cbn in Hr. subst r. cbn. f_equal. exact IH.
Qed.

Lemma rows_synced_elem_of row log :
  row ∈ rows_synced log <-> (row, Ok true) ∈ log.
Proof.
  unfold rows_synced. rewrite list_elem_of_omap. split.
  - intros ([row' r] & Hin & Hsome). cbn in Hsome.
    destruct r as [[]|]; try discriminate. injection Hsome as ->. exact Hin.
  - intros Hin. exists (row, Ok true). auto.
Qed.

(** X13.  Every row of the table between the cursor a pass started from
    and the cursor it left has been synced by the pass, none is skipped:
    [container_sync_row] was called on a row with that ROWID and returned
    [True].  And every row on which it returned [True] is a row of the
    table in that range. *)
Theorem no_pending_row_skipped env path w db :
  fs w !! path = Some db ->
  exists r w' evs c log,
    container_sync env path w = (r, w')
    /\ trace w' = trace w ++ evs
    /\ x_container_sync_row <$> fs w' !! path = Some c
    /\ pass_rows env {| db_file := path |} (info_of db) (sync_to_of db)
         (sync_key_of db) (objects db) (trace w) (x_container_sync_row db) log evs
    /\ (forall row, (row, Ok true) ∈ log ->
          row ∈ objects db /\ x_container_sync_row db < ROWID row <= c)
    /\ (forall row, row ∈ objects db ->
          x_container_sync_row db < ROWID row <= c ->
          exists row', (row', Ok true) ∈ log /\ ROWID row' = ROWID row).
Proof.
  intros Hfs.
  destruct (container_sync_run env path w)
    as (r & w' & evs & Heq & Htr & _ & _ & _ & Hdb).
  destruct (Hdb db Hfs) as (Hev & Hfs' & _ & _ & log & Hlog & _).
  pose proof (pass_rows_synced_ids _ _ _ _ _ _ _ _ _ _ Hlog) as Hsynced.
  exists r, w', evs, (last_success (x_container_sync_row db) evs), log.
  split; [exact Heq|]. split; [exact Htr|]. split; [|split; [exact Hlog|split]].
  - rewrite Hfs', lookup_insert_eq. reflexivity.
  - intros row Hrow. split.
    + pose proof (pass_rows_table _ _ _ _ _ _ _ _ _ _ Hlog) as Htable.
      rewrite Forall_forall in Htable. exact (Htable _ Hrow).
    + apply (row_events_synced_bounds _ _ _ _ _ Hev). rewrite Hsynced.
      apply list_elem_of_fmap. exists row. split; [reflexivity|].
      apply rows_synced_elem_of, Hrow.
  - intros row Hrow Hb.
    pose proof (row_events_none_skipped _ _ _ _ _ Hev Hrow Hb) as Hin.
    rewrite Hsynced in Hin. apply list_elem_of_fmap in Hin as (row' & Hid & Hin).
    exists row'. split; [apply rows_synced_elem_of, Hin | congruence].
Qed.

Lemma no_pending_row_skipped_witness :
  fs Scenario.w567 !! "c.db" = Some Scenario.db567
  /\ (exists r w' evs c log,
        container_sync Scenario.env567 "c.db" Scenario.w567 = (r, w')
        /\ trace w' = trace Scenario.w567 ++ evs
        /\ x_container_sync_row <$> fs w' !! "c.db" = Some c
        /\ pass_rows Scenario.env567 {| db_file := "c.db" |}
             (info_of Scenario.db567) (sync_to_of Scenario.db567)
             (sync_key_of Scenario.db567) (objects Scenario.db567)
             (trace Scenario.w567) 4 log evs
        /\ (forall row, row ∈ objects Scenario.db567 ->
              4 < ROWID row <= c ->
              exists row', (row', Ok true) ∈ log /\ ROWID row' = ROWID row))
  /\ x_container_sync_row
       <$> fs (snd (container_sync Scenario.env567 "c.db" Scenario.w567)) !! "c.db"
     = Some 5
  /\ calls (trace (snd (container_sync Scenario.env567 "c.db" Scenario.w567)))
     = [delete_object_call "http://10.0.0.5/v1/AUTH_x/dest" "o5"
          (delete_headers (Scenario.row 5 "o5" true) "secret");
        delete_object_call "http://10.0.0.5/v1/AUTH_x/dest" "o6"
          (delete_headers (Scenario.row 6 "o6" true) "secret")].
Proof.
  split; [reflexivity|]. split.
  - destruct (no_pending_row_skipped Scenario.env567 "c.db" Scenario.w567
                Scenario.db567 eq_refl)
      as (r & w' & evs & c & log & Heq & Htr & Hcur & Hlog & _ & Hall).
    exists r, w', evs, c, log. repeat split; assumption.
  - vm_compute. split; reflexivity.
Defined.

(** X14.  A second pass over the same database resumes where the first
    stopped: its calls of [container_sync_row] are on rows beyond those
    on which the first pass got [True], and if the first pass ended on a
    call that returned [False], the first call of the second pass, if it
    makes one, is on that same row. *)
Theorem second_pass_resumes env1 env2 path w db :
  fs w !! path = Some db ->
  exists r1 w1 evs1 log1 c1 r2 w2 evs2 log2,
    container_sync env1 path w = (r1, w1)
    /\ trace w1 = trace w ++ evs1
    /\ pass_rows env1 {| db_file := path |} (info_of db) (sync_to_of db)
         (sync_key_of db) (objects db) (trace w) (x_container_sync_row db)
         log1 evs1
    /\ fs w1 !! path = Some (with_x_container_sync_row db c1)
    /\ container_sync env2 path w1 = (r2, w2)
    /\ trace w2 = trace w1 ++ evs2
    /\ pass_rows env2 {| db_file := path |}
         (info_of (with_x_container_sync_row db c1)) (sync_to_of db)
         (sync_key_of db) (objects db) (trace w1) c1 log2 evs2
    /\ (forall row1 row2 r,
          (row1, Ok true) ∈ log1 -> (row2, r) ∈ log2 -> ROWID row1 < ROWID row2)
    /\ (forall pre row row' r' rest,
          log1 = pre ++ [(row, Ok false)] -> log2 = (row', r') :: rest ->
          row' = row).
Proof.
  intros Hfs.
  destruct (container_sync_run env1 path w)
    as (r1 & w1 & evs1 & Heq1 & Htr1 & _ & _ & _ & Hdb1).
  destruct (Hdb1 db Hfs) as (Hev1 & Hfs1 & _ & _ & log1 & Hlog1 & _).
  set (c1 := last_success (x_container_sync_row db) evs1) in *.
  assert (Hfs1' : fs w1 !! path = Some (with_x_container_sync_row db c1)).
  { rewrite Hfs1, lookup_insert_eq. reflexivity. }
  destruct (container_sync_run env2 path w1)
    as (r2 & w2 & evs2 & Heq2 & Htr2 & _ & _ & _ & Hdb2).
  destruct (Hdb2 _ Hfs1') as (Hev2 & _ & _ & _ & log2 & Hlog2 & _).
  cbn in Hev2.
  change (sync_to_of (with_x_container_sync_row db c1)) with (sync_to_of db) in Hlog2.
  change (sync_key_of (with_x_container_sync_row db c1)) with (sync_key_of db) in Hlog2.
  cbn [objects x_container_sync_row with_x_container_sync_row] in Hlog2.
  exists r1, w1, evs1, log1, c1, r2, w2, evs2, log2.
  repeat (split; [assumption|]). split.
  - intros row1 row2 r Hrow1 Hrow2.
    assert (Hle : ROWID row1 <= c1).
    { apply (row_events_synced_bounds _ _ _ _ _ Hev1).
      rewrite (pass_rows_synced_ids _ _ _ _ _ _ _ _ _ _ Hlog1).
      apply list_elem_of_fmap. exists row1. split; [reflexivity|].
      apply rows_synced_elem_of, Hrow1. }
    pose proof (pass_rows_sorted _ _ _ _ _ _ _ _ _ _ Hlog2) as Hsorted.
    apply StronglySorted_inv in Hsorted as [_ Hall].
    rewrite Forall_forall in Hall.
    assert (Hlt : c1 < ROWID row2).
    { apply Hall. apply list_elem_of_fmap. exists (row2, r). auto. }
    lia.
  - intros pre row row' r' rest Hsplit Hfirst. subst log2.
    pose proof (pass_rows_failed_next _ _ _ _ _ _ _ _ _ _ _ _ Hlog1 Hsplit) as Hnext.
    pose proof (pass_rows_first _ _ _ _ _ _ _ _ _ _ _ _ Hlog2) as Hrow'.
    fold c1 in Hnext. rewrite Hnext in Hrow'. injection Hrow' as ->. reflexivity.
Qed.

Lemma second_pass_resumes_witness :
  fs Scenario.w567 !! "c.db" = Some Scenario.db567
  /\ (exists r1 w1 evs1 (log1 : list (Row * Result bool)) r2 w2 evs2
         (log2 : list (Row * Result bool)),
        container_sync Scenario.env567 "c.db" Scenario.w567 = (r1, w1)
        /\ trace w1 = trace Scenario.w567 ++ evs1
        /\ container_sync Scenario.env_ok "c.db" w1 = (r2, w2)
        /\ trace w2 = trace w1 ++ evs2
        /\ (forall row1 row2 r,
              (row1, Ok true) ∈ log1 -> (row2, r) ∈ log2 ->
              ROWID row1 < ROWID row2))
  /\ calls (trace (snd (container_sync Scenario.env_ok "c.db"
                          (snd (container_sync Scenario.env567 "c.db"
                                  Scenario.w567)))))
     = [delete_object_call "http://10.0.0.5/v1/AUTH_x/dest" "o5"
          (delete_headers (Scenario.row 5 "o5" true) "secret");
        delete_object_call "http://10.0.0.5/v1/AUTH_x/dest" "o6"
          (delete_headers (Scenario.row 6 "o6" true) "secret");
        delete_object_call "http://10.0.0.5/v1/AUTH_x/dest" "o6"
          (delete_headers (Scenario.row 6 "o6" true) "secret");
        delete_object_call "http://10.0.0.5/v1/AUTH_x/dest" "o7"
          (delete_headers (Scenario.row 7 "o7" true) "secret")].
Proof.
  split; [reflexivity|]. split.
  - destruct (second_pass_resumes Scenario.env567 Scenario.env_ok "c.db"
                Scenario.w567 Scenario.db567 eq_refl)
      as (r1 & w1 & evs1 & log1 & c1 & r2 & w2 & evs2 & log2
          & H1 & Ht1 & _ & _ & H2 & Ht2 & _ & Hlt & _).
    exists r1, w1, evs1, log1, r2, w2, evs2, log2. repeat split; assumption.
  - vm_compute. reflexivity.
Defined.

Lemma healthy_row env row sync_to sync_key broker info w :
  healthy env ->
  fst (container_sync_row env row sync_to sync_key broker info w) = Ok true.
Proof.
  intros (Hdelete & Hput & Hget & Hnodes).
  unfold container_sync_row, try_except, bind.
  destruct (deleted row).
  - unfold client_delete_object, remote. rewrite Hdelete. reflexivity.
  - pose proof (Hnodes (info_account info) (info_container info) (name row)) as Hne.
    destruct (get_nodes env _ _ _) as [part nodes]. cbn [snd] in Hne.
    unfold random_shuffle.
    pose proof (shuffle_perm env (trace w) nodes) as Hperm.
    destruct (shuffle env (trace w) nodes) as [|n rest].
    { apply Permutation_nil_l in Hperm. congruence. }
    cbn [get_from_nodes]. unfold try_except, direct_client_direct_get_object, remote.
    destruct (Hget (trace w) n part (info_account info) (info_container info)
                (name row)) as [[headers body] ->].
    unfold client_put_object, remote. rewrite Hput. reflexivity.
Qed.

(** X15.  When every request succeeds and the clock stays short of the
    deadline, a pass over a configured container ends because no rows
    remain: every call of [container_sync_row] has returned [True], one
    was made for every pending ROWID of the table, the cursor is at or
    beyond every ROWID of the table, and [container_deletes] and
    [container_puts] have grown, together, by the number of calls, while
    [container_failures] has not changed. *)
Theorem healthy_pass_drains env path w db sync_to sync_key :
  Py.endswith path ".db" = true ->
  ContainerBroker_raises env path = None ->
  fs w !! path = Some db ->
  db_is_deleted db = false ->
  scan_metadata (metadata db) None None = (Some sync_to, Some sync_key) ->
  sync_to <> EmptyString ->
  sync_key <> EmptyString ->
  Py.truthy (validate_sync_to env (Py.rstrip "/" sync_to)
               (allowed_sync_hosts (daemon w))) = false ->
  healthy env ->
  (forall n, time_time env n < deadline env w) ->
  exists w' evs c log,
    container_sync env path w = (Ok RowsExhausted, w')
    /\ trace w' = trace w ++ evs
    /\ x_container_sync_row <$> fs w' !! path = Some c
    /\ pass_rows env {| db_file := path |} (info_of db) (Py.rstrip "/" sync_to)
         sync_key (objects db) (trace w) (x_container_sync_row db) log evs
    /\ Forall (fun entry => snd entry = Ok true) log
    /\ (forall row, row ∈ objects db -> ROWID row <= c)
    /\ (forall row, row ∈ objects db ->
          x_container_sync_row db < ROWID row ->
          exists row', (row', Ok true) ∈ log /\ ROWID row' = ROWID row)
    /\ container_deletes (daemon w') + container_puts (daemon w')
       = container_deletes (daemon w) + container_puts (daemon w)
         + Z.of_nat (length log)
    /\ container_failures (daemon w') = container_failures (daemon w).
Proof.
  intros Hdb Hopen Hfs Hlive Hscan Hto Hkey Hvalid Hhealthy Hclock.
  destruct (container_sync_tally env path w)
    as (rT & wT & evsT & Heq0 & Htr0 & _ & _ & _ & _ & Hdp & _ & _ & Hfail).
  revert Heq0.
  rewrite container_sync_unfold, Hdb, Hopen, Hfs, Hlive, Hscan. cbn [negb].
  assert (Htruthy : forall s, s <> EmptyString -> Py.truthy (Some s) = true).
  { intros s Hs. cbn.
    destruct (String.eqb_spec s EmptyString); [contradiction | reflexivity]. }
  rewrite (Htruthy _ Hto), (Htruthy _ Hkey). cbn [negb orb].
  change (default EmptyString (Some sync_to)) with sync_to.
  change (default EmptyString (Some sync_key)) with sync_key.
  cbv zeta. rewrite Hvalid.
  set (broker := {| db_file := path |}).
  fold (info_of db).
  destruct (sync_rows_spec env broker (info_of db) (Py.rstrip "/" sync_to) sync_key
              (time_time env (time_reads w) + container_time (daemon w))
              db (S (length (objects db))) (x_container_sync_row db) (tick w))
    as (r & w2 & evs & log & Hloop & Htr & Hev & Hlog & Hfs' & _ & Hexit).
  { cbn. rewrite with_x_container_sync_row_same. exact Hfs. }
  { pose proof (length_filter (fun r => x_container_sync_row db < ROWID r)
                  (objects db)). lia. }
  rewrite Hloop.
  pose proof (pass_rows_all_true _ _ _ _ _ _ _ _ _ _
                (fun row w0 => healthy_row env row _ _ _ _ w0 Hhealthy) Hlog)
    as Htrue.
  destruct r as [exit|e].
  2:{ exfalso. destruct Hexit as (_ & _ & _ & pre & row & ->).
      apply Forall_app in Htrue as [_ Htrue].
      apply Forall_cons in Htrue as [Hbad _]. discriminate. }
  destruct Hexit as [Hexit _].
  destruct exit; cbn in Hexit; try contradiction.
  { exfalso. destruct Hexit as (pre & n & ->).
    pose proof (pass_rows_markers _ _ _ _ _ _ _ _ _ _ Hlog) as Hmarks.
    pose proof (pass_rows_synced_ids _ _ _ _ _ _ _ _ _ _ Hlog) as Hsynced.
    rewrite synced_app in Hsynced. cbn in Hsynced. rewrite app_nil_r in Hsynced.
    rewrite attempted_app in Hmarks. cbn in Hmarks.
    assert (Hlen : length (attempted pre ++ [n]) = length (synced pre)).
    { rewrite Hmarks, Hsynced, rows_synced_all_true by exact Htrue.
      rewrite length_fmap, length_fmap.
      clear -Htrue. induction Htrue as [|[row r] log Hr _ IH]; [reflexivity|].
      cbn in Hr. subst r. cbn. rewrite IH. reflexivity. }
    rewrite length_app in Hlen. cbn in Hlen.
    assert (Hle : (length (synced pre) <= length (attempted pre))%nat).
    { clear. induction pre as [|e pre IH]; [reflexivity|].
      destruct e as [| | |n []]; cbn; lia. }
    lia. }
  2:{ exfalso. destruct Hexit as [Hlate _].
      specialize (Hclock (pred (time_reads w2))). unfold deadline in Hclock. lia. }
  destruct Hexit as [Hnone _].
  set (c := last_success (x_container_sync_row db) evs) in *.
  assert (Hall : forall row, row ∈ objects db -> ROWID row <= c).
  { intros row Hrow. destruct (Z_le_gt_dec (ROWID row) c) as [|Hgt]; [assumption|].
    exfalso. unfold rows_since in Hnone.
    assert (Hin : row ∈ merge_sort rowid_le (filter (fun r => c < ROWID r) (objects db))).
    { rewrite merge_sort_Permutation. apply list_elem_of_filter. split; [lia | exact Hrow]. }
    destruct (merge_sort rowid_le _) as [|r0 l]; [inversion Hin | discriminate]. }
  intros [= <- <-].
  cbn [trace with_daemon tick] in Htr0, Htr. rewrite Htr in Htr0.
  apply app_inv_head in Htr0. subst evsT.
  pose proof (pass_rows_synced_ids _ _ _ _ _ _ _ _ _ _ Hlog) as Hsynced.
  exists (with_daemon incr_syncs w2), evs, c, log.
  split; [reflexivity|]. split; [exact Htr|].
  split; [|split; [exact Hlog | split; [exact Htrue | split; [exact Hall | split; [|split]]]]].
  - cbn [fs with_daemon]. rewrite Hfs'. cbn [db_file broker].
    rewrite lookup_insert_eq. reflexivity.
  - intros row Hrow Hlt.
    assert (Hin : ROWID row ∈ synced evs).
    { apply (row_events_none_skipped _ _ _ _ _ Hev Hrow).
      split; [exact Hlt | apply Hall, Hrow]. }
    rewrite Hsynced in Hin. apply list_elem_of_fmap in Hin as (row' & Hid & Hin).
    exists row'. split; [apply rows_synced_elem_of, Hin | congruence].
  - rewrite Hdp, Hsynced, rows_synced_all_true by exact Htrue.
    rewrite !length_fmap. reflexivity.
  - cbn in Hfail |- *. lia.
Qed.

Lemma healthy_pass_drains_witness :
  healthy Setup.env_frozen
  /\ (forall n, time_time Setup.env_frozen n < deadline Setup.env_frozen Scenario.w12)
  /\ (exists w' evs c (log : list (Row * Result bool)),
        container_sync Setup.env_frozen "c.db" Scenario.w12 = (Ok RowsExhausted, w')
        /\ trace w' = trace Scenario.w12 ++ evs
        /\ x_container_sync_row <$> fs w' !! "c.db" = Some c
        /\ Forall (fun entry => snd entry = Ok true) log
        /\ (forall row, row ∈ objects Scenario.db12 -> ROWID row <= c)
        /\ container_deletes (daemon w') + container_puts (daemon w')
           = Z.of_nat (length log))
  /\ call_name
       <$> calls (trace (snd (container_sync Setup.env_frozen "c.db" Scenario.w12)))
     = ["a.txt"; "a.txt"; "b.txt"; "b.txt"]%string
  /\ container_puts
       (daemon (snd (container_sync Setup.env_frozen "c.db" Scenario.w12)))
     = 2.
Proof.
  assert (Hhealthy : healthy Setup.env_frozen).
  { split; [reflexivity|]. split; [reflexivity|]. split.
    - intros h node part account container obj. eexists. reflexivity.
    - intros account container obj. discriminate. }
  assert (Hclock : forall n,
            time_time Setup.env_frozen n < deadline Setup.env_frozen Scenario.w12)
    by (intros n; reflexivity).
  split; [exact Hhealthy|]. split; [exact Hclock|]. split.
  - destruct (healthy_pass_drains Setup.env_frozen "c.db" Scenario.w12 Scenario.db12
                "http://10.0.0.5/v1/AUTH_x/dest/" "secret"
                eq_refl eq_refl eq_refl eq_refl eq_refl
                ltac:(discriminate) ltac:(discriminate) eq_refl Hhealthy Hclock)
      as (w' & evs & c & log & Heq & Htr & Hcur & _ & Htrue & Hall & _ & Hcount & _).
    exists w', evs, c, log. repeat split; assumption.
  - vm_compute. split; reflexivity.
Defined.

(** ** Edges of a pass *)

(** X16.  With [container_time] at most zero (and a clock that does not
    run backwards between its first two readings) a pass syncs no row:
    it adds at most lines to the log, so no request is sent and no
    cursor is written; the databases are unchanged and so are
    [container_deletes] and [container_puts]. *)
Theorem no_budget_no_rows env path w :
  container_time (daemon w) <= 0 ->
  time_time env (time_reads w) <= time_time env (S (time_reads w)) ->
  exists r w' evs,
    container_sync env path w = (r, w')
    /\ trace w' = trace w ++ evs
    /\ Forall is_log evs
    /\ calls evs = []
    /\ cursor_writes evs = []
    /\ fs w' = fs w
    /\ container_deletes (daemon w') = container_deletes (daemon w)
    /\ container_puts (daemon w') = container_puts (daemon w)
    /\ r <> Ok RowsExhausted
    /\ r <> Ok RowFailed.
Proof.
  intros Hbudget Hclock. rewrite container_sync_unfold.
  assert (Hlogs : forall (r : Result pass_exit) w' q,
    Forall is_log q -> trace w' = trace w ++ q -> fs w' = fs w ->
    container_deletes (daemon w') = container_deletes (daemon w) ->
    container_puts (daemon w') = container_puts (daemon w) ->
    r <> Ok RowsExhausted -> r <> Ok RowFailed ->
    exists r0 w0 evs,
      (r, w') = (r0, w0)
      /\ trace w0 = trace w ++ evs
      /\ Forall is_log evs
      /\ calls evs = []
      /\ cursor_writes evs = []
      /\ fs w0 = fs w
      /\ container_deletes (daemon w0) = container_deletes (daemon w)
      /\ container_puts (daemon w0) = container_puts (daemon w)
      /\ r0 <> Ok RowsExhausted
      /\ r0 <> Ok RowFailed).
  { intros r w' q Hq Htr Hfs Hd Hp Hr1 Hr2. exists r, w', q.
    repeat split; auto.
    - clear -Hq. induction Hq as [|e q He _ IH]; [reflexivity|].
      destruct e; try contradiction. exact IH.
    - apply cursor_writes_quiet, is_log_quiet, Hq. }
  destruct (negb (Py.endswith path ".db")).
  { apply (Hlogs _ _ []); auto using app_nil_r; discriminate. }
  destruct (ContainerBroker_raises env path) as [e0|].
  { destruct (is_Exception e0);
      apply (Hlogs _ _ []); cbn; auto using app_nil_r; discriminate. }
  cbv zeta.
  destruct (fs w !! path) as [db|].
  2:{ eapply (Hlogs _ _ [_]); cbn; auto; try discriminate. repeat constructor. }
  destruct (db_is_deleted db).
  { apply (Hlogs _ _ []); auto using app_nil_r; discriminate. }
  destruct (scan_metadata (metadata db) None None) as [sync_to sync_key].
  destruct (negb (Py.truthy sync_to) || negb (Py.truthy sync_key)).
  { apply (Hlogs _ _ []); cbn; auto using app_nil_r; discriminate. }
  destruct (Py.truthy (validate_sync_to env _ _)).
  { eapply (Hlogs _ _ [_]); cbn; auto; try discriminate. repeat constructor. }
  cbn [sync_rows]. unfold bind at 1. unfold time at 1. cbn [time_reads tick].
  destruct (Z.ltb_spec (time_time env (S (time_reads w)))
              (time_time env (time_reads w) + container_time (daemon w)))
    as [Hlt|_]; [lia|].
  cbn [negb ret].
  apply (Hlogs _ _ []); cbn; auto using app_nil_r; discriminate.
Qed.

Lemma no_budget_no_rows_witness :
  container_time (daemon Setup.w_no_budget) <= 0
  /\ rows_since 0 1 (objects Scenario.db12) = [Scenario.row 1 "a.txt" false]
  /\ trace (snd (container_sync Scenario.env_ok "c.db" Setup.w_no_budget)) = []
  /\ exists r w' evs,
       container_sync Scenario.env_ok "c.db" Setup.w_no_budget = (r, w')
       /\ trace w' = trace Setup.w_no_budget ++ evs
       /\ calls evs = []
       /\ cursor_writes evs = []
       /\ fs w' = fs Setup.w_no_budget
       /\ container_puts (daemon w') = 0.
Proof.
  assert (H0 : container_time (daemon Setup.w_no_budget) <= 0) by (cbn; lia).
  split; [exact H0|]. split; [reflexivity|]. split; [vm_compute; reflexivity|].
  destruct (no_budget_no_rows Scenario.env_ok "c.db" Setup.w_no_budget H0)
    as (r & w' & evs & Heq & Htr & _ & Hcalls & Hwrites & Hfs & _ & Hputs & _).
  { vm_compute. discriminate. }
  exists r, w', evs. repeat split; assumption.
Defined.

(** X17.  When the broker opens but the database cannot be read, the
    exception of [get_info] is caught by the handler: [container_sync]
    returns, one line is logged with the path, [container_failures] is
    one more than before and nothing else has changed. *)
Theorem unreadable_database_fails env path w :
  Py.endswith path ".db" = true ->
  ContainerBroker_raises env path = None ->
  fs w !! path = None ->
  exists w',
    container_sync env path w = (Ok Failed, w')
    /\ after w [EvLog (logger_exception_line "ERROR Syncing %s" [path])] w'
    /\ counts (daemon w) (daemon w') 0 0 0 0 1.
Proof.
  intros Hdb Hopen Hfs. rewrite container_sync_unfold, Hdb, Hopen, Hfs. cbv zeta.
  eexists. split; [reflexivity|]. split.
  - unfold after. cbn. auto.
  - apply counts_incr_failures.
Qed.

Lemma unreadable_database_fails_witness :
  container_failures (daemon (snd (container_sync Scenario.env_ok "c.db" Setup.w_empty)))
  = container_failures (daemon Setup.w_empty) + 1
  /\ exists w',
    container_sync Scenario.env_ok "c.db" Setup.w_empty = (Ok Failed, w')
    /\ trace w' = [EvLog (logger_exception_line "ERROR Syncing %s" ["c.db"%string])]
    /\ container_failures (daemon w') = 1
    /\ container_syncs (daemon w') = 0.
Proof.
  split; [vm_compute; reflexivity|].
  destruct (unreadable_database_fails Scenario.env_ok "c.db" Setup.w_empty
              eq_refl eq_refl eq_refl)
    as (w' & Heq & (_ & _ & Htr) & (_ & _ & Hsyncs & _ & _ & _ & Hfailures)).
  exists w'. split; [exact Heq|]. split; [exact Htr|].
  split; [exact Hfailures | exact Hsyncs].
Defined.

(** X18.  A path that does not end in [.db], and a container marked
    deleted, are left alone: nothing is counted, logged, requested or
    written, and the clock is not read. *)
Theorem left_alone env path w :
  (Py.endswith path ".db" = false ->
   container_sync env path w = (Ok NotADatabase, w))
  /\ (forall db,
        Py.endswith path ".db" = true ->
        ContainerBroker_raises env path = None ->
        fs w !! path = Some db ->
        db_is_deleted db = true ->
        container_sync env path w = (Ok ContainerDeleted, w)).
Proof.
  split.
  - intros Hdb. rewrite container_sync_unfold, Hdb. reflexivity.
  - intros db Hdb Hopen Hfs Hdel.
    rewrite container_sync_unfold, Hdb, Hopen, Hfs, Hdel. reflexivity.
Qed.


(** ** When a pass raises *)

(** An exception of the row loop that does not derive from [Exception]
    is one that a collaborator raised. *)
Lemma sync_rows_raises env broker info sync_to sync_key stop_at :
  forall fuel c w e w',
    sync_rows fuel env broker info sync_to sync_key stop_at c w = (Raise e, w') ->
    is_Exception e = false -> raised_by env e.
Proof.
  induction fuel as [|fuel IH]; intros c w e w' Heq Hexc; [discriminate|].
  revert Heq. cbn [sync_rows]. unfold bind at 1. unfold time at 1.
  destruct (time_time env (time_reads w) <? stop_at); cbn [negb]; [|discriminate].
  unfold bind at 1. unfold get_items_since, bind at 1, broker_db.
  destruct (fs (tick w) !! db_file broker) as [db|].
  2:{ intros [= <- _]. discriminate. }
  cbn [ret].
  destruct (rows_since c 1 (objects db)) as [|row rest]; [discriminate|].
  unfold bind at 1.
  destruct (container_sync_row_spec env row sync_to sync_key broker info (tick w))
    as (r1 & w1 & evs1 & -> & _ & _ & Hcount).
  destruct r1 as [ok|e1].
  2:{ intros [= <- _]. apply Hcount. }
  unfold bind at 1, note_sync_row. destruct ok; cbn [negb]; [|discriminate].
  unfold bind at 1. unfold set_x_container_sync_row, bind at 1, broker_db.
  destruct (fs _ !! db_file broker) as [db'|]; [|intros [= <- _]; discriminate].
  intros Heq. exact (IH _ _ _ _ Heq Hexc).
Qed.

(** What [container_sync] lets out. *)
Lemma container_sync_raises env path w e w' :
  container_sync env path w = (Raise e, w') ->
  Py.endswith path ".db" = true
  /\ if is_Exception e then
       e = UnboundLocalError "broker"
       /\ exists e0,
            ContainerBroker_raises env path = Some e0 /\ is_Exception e0 = true
     else
       ContainerBroker_raises env path = Some e
       \/ (ContainerBroker_raises env path = None /\ raised_by env e).
Proof.
  rewrite container_sync_unfold.
  destruct (Py.endswith path ".db"); cbn [negb]; [|discriminate].
  intros Heq. split; [reflexivity|]. revert Heq.
  destruct (ContainerBroker_raises env path) as [e0|].
  { destruct (is_Exception e0) eqn:Hexc0.
    - intros [= <- _]. cbn. eauto.
    - intros [= <- _]. rewrite Hexc0. auto. }
  cbv zeta. destruct (fs w !! path) as [db|]; [|discriminate].
  destruct (db_is_deleted db); [discriminate|].
  destruct (scan_metadata (metadata db) None None) as [sync_to sync_key].
  destruct (negb (Py.truthy sync_to) || negb (Py.truthy sync_key)); [discriminate|].
  destruct (Py.truthy (validate_sync_to env _ _)); [discriminate|].
  destruct (sync_rows _ _ _ _ _ _ _ _ _) as [[exit|e1] w1] eqn:Hloop; [discriminate|].
  destruct (is_Exception e1) eqn:Hexc1; [discriminate|].
  intros [= <- _]. rewrite Hexc1. right. split; [reflexivity|].
  exact (sync_rows_raises _ _ _ _ _ _ _ _ _ _ _ Hloop Hexc1).
Qed.

(** When the broker opens and no collaborator raises anything but an
    [Exception], [container_sync] returns. *)
Lemma container_sync_returns_if env path w :
  only_Exceptions env ->
  ContainerBroker_raises env path = None ->
  exists exit w', container_sync env path w = (Ok exit, w').
Proof.
  intros Honly Hopen.
  destruct (container_sync env path w) as [[exit|e] w'] eqn:Heq; [eauto|].
  exfalso. apply container_sync_raises in Heq as [_ Heq].
  destruct (is_Exception e) eqn:Hexc.
  - destruct Heq as (_ & e0 & Hraise & _). congruence.
  - destruct Heq as [Hraise | [_ Hby]]; [congruence|].
    rewrite (only_Exceptions_raised_by env e Honly Hby) in Hexc. discriminate.
Qed.

(** X23.  What [container_sync] lets out.  An exception that derives
    from [Exception] leaves it exactly when the path ends in [.db] and
    opening the broker raises such an exception, and it is then the
    [UnboundLocalError] of the handler.  Any other exception that leaves
    it is one that opening the broker or a request of a row raised.  So
    [container_sync] returns when the broker opens and no collaborator
    raises anything but an [Exception]. *)
Theorem container_sync_lets_out env path w :
  (forall e w',
     container_sync env path w = (Raise e, w') ->
     Py.endswith path ".db" = true
     /\ if is_Exception e then
          e = UnboundLocalError "broker"
          /\ exists e0,
               ContainerBroker_raises env path = Some e0 /\ is_Exception e0 = true
        else
          ContainerBroker_raises env path = Some e
          \/ (ContainerBroker_raises env path = None /\ raised_by env e))
  /\ (forall e0,
        Py.endswith path ".db" = true ->
        ContainerBroker_raises env path = Some e0 ->
        exists w',
          container_sync env path w
          = (Raise (if is_Exception e0 then UnboundLocalError "broker" else e0), w'))
  /\ (only_Exceptions env ->
      ContainerBroker_raises env path = None ->
      exists exit w', container_sync env path w = (Ok exit, w')).
Proof.
  split; [|split].
  - intros e w'. apply container_sync_raises.
  - intros e0 Hdb Hraise. rewrite container_sync_unfold, Hdb, Hraise. cbn [negb].
    destruct (is_Exception e0); eauto.
  - apply container_sync_returns_if.
Qed.

Lemma container_sync_lets_out_witness :
  Py.endswith "c.db" ".db" = true
  /\ ContainerBroker_raises Setup.env_locked "c.db"
     = Some (Exception "unable to open database file")
  /\ (exists w',
        container_sync Setup.env_locked "c.db" Scenario.w12
        = (Raise (UnboundLocalError "broker"), w'))
  /\ only_Exceptions Scenario.env_ok
  /\ ContainerBroker_raises Scenario.env_ok "c.db" = None
  /\ exists exit w',
       container_sync Scenario.env_ok "c.db" Scenario.w12 = (Ok exit, w').
Proof.
  split; [reflexivity|]. split; [reflexivity|]. split.
  - destruct (container_sync_lets_out Setup.env_locked "c.db" Scenario.w12)
      as (_ & Hraise & _).
    exact (Hraise _ eq_refl eq_refl).
  - assert (Honly : only_Exceptions Scenario.env_ok).
    { split; [|split]; intros; discriminate. }
    split; [exact Honly|]. split; [reflexivity|].
    destruct (container_sync_lets_out Scenario.env_ok "c.db" Scenario.w12)
      as (_ & _ & Hret).
    exact (Hret Honly eq_refl).
Defined.

(** ** [report] and [run_once] *)

Lemma report_spec lib env attrs w :
  report lib env attrs w
  = (Ok (with_reported attrs (time_time env (time_reads w))),
     with_daemon reset_counters
       (tick (emit (EvLog (logger_info_line report_format
                [ctime lib (reported attrs); pretty (container_syncs (daemon w));
                 pretty (container_deletes (daemon w));
                 pretty (container_puts (daemon w));
                 pretty (container_skips (daemon w));
                 pretty (container_failures (daemon w))])) w))).
Proof. reflexivity. Qed.

Lemma scan_app lib env locs1 locs2 attrs w :
  scan lib env (locs1 ++ locs2) attrs w
  = match scan lib env locs1 attrs w with
    | (Ok attrs1, w1) => scan lib env locs2 attrs1 w1
    | (Raise e, w1) => (Raise e, w1)
    end.
Proof.
  revert attrs w. induction locs1 as [|[[path device] partition] locs1 IH];
    intros attrs w.
  - reflexivity.
  - cbn [app scan]. unfold bind.
    destruct (container_sync env path w) as [[exit|e] w1]; [|reflexivity].
    unfold time.
    destruct (3600 <=? time_time env (time_reads w1) - reported attrs).
    + rewrite report_spec. apply IH.
    + unfold ret. apply IH.
Qed.

Lemma scan_opens lib env locs :
  only_Exceptions env ->
  Forall (fun loc => ContainerBroker_raises env (fst (fst loc)) = None) locs ->
  forall attrs w,
    exists attrs' w' evs,
      scan lib env locs attrs w = (Ok attrs', w')
      /\ trace w' = trace w ++ evs
      /\ same_setup attrs attrs'
      /\ container_time (daemon w') = container_time (daemon w)
      /\ allowed_sync_hosts (daemon w') = allowed_sync_hosts (daemon w).
Proof.
  intros Honly.
  induction 1 as [|[[path device] partition] locs Hopen _ IH]; intros attrs w.
  - exists attrs, w, []. rewrite app_nil_r. cbn. unfold same_setup. auto 10.
  - cbn [fst] in Hopen. cbn [scan]. unfold bind.
    destruct (container_sync_tally env path w)
      as (r & w1 & evs1 & Heq & Htr1 & Htime & Hhosts & _).
    destruct (container_sync_returns_if env path w Honly Hopen) as (exit & w1' & Heq').
    rewrite Heq in Heq'. injection Heq' as -> <-. rewrite Heq.
    unfold time.
    destruct (3600 <=? time_time env (time_reads w1) - reported attrs).
    + rewrite report_spec.
      destruct (IH (with_reported attrs (time_time env (time_reads (tick w1))))
                  (with_daemon reset_counters
                     (tick (emit (EvLog (logger_info_line report_format
                        [ctime lib (reported attrs);
                         pretty (container_syncs (daemon (tick w1)));
                         pretty (container_deletes (daemon (tick w1)));
                         pretty (container_puts (daemon (tick w1)));
                         pretty (container_skips (daemon (tick w1)));
                         pretty (container_failures (daemon (tick w1)))]))
                        (tick w1)))))
        as (attrs' & w' & evs & -> & Htr & Hsetup & Htime' & Hhosts').
      eexists attrs', w', (evs1 ++ _ :: evs). split; [reflexivity|].
      split; [rewrite Htr; cbn; rewrite Htr1, <- !app_assoc; reflexivity|].
      split; [exact Hsetup|].
      cbn in Htime', Hhosts'. split; congruence.
    + unfold ret.
      destruct (IH attrs (tick w1))
        as (attrs' & w' & evs & -> & Htr & Hsetup & Htime' & Hhosts').
      exists attrs', w', (evs1 ++ evs). split; [reflexivity|].
      split; [rewrite Htr; cbn; rewrite Htr1, <- !app_assoc; reflexivity|].
      split; [exact Hsetup|].
      cbn in Htime', Hhosts'. split; congruence.
Qed.

(** X20.  When every broker of the scan opens and no collaborator raises
    anything but an [Exception], [run_once] returns.  Its last two
    events are the report and the line that the scan is completed; all
    five counters are zero afterwards, and the configuration of the
    daemon is as it was. *)
Theorem run_once_returns lib env attrs w :
  only_Exceptions env ->
  Forall (fun loc => ContainerBroker_raises env (fst (fst loc)) = None)
    (audit_location_generator lib (devices attrs) (mount_check attrs)) ->
  exists attrs' w' evs counters elapsed,
    run_once lib env attrs w = (Ok attrs', w')
    /\ trace w'
       = trace w ++ evs
         ++ [EvLog (logger_info_line report_format counters);
             EvLog (logger_info_line
                      ("Container sync " +:+ quote +:+ "once" +:+ quote
                       +:+ " mode completed: %.02fs") [elapsed])]
    /\ container_syncs (daemon w') = 0
    /\ container_deletes (daemon w') = 0
    /\ container_puts (daemon w') = 0
    /\ container_skips (daemon w') = 0
    /\ container_failures (daemon w') = 0
    /\ container_time (daemon w') = container_time (daemon w)
    /\ allowed_sync_hosts (daemon w') = allowed_sync_hosts (daemon w)
    /\ devices attrs' = devices attrs
    /\ mount_check attrs' = mount_check attrs
    /\ interval attrs' = interval attrs.
Proof.
  intros Honly Hopen.
  unfold run_once, bind at 1, logger_info at 1. unfold bind at 1, time at 1.
  unfold bind at 1.
  match goal with
  | |- context [scan lib env _ attrs ?w0] =>
      destruct (scan_opens lib env _ Honly Hopen attrs w0)
        as (attrs1 & w1 & evs & -> & Htr & (Hd & Hm & Hi) & Htime & Hhosts)
  end.
  unfold bind at 1. rewrite report_spec.
  eexists _, _, (_ :: evs), _, _. split; [reflexivity|].
  cbn in Htr, Htime, Hhosts |- *.
  split; [rewrite Htr, <- !app_assoc; reflexivity|].
  repeat split; auto.
Qed.

Lemma run_once_returns_witness :
  only_Exceptions Scenario.env_ok
  /\ exists attrs' w',
       run_once (Setup.lib Setup.locs) Scenario.env_ok Setup.attrs0 Scenario.w12
       = (Ok attrs', w')
       /\ container_puts (daemon w') = 0
       /\ container_failures (daemon w') = 0
       /\ container_time (daemon w') = 60.
Proof.
  assert (Honly : only_Exceptions Scenario.env_ok).
  { split; [|split]; intros; discriminate. }
  split; [exact Honly|].
  destruct (run_once_returns (Setup.lib Setup.locs) Scenario.env_ok Setup.attrs0
              Scenario.w12 Honly)
    as (attrs' & w' & evs & counters & elapsed & Heq & _ & _ & _ & Hputs & _
        & Hfailures & Htime & _).
  { repeat constructor. }
  exists attrs', w'. repeat split; assumption.
Defined.

(** X21.  [run_once] stops at the first database whose broker cannot be
    opened.  When opening it raises an exception that derives from
    [Exception], the locations before it are scanned, then the
    [UnboundLocalError] of [container_sync] propagates out of
    [run_once]: [container_failures] is one more than after the
    locations before, and nothing else has happened since, so the later
    locations are not visited and the final report is not written. *)
Theorem run_once_stops_at_unopenable lib env attrs w pre path device partition
    post e :
  audit_location_generator lib (devices attrs) (mount_check attrs)
    = pre ++ (path, device, partition) :: post ->
  only_Exceptions env ->
  Forall (fun loc => ContainerBroker_raises env (fst (fst loc)) = None) pre ->
  Py.endswith path ".db" = true ->
  ContainerBroker_raises env path = Some e ->
  is_Exception e = true ->
  exists attrs1 w1 w',
    scan lib env pre attrs
      (tick (emit (EvLog (logger_info_line
                            ("Begin container sync " +:+ quote +:+ "once" +:+ quote
                             +:+ " mode") [])) w))
    = (Ok attrs1, w1)
    /\ run_once lib env attrs w = (Raise (UnboundLocalError "broker"), w')
    /\ after w1 [] w'
    /\ counts (daemon w1) (daemon w') 0 0 0 0 1.
Proof.
  intros Hlocs Honly Hopen Hdb Hraise Hexc.
  match goal with
  | |- context [scan lib env pre attrs ?w0] =>
      destruct (scan_opens lib env pre Honly Hopen attrs w0)
        as (attrs1 & w1 & evs & Hscan & _)
  end.
  exists attrs1, w1, (with_daemon incr_failures w1). split; [exact Hscan|].
  split; [|split; [apply after_with_daemon, after_refl | apply counts_incr_failures]].
  unfold run_once, bind at 1, logger_info at 1. unfold bind at 1, time at 1.
  unfold bind at 1. rewrite Hlocs, scan_app, Hscan.
  cbn [scan]. unfold bind at 1.
  rewrite (container_sync_unopenable env path w1 e Hdb Hraise Hexc). reflexivity.
Qed.

Lemma run_once_stops_at_unopenable_witness :
  only_Exceptions Setup.env_locked
  /\ (exists w',
        run_once (Setup.lib Setup.locs) Setup.env_locked Setup.attrs0
          Scenario.w12
        = (Raise (UnboundLocalError "broker"), w'))
  /\ trace (snd (run_once (Setup.lib Setup.locs) Setup.env_locked Setup.attrs0
                   Scenario.w12))
     = [EvLog (logger_info_line
                 ("Begin container sync " +:+ quote +:+ "once" +:+ quote +:+ " mode")
                 []);
        EvLog (logger_exception_line "ERROR Syncing %s" ["a.db"%string])]
  /\ container_failures
       (daemon (snd (run_once (Setup.lib Setup.locs) Setup.env_locked Setup.attrs0
                       Scenario.w12)))
     = 2.
Proof.
  assert (Honly : only_Exceptions Setup.env_locked).
  { split; [|split]; intros; discriminate. }
  split; [exact Honly|]. split.
  - destruct (run_once_stops_at_unopenable (Setup.lib Setup.locs)
                Setup.env_locked Setup.attrs0 Scenario.w12
                [("a.db", "sda", "11")]%string "c.db" "sda" "12" []
                (Exception "unable to open database file")
                eq_refl Honly)
      as (attrs1 & w1 & w' & _ & Heq & _).
    { repeat constructor. }
    { reflexivity. }
    { reflexivity. }
    { reflexivity. }
    eexists. exact Heq.
  - vm_compute. split; reflexivity.
Defined.

(** ** Where the requests of a pass go *)

Lemma rev_app_rev_app s1 s2 :
  String.rev_app (String.rev_app s1 s2) EmptyString = String.rev_app s2 s1.
Proof.
  revert s2. induction s1 as [|a s1 IH]; intros s2; [reflexivity|].
  cbn [String.rev_app]. rewrite IH. reflexivity.
Qed.

Lemma rev_rev s : String.rev (String.rev s) = s.
Proof. unfold String.rev. rewrite rev_app_rev_app. reflexivity. Qed.

Lemma lstrip_not_prefix c s :
  String.prefix (String c EmptyString) (Py.lstrip c s) = false.
Proof.
  induction s as [|a s IH]; [reflexivity|]. cbn [Py.lstrip].
  destruct (Ascii.eqb_spec a c) as [->|Hne]; [exact IH|].
  cbn. destruct (ascii_dec c a) as [->|]; [contradiction | reflexivity].
Qed.

Lemma rstrip_no_trailing c s :
  Py.endswith (Py.rstrip c s) (String c EmptyString) = false.
Proof.
  unfold Py.endswith, Py.rstrip. rewrite rev_rev. apply lstrip_not_prefix.
Qed.

Lemma delete_headers_key row sync_key :
  delete_headers row sync_key !! "X-Container-Sync-Key" = Some sync_key.
Proof.
  unfold delete_headers. rewrite lookup_insert_ne by discriminate.
  apply lookup_singleton_eq.
Qed.

Lemma row_calls_to_target env row sync_to sync_key broker info w :
  exists r w' evs,
    container_sync_row env row sync_to sync_key broker info w = (r, w')
    /\ trace w' = trace w ++ evs
    /\ Forall (to_target sync_to sync_key) (calls evs).
Proof.
  destruct (row_calls env row sync_to sync_key broker info w)
    as (r & w' & evs & Heq & Htr & Hcalls).
  exists r, w', evs. split; [exact Heq|]. split; [exact Htr|].
  destruct (deleted row).
  - rewrite Hcalls. constructor; [|constructor].
    split; [reflexivity | apply delete_headers_key].
  - destruct Hcalls as (fetched & w1 & k & _ & -> & _).
    apply Forall_app. split.
    + apply Forall_fmap, Forall_forall. intros n _. exact I.
    + destruct fetched as [[headers body]|e]; [|constructor].
      constructor; [|constructor]. split; [reflexivity|].
      destruct (put_headers_spec row sync_key headers) as (_ & _ & _ & _ & Hkey & _).
      exact Hkey.
Qed.

Lemma sync_rows_to_target env broker info sync_to sync_key stop_at :
  forall fuel c w,
    exists r w' evs,
      sync_rows fuel env broker info sync_to sync_key stop_at c w = (r, w')
      /\ trace w' = trace w ++ evs
      /\ Forall (to_target sync_to sync_key) (calls evs).
Proof.
  induction fuel as [|fuel IH]; intros c w.
  { exists (Ok Unfinished), w, []. cbn [sync_rows ret].
    split; [reflexivity|]. split; [rewrite app_nil_r; reflexivity | constructor]. }
  cbn [sync_rows]. unfold bind at 1. unfold time at 1.
  destruct (time_time env (time_reads w) <? stop_at); cbn [negb].
  2:{ exists (Ok DeadlinePassed), (tick w), [].
      split; [reflexivity|]. split; [cbn; rewrite app_nil_r; reflexivity | constructor]. }
  unfold bind at 1. unfold get_items_since, bind at 1, broker_db.
  cbn [fs tick].
  destruct (fs w !! db_file broker) as [db|] eqn:Hfs.
  2:{ exists (Raise (Exception "DatabaseError")), (tick w), [].
      split; [reflexivity|]. split; [cbn; rewrite app_nil_r; reflexivity | constructor]. }
  cbn [ret].
  destruct (rows_since c 1 (objects db)) as [|row rest].
  { exists (Ok RowsExhausted), (tick w), [].
    split; [reflexivity|]. split; [cbn; rewrite app_nil_r; reflexivity | constructor]. }
  unfold bind at 1.
  destruct (row_calls_to_target env row sync_to sync_key broker info (tick w))
    as (r1 & w1 & evs1 & -> & Htr1 & Hcalls1).
  destruct r1 as [ok|e].
  2:{ exists (Raise e), w1, evs1. split; [reflexivity|].
      split; [exact Htr1 | exact Hcalls1]. }
  unfold bind at 1, note_sync_row.
  destruct ok; cbn [negb].
  2:{ exists (Ok RowFailed), (emit (EvSyncRow (ROWID row) false) w1),
        (evs1 ++ [EvSyncRow (ROWID row) false]).
      cbn. rewrite Htr1, <- app_assoc. cbn.
      split; [reflexivity|]. split; [reflexivity|].
      rewrite calls_app. cbn. rewrite app_nil_r. exact Hcalls1. }
  unfold bind at 1. unfold set_x_container_sync_row, bind at 1, broker_db.
  destruct (fs (emit (EvSyncRow (ROWID row) true) w1) !! db_file broker) as [db'|].
  2:{ eexists _, _, (evs1 ++ [EvSyncRow (ROWID row) true]).
      split; [reflexivity|]. split.
      - cbn. rewrite Htr1, <- app_assoc. reflexivity.
      - rewrite calls_app. cbn. rewrite app_nil_r. exact Hcalls1. }
  match goal with
  | |- context [sync_rows fuel env broker info sync_to sync_key stop_at (ROWID row) ?w3] =>
      destruct (IH (ROWID row) w3) as (r & w' & evs & Heq & Htr & Hcalls);
      assert (Htr3 : trace w3 = trace w ++ evs1
                     ++ [EvSyncRow (ROWID row) true;
                         EvSetCursor (db_file broker) (ROWID row)])
        by (cbn; rewrite Htr1; cbn; rewrite <- !app_assoc; reflexivity)
  end.
  exists r, w',
    (evs1 ++ [EvSyncRow (ROWID row) true; EvSetCursor (db_file broker) (ROWID row)]
     ++ evs).
  split; [exact Heq|]. split.
  - rewrite Htr, Htr3, <- !app_assoc. reflexivity.
  - rewrite !calls_app. cbn. apply Forall_app. split; assumption.
Qed.

(** X22.  Every DELETE and every PUT of a pass goes to the container's
    [x-container-sync-to] stripped of trailing slashes and carries the
    container's [x-container-sync-key] in [X-Container-Sync-Key]; the
    stripped target does not end in a slash. *)
Theorem requests_go_to_target env path w db :
  fs w !! path = Some db ->
  exists r w' evs,
    container_sync env path w = (r, w')
    /\ trace w' = trace w ++ evs
    /\ Forall
         (to_target
            (Py.rstrip "/"
               (default EmptyString (fst (scan_metadata (metadata db) None None))))
            (default EmptyString (snd (scan_metadata (metadata db) None None))))
         (calls evs)
    /\ Py.endswith
         (Py.rstrip "/"
            (default EmptyString (fst (scan_metadata (metadata db) None None))))
         "/" = false.
Proof.
  intros Hfs.
  assert (Hslash := rstrip_no_trailing "/"
    (default EmptyString (fst (scan_metadata (metadata db) None None)))).
  rewrite container_sync_unfold, Hfs.
  destruct (negb (Py.endswith path ".db")).
  { exists (Ok NotADatabase), w, []. rewrite app_nil_r. repeat split; auto. }
  destruct (ContainerBroker_raises env path) as [e0|].
  { destruct (is_Exception e0); eexists _, _, [];
      (split; [reflexivity|]); cbn [trace with_daemon];
      rewrite app_nil_r; repeat split; auto. }
  cbv zeta.
  destruct (db_is_deleted db).
  { exists (Ok ContainerDeleted), w, []. rewrite app_nil_r. repeat split; auto. }
  destruct (scan_metadata (metadata db) None None) as [sync_to sync_key].
  cbn [fst snd] in *.
  destruct (negb (Py.truthy sync_to) || negb (Py.truthy sync_key)).
  { eexists _, _, []. split; [reflexivity|]. cbn [trace with_daemon].
    rewrite app_nil_r. repeat split; auto. }
  destruct (Py.truthy (validate_sync_to env _ _)).
  { eexists _, _, [_]. split; [reflexivity|]. split; [reflexivity|].
    split; [constructor | exact Hslash]. }
  destruct (sync_rows_to_target env {| db_file := path |}
               {| info_account := account db; info_container := container db;
                  info_x_container_sync_row := x_container_sync_row db |}
               (Py.rstrip "/" (default EmptyString sync_to))
               (default EmptyString sync_key)
               (time_time env (time_reads w) + container_time (daemon w))
               (S (length (objects db))) (x_container_sync_row db) (tick w))
    as (r & w' & evs & -> & Htr & Hcalls).
  cbn [trace tick] in Htr.
  destruct r as [exit|e].
  - exists (Ok exit). eexists. exists evs. split; [reflexivity|].
    split; [destruct exit; exact Htr|]. split; assumption.
  - destruct (is_Exception e).
    + eexists _, _, (evs ++ [_]). split; [reflexivity|].
      split; [cbn; rewrite Htr, <- app_assoc; reflexivity|].
      split; [|exact Hslash].
      rewrite calls_app. cbn. rewrite app_nil_r. exact Hcalls.
    + exists (Raise e), w', evs. split; [reflexivity|]. split; [exact Htr|].
      split; assumption.
Qed.

Lemma requests_go_to_target_witness :
  fs Scenario.w12 !! "c.db" = Some Scenario.db12
  /\ exists r w' evs,
       container_sync Scenario.env_ok "c.db" Scenario.w12 = (r, w')
       /\ trace w' = trace Scenario.w12 ++ evs
       /\ Forall (to_target "http://10.0.0.5/v1/AUTH_x/dest" "secret") (calls evs).
Proof.
  split; [reflexivity|].
  destruct (requests_go_to_target Scenario.env_ok "c.db" Scenario.w12 Scenario.db12
              eq_refl)
    as (r & w' & evs & Heq & Htr & Hcalls & _).
  exists r, w', evs. repeat split; assumption.
Defined.
